(** * Event-CSV ingestion: header reconciliation, row normalisation and
      record validation (part1-data-quality)

    A shallow embedding of [shared.py], [ingest.py] and [validator.py].

    - Python [str] values are sequences of Unicode code points ([pystr]).
    - Python values that can occur in a row are the constructors of [PyVal];
      [bool] is a subclass of [int], which [isinstance_int] records.
    - The raw row is an ordered list of items (a [dict] iterated in insertion
      order); the [normalized] dictionary, whose order is never observed, is a
      [gmap].
    - Library calls whose behaviour is not fixed by this repository
      ([str.lower] outside ASCII, [str()], [datetime.fromisoformat],
      [pandas.to_datetime], [json.loads], [json.dumps]) are the fields of a
      [Runtime] record over which every definition is parametrised.
    - A call either returns, raises [ValueError] (which the validation
      framework turns into a field error) or raises something else, which
      propagates: the three constructors of [Outcome]. *)

From Stdlib Require Import ZArith NArith QArith String Ascii.
From stdpp Require Import base option list gmap sorting.

Local Open Scope Z_scope.

(** ** Strings *)

Abbreviation pystr := (list N) (only parsing).

Definition py (s : string) : pystr := N_of_ascii <$> list_ascii_of_string s.

(** [str.isspace] for one code point. *)
Definition is_space (c : N) : bool :=
  ((9 <=? c) && (c <=? 13) || (28 <=? c) && (c <=? 32)
   || (c =? 133) || (c =? 160) || (c =? 5760)
   || (8192 <=? c) && (c <=? 8202)
   || (c =? 8232) || (c =? 8233) || (c =? 8239) || (c =? 8287)
   || (c =? 12288))%N.

Fixpoint lstrip (s : pystr) : pystr :=
  match s with
  | c :: s' => if is_space c then lstrip s' else s
  | [] => []
  end.

Definition rstrip (s : pystr) : pystr := reverse (lstrip (reverse s)).

(** [str.strip()] *)
Definition strip (s : pystr) : pystr := rstrip (lstrip s).

(** [_BOM], the byte-order mark U+FEFF *)
Definition _BOM : N := 65279%N.

(** [s.replace(_BOM, "")]: the marker is one code point. *)
Definition remove_bom (s : pystr) : pystr :=
  filter (λ c, c ≠ _BOM) s.

Definition ascii_lower_char (c : N) : N :=
  if ((65 <=? c) && (c <=? 90))%N then (c + 32)%N else c.

Definition ascii_lower (s : pystr) : pystr := ascii_lower_char <$> s.

Definition is_ascii (s : pystr) : Prop := Forall (λ c, (c < 128)%N) s.

(** [sep.join(parts)] *)
Fixpoint join (sep : pystr) (parts : list pystr) : pystr :=
  match parts with
  | [] => []
  | [p] => p
  | p :: rest => p ++ sep ++ join sep rest
  end.

(** [c in s] for a one-character [c]. *)
Definition contains_char (c : N) (s : pystr) : bool := bool_decide (c ∈ s).

(** [s.replace(old, new, 1)] for one-character [old] and [new]. *)
Fixpoint replace_first (old new : N) (s : pystr) : pystr :=
  match s with
  | [] => []
  | c :: s' => if decide (c = old) then new :: s' else c :: replace_first old new s'
  end.

(** [s.endswith(c)] for a one-character [c]. *)
Definition endswith_char (c : N) (s : pystr) : bool := bool_decide (last s = Some c).

(** [s[:-1]] *)
Definition drop_last (s : pystr) : pystr := take (length s - 1) s.

(** ** Values *)

Inductive PyFloat : Type :=
| FFinite (q : Q)
| FInf
| FNegInf
| FNaN.

Record Datetime : Type := mkDatetime {
  dt_epoch_us : Z;
  dt_utcoffset : option Z
}.

#[warnings="-register-all"]
Inductive PyVal : Type :=
| VNone
| VBool (b : bool)
| VInt (n : Z)
| VFloat (f : PyFloat)
| VStr (s : pystr)
| VDatetime (d : Datetime)
| VDict (items : list (pystr * PyVal))
| VList (elems : list PyVal).

(** [isinstance(v, str)] and friends.  [bool] is a subclass of [int]. *)
Definition isinstance_int (v : PyVal) : bool :=
  match v with VInt _ | VBool _ => true | _ => false end.

Definition isinstance_float (v : PyVal) : bool :=
  match v with VFloat _ => true | _ => false end.

Definition isinstance_bool (v : PyVal) : bool :=
  match v with VBool _ => true | _ => false end.

(** Truth value of an object, as tested by [if x] and [x and y]. *)
Definition truthy (v : PyVal) : bool :=
  match v with
  | VNone => false
  | VBool b => b
  | VInt n => negb (n =? 0)
  | VFloat (FFinite q) => negb (Qeq_bool q 0)
  | VFloat _ => true
  | VStr s => negb (bool_decide (s = []))
  | VDatetime _ => true
  | VDict items => negb (bool_decide (items = []))
  | VList elems => negb (bool_decide (elems = []))
  end.

(** ** Outcomes of calls *)

Inductive Outcome (A : Type) : Type :=
| Return (a : A)
| ValueError (msg : pystr)
| Raise (exc : pystr).
Arguments Return {A} a.
Arguments ValueError {A} msg.
Arguments Raise {A} exc.

#[global] Instance outcome_bind : MBind Outcome := λ A B k o,
  match o with
  | Return a => k a
  | ValueError m => ValueError m
  | Raise e => Raise e
  end.

Inductive Unit : Type := Seconds | Millis.

(** [pd.to_datetime(v, unit=..., errors="raise").to_pydatetime()] *)
Record Pandas : Type := mkPandas {
  to_datetime : PyVal → option Unit → Outcome PyVal
}.

Record Runtime : Type := mkRuntime {
  (** [str.lower] *)
  str_lower : pystr → pystr;
  (** [str(v)] and [format(v, "")] on a value that is not a [str] *)
  str_of : PyVal → pystr;
  (** [datetime.fromisoformat]; [None] stands for its [ValueError] *)
  fromisoformat : pystr → option Datetime;
  (** the [pd] module, [None] when the import failed *)
  pd : option Pandas;
  (** [json.loads]; [inl msg] stands for [JSONDecodeError] with [exc.msg = msg] *)
  json_loads : pystr → pystr + PyVal;
  (** [json.dumps(d, separators=(",", ":"))]; [None] when it raises *)
  json_dumps : list (pystr * PyVal) → option pystr;
  (** the framework's own conversion to a datetime of a value that is not one;
      [inl msg] is its error message *)
  lax_datetime : PyVal → pystr + Datetime
}.

(** [str.lower] agrees with ASCII lower-casing on ASCII strings. *)
Definition lower_ascii_ok (R : Runtime) : Prop :=
  ∀ s, is_ascii s → str_lower R s = ascii_lower s.

(** ** shared.py: header and row normalisation *)

Definition EXPECTED_HEADERS : list pystr :=
  [py "client_id"; py "page_url"; py "referrer"; py "timestamp";
   py "event_name"; py "event_data"; py "user_agent"].

Definition CORE_HEADERS : list pystr :=
  [py "client_id"; py "page_url"; py "timestamp";
   py "event_name"; py "event_data"; py "user_agent"].

(** [x in xs] *)
Definition py_in (x : pystr) (xs : list pystr) : bool := bool_decide (x ∈ xs).

(** [a == b] on strings *)
Definition str_eqb (a b : pystr) : bool := bool_decide (a = b).

(** A raw row: the items of the reader's dictionary in column order.  The key
    is [None] for the reader's rest key, a header string otherwise. *)
Abbreviation RawRow := (list (option pystr * PyVal)) (only parsing).

Definition key_value (k : option pystr) : PyVal :=
  match k with
  | None => VNone
  | Some s => VStr s
  end.

(** [existing.strip() == ""] guarded by [isinstance(existing, str)] *)
Definition is_blank_str (v : PyVal) : bool :=
  match v with
  | VStr s => str_eqb (strip s) []
  | _ => false
  end.

Definition choose_value (existing candidate : PyVal) : PyVal :=
  match existing with
  | VNone => candidate
  | _ => if is_blank_str existing then candidate else existing
  end.

(** Null, or an empty or whitespace-only string. *)
Definition is_empty_value (v : PyVal) : bool :=
  match v with
  | VNone => true
  | _ => is_blank_str v
  end.

(** [d.get(k)], with [None] for a missing key *)
Definition dict_get (d : gmap pystr PyVal) (k : pystr) : PyVal :=
  default VNone (d !! k).

(** String order used by [sorted]: lexicographic on code points. *)
Fixpoint str_leb (a b : pystr) : bool :=
  match a, b with
  | [], _ => true
  | _ :: _, [] => false
  | x :: a', y :: b' => if (x <? y)%N then true else if (y <? x)%N then false else str_leb a' b'
  end.

Definition sorted (l : list pystr) : list pystr :=
  merge_sort (λ a b, Is_true (str_leb a b)) l.

Record HeaderReport : Type := mkHeaderReport {
  headers : list pystr;
  normalized_headers : list pystr;
  extra_columns : list pystr;
  missing_core : list pystr
}.

(** What reading the file produced: no header line at all, or the sanitised
    headers and the rows keyed by them. *)
Inductive CsvRead : Type :=
| NoHeaderLine
| Table (hdrs : list pystr) (rows : list RawRow).

Section Shared.

Variable R : Runtime.

Definition sanitize_header (name : PyVal) : pystr :=
  match name with
  | VNone => []
  | VStr s => strip (remove_bom s)
  | _ => strip (remove_bom (str_of R name))
  end.

Definition normalize_column_name (name : PyVal) : pystr :=
  let raw := sanitize_header name in
  let lower := str_lower R raw in
  if py_in lower [py "clientid"; py "client_id"] || str_eqb raw (py "clientId") then py "client_id"
  else if py_in lower [py "eventname"; py "event_name"] || str_eqb raw (py "eventName") then py "event_name"
  else if py_in lower [py "eventdata"; py "event_data"] || str_eqb raw (py "eventData") then py "event_data"
  else if py_in lower [py "pageurl"; py "page_url"] || str_eqb raw (py "pageUrl") then py "page_url"
  else if py_in lower [py "useragent"; py "user_agent"] || str_eqb raw (py "userAgent") then py "user_agent"
  else if str_eqb lower (py "referrer") then py "referrer"
  else if str_eqb lower (py "timestamp") then py "timestamp"
  else if str_eqb lower (py "date") then py "date"
  else if str_eqb lower (py "time") then py "time"
  else raw.

(** [column_map.get(src_key, normalize_column_name(src_key))] *)
Definition target_key (column_map : gmap pystr pystr) (src_key : option pystr) : pystr :=
  default (normalize_column_name (key_value src_key)) (src_key ≫= (column_map !!.)).

(** One iteration of the loop over [row.items()]. *)
Definition merge_item (column_map : gmap pystr pystr)
    (normalized : gmap pystr PyVal) (item : option pystr * PyVal) : gmap pystr PyVal :=
  let norm_key := target_key column_map item.1 in
  <[norm_key := choose_value (dict_get normalized norm_key) item.2]> normalized.

Definition merge_columns (column_map : gmap pystr pystr) (row : RawRow) : gmap pystr PyVal :=
  foldl (merge_item column_map) ∅ row.

(** The values of the source columns that map to [k], in column order. *)
Definition sources (column_map : gmap pystr pystr) (k : pystr) (row : RawRow) : list PyVal :=
  snd <$> filter (λ item, target_key column_map item.1 = k) row.

(** The formatted field [{v}] of an f-string. *)
Definition fmt (v : PyVal) : pystr :=
  match v with
  | VStr s => s
  | _ => str_of R v
  end.

Definition derive_timestamp (normalized : gmap pystr PyVal) : gmap pystr PyVal :=
  let date_part := dict_get normalized (py "date") in
  let time_part := dict_get normalized (py "time") in
  if truthy date_part && truthy time_part then
    <[py "timestamp" := VStr (fmt date_part ++ py " " ++ fmt time_part)]> normalized
  else if truthy date_part then <[py "timestamp" := date_part]> normalized
  else if truthy time_part then <[py "timestamp" := time_part]> normalized
  else normalized.

Definition normalize_row (row : RawRow) (column_map : gmap pystr pystr)
    (derive_timestamp_from_date_time : bool) : gmap pystr PyVal :=
  let normalized := merge_columns column_map row in
  let normalized :=
    if derive_timestamp_from_date_time && negb (bool_decide (is_Some (normalized !! py "timestamp")))
    then derive_timestamp normalized else normalized in
  filter (λ kv, kv.1 ∈ EXPECTED_HEADERS) normalized.

(** [["timestamp" if h == old else h for h in hs]] *)
Definition rename_to_timestamp (old : pystr) (h : pystr) : pystr :=
  if str_eqb h old then py "timestamp" else h.

(** The part of [iter_csv_rows] after the file has been read. *)
Definition iter_csv_rows (file : CsvRead) : list (gmap pystr PyVal) * HeaderReport :=
  match file with
  | NoHeaderLine =>
      ([], {| headers := []; normalized_headers := []; extra_columns := [];
              missing_core := CORE_HEADERS |})
  | Table hdrs rows =>
      let normalized_headers := (λ h, normalize_column_name (VStr h)) <$> hdrs in
      let has_timestamp := py_in (py "timestamp") normalized_headers in
      let has_date := py_in (py "date") normalized_headers in
      let has_time := py_in (py "time") normalized_headers in
      let derive_timestamp_from_date_time := negb has_timestamp && (has_date && has_time) in
      let column_map : gmap pystr pystr :=
        list_to_map ((λ h, (h, normalize_column_name (VStr h))) <$> hdrs) in
      let '(column_map, normalized_headers) :=
        if negb has_timestamp && has_date && negb has_time then
          (rename_to_timestamp (py "date") <$> column_map,
           rename_to_timestamp (py "date") <$> normalized_headers)
        else if negb has_timestamp && has_time && negb has_date then
          (rename_to_timestamp (py "time") <$> column_map,
           rename_to_timestamp (py "time") <$> normalized_headers)
        else (column_map, normalized_headers) in
      let normalized_rows :=
        (λ row, normalize_row row column_map derive_timestamp_from_date_time) <$> rows in
      let effective_header_set : gset pystr := list_to_set normalized_headers in
      let effective_header_set :=
        if derive_timestamp_from_date_time then
          (({[py "timestamp"]} ∪ effective_header_set) ∖ {[py "date"]}) ∖ {[py "time"]}
        else effective_header_set in
      (normalized_rows,
       {| headers := hdrs;
          normalized_headers := sorted (elements effective_header_set);
          extra_columns :=
            sorted (filter (λ c, c ∉ EXPECTED_HEADERS) (elements effective_header_set));
          missing_core :=
            sorted (filter (λ c, c ∉ effective_header_set) CORE_HEADERS) |})
  end.

End Shared.

(** ** shared.py: the event model and its field validators *)

Inductive EventName : Type :=
| page_viewed
| purchase
| checkout_started
| checkout_completed
| product_added_to_cart
| email_filled_on_popup.

Definition event_value (e : EventName) : pystr :=
  match e with
  | page_viewed => py "page_viewed"
  | purchase => py "purchase"
  | checkout_started => py "checkout_started"
  | checkout_completed => py "checkout_completed"
  | product_added_to_cart => py "product_added_to_cart"
  | email_filled_on_popup => py "email_filled_on_popup"
  end.

Definition event_names : list EventName :=
  [page_viewed; purchase; checkout_started; checkout_completed;
   product_added_to_cart; email_filled_on_popup].

Record RawEvent : Type := mkRawEvent {
  client_id : pystr;
  timestamp : Datetime;
  event_name : EventName;
  event_data : list (pystr * PyVal);
  page_url : pystr;
  referrer : option pystr;
  user_agent : pystr
}.

(** [value > n] for a numeric [value] and an integer literal [n]; the
    comparison of a float with an integer is exact. *)
Definition gt_int (value : PyVal) (n : Z) : bool :=
  match value with
  | VBool b => n <? Z.b2z b
  | VInt z => n <? z
  | VFloat (FFinite q) => negb (Qle_bool q (inject_Z n))
  | VFloat FInf => true
  | _ => false
  end.

(** The [unit] chosen on line 73. *)
Definition epoch_unit (value : PyVal) : Unit :=
  if gt_int value 10000000000 then Millis else Seconds.

(** Milliseconds since the epoch denoted by an integer count of [unit]s. *)
Definition epoch_millis (unit : Unit) (n : Z) : Z :=
  match unit with
  | Seconds => n * 1000
  | Millis => n
  end.

(** One field's result inside the validation framework: the validated value,
    a field error with its message, or an exception that is not a validation
    error and propagates out of [model_validate]. *)
Inductive Checked (A : Type) : Type :=
| Accepted (a : A)
| Rejected (msg : pystr)
| Aborted (exc : pystr).
Arguments Accepted {A} a.
Arguments Rejected {A} msg.
Arguments Aborted {A} exc.

#[global] Instance checked_bind : MBind Checked := λ A B k c,
  match c with
  | Accepted a => k a
  | Rejected m => Rejected m
  | Aborted e => Aborted e
  end.

(** A [ValueError] raised inside a field validator becomes that field's error. *)
Definition run_validator {A} (o : Outcome A) : Checked A :=
  match o with
  | Return a => Accepted a
  | ValueError m => Rejected (py "Value error, " ++ m)
  | Raise e => Aborted e
  end.

Record ErrorDetails : Type := mkError {
  err_loc : list pystr;
  err_msg : pystr
}.

Inductive Validation : Type :=
| Valid (model : RawEvent)
| ValidationError (errors : list ErrorDetails)
| Propagated (exc : pystr).

Definition errors_of {A} (field : pystr) (c : Checked A) : list ErrorDetails :=
  match c with
  | Rejected m => [{| err_loc := [field]; err_msg := m |}]
  | _ => []
  end.

Definition aborted {A} (c : Checked A) : option pystr :=
  match c with
  | Aborted e => Some e
  | _ => None
  end.

(** The first exception met, in field order. *)
Definition or_else (first rest : option pystr) : option pystr :=
  match first with
  | Some e => Some e
  | None => rest
  end.

(** The message of a field error, if the field failed. *)
Definition rejection {A} (c : Checked A) : option pystr :=
  match c with
  | Rejected m => Some m
  | _ => None
  end.

Section RawEventValidators.

Variable R : Runtime.

Definition normalize_timestamp (value : PyVal) : Outcome PyVal :=
  match value with
  | VNone => ValueError (py "timestamp is null")
  | VDatetime _ => Return value
  | VStr s =>
      let raw := strip s in
      if str_eqb raw [] then ValueError (py "timestamp is empty")
      else
        let candidate := raw in
        let candidate :=
          if contains_char 32 candidate && negb (contains_char 84 candidate)
          then replace_first 32 84 candidate else candidate in
        let candidate :=
          if endswith_char 90 candidate
          then drop_last candidate ++ py "+00:00" else candidate in
        match fromisoformat R candidate with
        | Some d => Return (VDatetime d)
        | None =>
            match pd R with
            | None => ValueError (py "timestamp is not a valid datetime")
            | Some pandas => to_datetime pandas (VStr raw) None
            end
        end
  | _ =>
      if isinstance_int value || isinstance_float value then
        match pd R with
        | None => ValueError (py "timestamp numeric provided but pandas unavailable")
        | Some pandas => to_datetime pandas value (Some (epoch_unit value))
        end
      else if isinstance_bool value then
        ValueError (py "timestamp is not a valid datetime")
      else Return value
  end.

Definition non_empty_string (value : PyVal) : Outcome pystr :=
  match value with
  | VNone => ValueError (py "required field is null")
  | _ =>
      let value := match value with VStr s => s | _ => str_of R value end in
      let value := strip value in
      if str_eqb value [] then ValueError (py "required field is empty")
      else Return value
  end.

Definition parse_event_data (value : PyVal) : Outcome (list (pystr * PyVal)) :=
  match value with
  | VNone => Return []
  | VDict items => Return items
  | VStr s =>
      let raw := strip s in
      if str_eqb raw [] then Return []
      else if str_eqb (str_lower R raw) (py "null") then Return []
      else
        match json_loads R raw with
        | inl exc_msg => ValueError (py "event_data is not valid JSON: " ++ exc_msg)
        | inr (VDict items) => Return items
        | inr _ => ValueError (py "event_data JSON must be an object")
        end
  | _ => ValueError (py "event_data must be a JSON string or dict")
  end.

Definition normalize_event_name (value : PyVal) : PyVal :=
  match value with
  | VStr s => VStr (str_lower R (strip s))
  | _ => value
  end.

(** The framework's own check of each declared field type. *)
Definition core_str (v : PyVal) : Checked pystr :=
  match v with
  | VStr s => Accepted s
  | _ => Rejected (py "Input should be a valid string")
  end.

Definition core_datetime (v : PyVal) : Checked Datetime :=
  match v with
  | VDatetime d => Accepted d
  | _ =>
      match lax_datetime R v with
      | inl m => Rejected m
      | inr d => Accepted d
      end
  end.

Definition core_enum (v : PyVal) : Checked EventName :=
  let expected :=
    py "Input should be 'page_viewed', 'purchase', 'checkout_started', 'checkout_completed', 'product_added_to_cart' or 'email_filled_on_popup'" in
  match v with
  | VStr s =>
      match list_find (λ e, event_value e = s) event_names with
      | Some (_, e) => Accepted e
      | None => Rejected expected
      end
  | _ => Rejected expected
  end.

Definition required {A} (input : option PyVal) (check : PyVal → Checked A) : Checked A :=
  match input with
  | None => Rejected (py "Field required")
  | Some v => check v
  end.

(** [client_id], [page_url], [user_agent]: declared [str], then [non_empty_string]. *)
Definition check_text (input : option PyVal) : Checked pystr :=
  required input (λ v, s ← core_str v; run_validator (non_empty_string (VStr s))).

(** [timestamp]: [normalize_timestamp] first, then declared [datetime]. *)
Definition check_timestamp (input : option PyVal) : Checked Datetime :=
  required input (λ v, v' ← run_validator (normalize_timestamp v); core_datetime v').

(** [event_name]: [normalize_event_name] first, then the enumeration. *)
Definition check_event_name (input : option PyVal) : Checked EventName :=
  required input (λ v, core_enum (normalize_event_name v)).

(** [event_data]: [parse_event_data] first, then declared [dict[str, Any]]. *)
Definition check_event_data (input : option PyVal) : Checked (list (pystr * PyVal)) :=
  required input (λ v, run_validator (parse_event_data v)).

(** [referrer: Optional[str] = None] *)
Definition check_referrer (input : option PyVal) : Checked (option pystr) :=
  match input with
  | None | Some VNone => Accepted None
  | Some v => s ← core_str v; Accepted (Some s)
  end.

(** [RawEvent.model_validate(row)]: every field is checked, in declaration
    order, and the errors of all of them are reported together. *)
Definition model_validate (row : gmap pystr PyVal) : Validation :=
  let r_client_id := check_text (row !! py "client_id") in
  let r_timestamp := check_timestamp (row !! py "timestamp") in
  let r_event_name := check_event_name (row !! py "event_name") in
  let r_event_data := check_event_data (row !! py "event_data") in
  let r_page_url := check_text (row !! py "page_url") in
  let r_referrer := check_referrer (row !! py "referrer") in
  let r_user_agent := check_text (row !! py "user_agent") in
  match or_else (aborted r_client_id) (or_else (aborted r_timestamp)
        (or_else (aborted r_event_name) (or_else (aborted r_event_data)
        (or_else (aborted r_page_url) (or_else (aborted r_referrer)
        (aborted r_user_agent)))))) with
  | Some exc => Propagated exc
  | None =>
      match r_client_id, r_timestamp, r_event_name, r_event_data,
            r_page_url, r_referrer, r_user_agent with
      | Accepted c, Accepted t, Accepted n, Accepted d, Accepted p, Accepted r, Accepted u =>
          Valid {| client_id := c; timestamp := t; event_name := n; event_data := d;
                   page_url := p; referrer := r; user_agent := u |}
      | _, _, _, _, _, _, _ =>
          ValidationError
            (errors_of (py "client_id") r_client_id
             ++ errors_of (py "timestamp") r_timestamp
             ++ errors_of (py "event_name") r_event_name
             ++ errors_of (py "event_data") r_event_data
             ++ errors_of (py "page_url") r_page_url
             ++ errors_of (py "referrer") r_referrer
             ++ errors_of (py "user_agent") r_user_agent)
      end
  end.

End RawEventValidators.

(** ** ingest.py and validator.py *)

(** The message built from one entry of [exc.errors()]. *)
Definition summarize (err : ErrorDetails) : pystr :=
  let loc := join (py ".") (err_loc err) in
  let msg := err_msg err in
  if truthy (VStr loc) then loc ++ py ": " ++ msg else msg.

Record QuarantineRow : Type := mkQuarantineRow {
  q_values : list (pystr * PyVal);
  error_reason : pystr
}.

Definition failure_row (row : gmap pystr PyVal) (errors : list ErrorDetails) : QuarantineRow :=
  {| q_values := (λ k, (k, dict_get row k)) <$> EXPECTED_HEADERS;
     error_reason := join (py " | ") (summarize <$> errors) |}.

(** The record handed to the bulk insert: the dumped model with the event
    name as its string and the event data as compact JSON text. *)
Record StoredRow : Type := mkStoredRow {
  s_client_id : pystr;
  s_timestamp : Datetime;
  s_event_name : pystr;
  s_event_data : pystr;
  s_page_url : pystr;
  s_referrer : option pystr;
  s_user_agent : pystr
}.

(** One row of [pipeline_logs]; the wall-clock [run_timestamp] is left out. *)
Record RunLogEntry : Type := mkRunLogEntry {
  filename : pystr;
  rows_read : nat;
  rows_inserted : nat;
  rows_quarantined : nat;
  status : pystr
}.

Record Store : Type := mkStore {
  raw_events : list StoredRow;
  pipeline_logs : list RunLogEntry;
  quarantine_files : list (pystr * list QuarantineRow)
}.

(** Truth value of a count, as tested by [if n]. *)
Definition nonzero (n : nat) : bool := negb (n =? 0)%nat.

(** Lines 130-134 of ingest.py. *)
Definition run_status (rows_quarantined rows_inserted : nat) : pystr :=
  let status := py "COMPLETED" in
  if nonzero rows_quarantined && nonzero rows_inserted then py "partial_failure"
  else if nonzero rows_quarantined && negb (nonzero rows_inserted) then py "FAILED"
  else status.

(** Counters of the dry run. *)
Record Tally : Type := mkTally {
  passed : nat;
  failed : nat;
  error_counts : gmap pystr nat;
  written : list (pystr * list QuarantineRow)
}.

(** [error_counts[summary] += 1] *)
Definition count_up (counts : gmap pystr nat) (summary : pystr) : gmap pystr nat :=
  <[summary := S (default 0%nat (counts !! summary))]> counts.

(** The process status that [raise SystemExit(main())] leaves: the value
    [main] returned, or 1 when an exception escaped. *)
Definition exit_status {S} (run : Outcome (Z * S)) : Z :=
  match run with
  | Return (code, _) => code
  | _ => 1
  end.

Section Pipeline.

Variable R : Runtime.

(** ingest.py, the body of the loop over [rows]. *)
Definition ingest_row (acc : Outcome (list StoredRow * list QuarantineRow))
    (row : gmap pystr PyVal) : Outcome (list StoredRow * list QuarantineRow) :=
  '(valid_rows, quarantine_rows) ← acc;
  match model_validate R row with
  | Valid model =>
      match json_dumps R (event_data model) with
      | Some text =>
          let record :=
            {| s_client_id := client_id model; s_timestamp := timestamp model;
               s_event_name := event_value (event_name model); s_event_data := text;
               s_page_url := page_url model; s_referrer := referrer model;
               s_user_agent := user_agent model |} in
          Return (valid_rows ++ [record], quarantine_rows)
      | None => Raise (py "TypeError")
      end
  | ValidationError errors =>
      Return (valid_rows, quarantine_rows ++ [failure_row row errors])
  | Propagated exc => Raise exc
  end.

(** ingest.py, the body of the loop over [csv_files].  The store stands for
    the database and the quarantine directory; its operations are taken to
    succeed. *)
Definition ingest_file (acc : Outcome Store) (file : pystr * CsvRead) : Outcome Store :=
  store ← acc;
  let '(rows, header_report) := iter_csv_rows R file.2 in
  '(valid_rows, quarantine_rows) ← foldl ingest_row (Return ([], [])) rows;
  '(rows_inserted, events) ←
    (if nonzero (length valid_rows) then
       match pd R with
       | None => Raise (py "RuntimeError")
       | Some _ => Return (length valid_rows, raw_events store ++ valid_rows)
       end
     else Return (0%nat, raw_events store));
  let rows_quarantined := length quarantine_rows in
  let files :=
    if nonzero (length quarantine_rows)
    then quarantine_files store ++ [(file.1, quarantine_rows)]
    else quarantine_files store in
  Return {| raw_events := events;
            pipeline_logs :=
              pipeline_logs store ++
              [{| filename := file.1; rows_read := length rows;
                  rows_inserted := rows_inserted;
                  rows_quarantined := rows_quarantined;
                  status := run_status rows_quarantined rows_inserted |}];
            quarantine_files := files |}.

(** ingest.py [main], given the files of the input directory in name order. *)
Definition ingest_main (csv_files : list (pystr * CsvRead)) : Outcome (Z * Store) :=
  store ← foldl ingest_file
             (Return {| raw_events := []; pipeline_logs := []; quarantine_files := [] |})
             csv_files;
  Return (0, store).

(** validator.py, the body of the loop over [rows]. *)
Definition check_row (acc : Outcome (Tally * list QuarantineRow))
    (row : gmap pystr PyVal) : Outcome (Tally * list QuarantineRow) :=
  '(tally, file_failures) ← acc;
  match model_validate R row with
  | Valid _ =>
      Return ({| passed := S (passed tally); failed := failed tally;
                 error_counts := error_counts tally; written := written tally |},
              file_failures)
  | ValidationError errors =>
      Return ({| passed := passed tally; failed := S (failed tally);
                 error_counts := foldl count_up (error_counts tally) (summarize <$> errors);
                 written := written tally |},
              file_failures ++ [failure_row row errors])
  | Propagated exc => Raise exc
  end.

(** validator.py, the body of the loop over [csv_files]. *)
Definition check_file (acc : Outcome Tally) (file : pystr * CsvRead) : Outcome Tally :=
  tally ← acc;
  let '(rows, header_report) := iter_csv_rows R file.2 in
  '(tally, file_failures) ← foldl check_row (Return (tally, [])) rows;
  Return
    (if nonzero (length file_failures)
     then {| passed := passed tally; failed := failed tally;
             error_counts := error_counts tally;
             written := written tally ++ [(file.1, file_failures)] |}
     else tally).

(** validator.py [main]. *)
Definition validator_main (csv_files : list (pystr * CsvRead)) : Outcome (Z * Tally) :=
  tally ← foldl check_file
             (Return {| passed := 0; failed := 0; error_counts := ∅; written := [] |})
             csv_files;
  Return (0, tally).

End Pipeline.

(** ** Sample runtimes and inputs, used to exercise the definitions *)

(** A stand-in for pandas: an integer count of [unit]s is converted, anything
    else is refused. *)
Definition sample_pandas : Pandas :=
  {| to_datetime := λ v unit,
       match v, unit with
       | VInt n, Some u =>
           Return (VDatetime {| dt_epoch_us := epoch_millis u n * 1000; dt_utcoffset := None |})
       | _, Some _ => ValueError (py "unit not valid with non-numerical val")
       | _, None => ValueError (py "Unknown datetime string format")
       end |}.

(** A stand-in for pandas that reads a boolean as the integer it subclasses. *)
Definition lenient_pandas : Pandas :=
  {| to_datetime := λ v unit,
       match v, unit with
       | VInt n, Some u =>
           Return (VDatetime {| dt_epoch_us := epoch_millis u n * 1000; dt_utcoffset := None |})
       | VBool b, Some u =>
           Return (VDatetime {| dt_epoch_us := epoch_millis u (Z.b2z b) * 1000;
                                dt_utcoffset := None |})
       | _, _ => ValueError (py "not convertible to datetime")
       end |}.

Definition sample_runtime_with (pandas : option Pandas) : Runtime :=
  {| str_lower := ascii_lower;
     str_of := λ _, py "<object>";
     fromisoformat := λ s,
       if str_eqb s (py "2024-01-01T10:00:00")
       then Some {| dt_epoch_us := 1704103200000000; dt_utcoffset := None |}
       else None;
     pd := pandas;
     json_loads := λ s,
       if str_eqb s (py "{}") then inr (VDict [])
       else if str_eqb s (py "[]") then inr (VList [])
       else inl (py "Expecting value");
     json_dumps := λ _, Some (py "{}");
     lax_datetime := λ _, inl (py "Input should be a valid datetime") |}.

Definition sample_runtime : Runtime := sample_runtime_with (Some sample_pandas).

Definition sample_colliding_row : RawRow :=
  [(Some (py "clientId"), VStr (py "  "));
   (Some (py "client_id"), VNone);
   (Some (py "Client_ID"), VStr (py "abc"));
   (Some (py "CLIENTID"), VStr (py "zzz"))].

Definition sample_blank_row : RawRow :=
  [(Some (py "referrer"), VStr (py ""));
   (Some (py "Referrer"), VStr (py " "));
   (Some (py "REFERRER"), VNone)].

Definition sample_date_time_file : CsvRead :=
  Table [py "Date"; py "time"; py "clientId"]
        [[(Some (py "Date"), VStr (py "2024-01-01"));
          (Some (py "time"), VStr (py "10:00:00"));
          (Some (py "clientId"), VStr (py "c-1"))]].

Definition sample_bad_row : gmap (list N) PyVal :=
  list_to_map
    [(py "client_id", VStr (py " "));
     (py "timestamp", VStr (py "2024-01-01 10:00:00"));
     (py "event_name", VStr (py "refund"));
     (py "event_data", VStr (py "[]"));
     (py "page_url", VStr (py "/home"));
     (py "user_agent", VStr (py "agent"))].

Definition sample_bad_row_errors : list ErrorDetails :=
  [{| err_loc := [py "client_id"];
      err_msg := py "Value error, required field is empty" |};
   {| err_loc := [py "event_name"];
      err_msg := py "Input should be 'page_viewed', 'purchase', 'checkout_started', 'checkout_completed', 'product_added_to_cart' or 'email_filled_on_popup'" |};
   {| err_loc := [py "event_data"];
      err_msg := py "Value error, event_data JSON must be an object" |}].

Definition sample_boolean_row : gmap (list N) PyVal :=
  list_to_map
    [(py "client_id", VStr (py "c-1"));
     (py "timestamp", VBool true);
     (py "event_name", VStr (py " Purchase "));
     (py "event_data", VStr (py "{}"));
     (py "page_url", VStr (py "/home"));
     (py "user_agent", VStr (py "agent"))].

Definition sample_headers : list (list N) :=
  [py "clientId"; py "Timestamp"; py "event_name"; py "eventData";
   py "page_url"; py "user_agent"].

Definition sample_row (client timestamp : string) : list (option (list N) * PyVal) :=
  [(Some (py "clientId"), VStr (py client));
   (Some (py "Timestamp"), VStr (py timestamp));
   (Some (py "event_name"), VStr (py " Purchase "));
   (Some (py "eventData"), VStr (py "{}"));
   (Some (py "page_url"), VStr (py "/home"));
   (Some (py "user_agent"), VStr (py "agent"))].

Definition sample_files : list (list N * CsvRead) :=
  [(py "a.csv", Table sample_headers
                  [sample_row "c-1" "2024-01-01 10:00:00"; sample_row " " "yesterday"]);
   (py "b.csv", Table sample_headers [sample_row "" "2024-01-01 10:00:00"]);
   (py "c.csv", NoHeaderLine)].

Definition sample_logs : list RunLogEntry :=
  [{| filename := py "a.csv"; rows_read := 2; rows_inserted := 1;
      rows_quarantined := 1; status := py "partial_failure" |};
   {| filename := py "b.csv"; rows_read := 1; rows_inserted := 0;
      rows_quarantined := 1; status := py "FAILED" |};
   {| filename := py "c.csv"; rows_read := 0; rows_inserted := 0;
      rows_quarantined := 0; status := py "COMPLETED" |}].

Definition sample_failing_files : list (list N * CsvRead) :=
  [(py "b.csv", Table sample_headers [sample_row "" "2024-01-01 10:00:00"])].

(** ** Vocabulary of the statements *)

(** The spellings the header normaliser knows, each with its canonical name. *)
Definition known_aliases : list (pystr * pystr) :=
  [(py "clientId", py "client_id"); (py "client_id", py "client_id");
   (py "eventName", py "event_name"); (py "event_name", py "event_name");
   (py "eventData", py "event_data"); (py "event_data", py "event_data");
   (py "pageUrl", py "page_url"); (py "page_url", py "page_url");
   (py "userAgent", py "user_agent"); (py "user_agent", py "user_agent");
   (py "referrer", py "referrer"); (py "timestamp", py "timestamp");
   (py "date", py "date"); (py "time", py "time")].

(** [token] is [alias] up to the case of its letters, surrounding white space
    and byte-order marks. *)
Definition variant_of (alias token : pystr) : Prop :=
  ascii_lower (strip (remove_bom token)) = ascii_lower alias.

(** The chain of tests of [normalize_column_name] on given [raw] and [lower]. *)
Definition alias_chain (lower raw : pystr) : pystr :=
  if py_in lower [py "clientid"; py "client_id"] || str_eqb raw (py "clientId") then py "client_id"
  else if py_in lower [py "eventname"; py "event_name"] || str_eqb raw (py "eventName") then py "event_name"
  else if py_in lower [py "eventdata"; py "event_data"] || str_eqb raw (py "eventData") then py "event_data"
  else if py_in lower [py "pageurl"; py "page_url"] || str_eqb raw (py "pageUrl") then py "page_url"
  else if py_in lower [py "useragent"; py "user_agent"] || str_eqb raw (py "userAgent") then py "user_agent"
  else if str_eqb lower (py "referrer") then py "referrer"
  else if str_eqb lower (py "timestamp") then py "timestamp"
  else if str_eqb lower (py "date") then py "date"
  else if str_eqb lower (py "time") then py "time"
  else raw.

(** The cells of [row] in the columns whose own header normalises to [name],
    in column order. *)
Definition cells (R : Runtime) (name : pystr) (row : list (option pystr * PyVal)) : list PyVal :=
  sources R ∅ name row.

(** The value a row has for [name]: its cell, or the merge of its cells when
    several columns carry that name, or [None] when no column does. *)
Definition merged_cell (R : Runtime) (name : pystr) (row : list (option pystr * PyVal)) : PyVal :=
  foldl choose_value VNone (cells R name row).

(** Every key of [row] is one of the file's headers, or the reader's rest key. *)
Definition row_keys_from (hdrs : list pystr) (row : list (option pystr * PyVal)) : Prop :=
  Forall (λ item, match item.1 with Some h => h ∈ hdrs | None => True end) row.

(** Each declared field with the message of its error, if it failed, in
    declaration order. *)
Definition field_results (R : Runtime) (row : gmap (list N) PyVal)
    : list (list N * option (list N)) :=
  [(py "client_id", rejection (check_text R (row !! py "client_id")));
   (py "timestamp", rejection (check_timestamp R (row !! py "timestamp")));
   (py "event_name", rejection (check_event_name R (row !! py "event_name")));
   (py "event_data", rejection (check_event_data R (row !! py "event_data")));
   (py "page_url", rejection (check_text R (row !! py "page_url")));
   (py "referrer", rejection (check_referrer (row !! py "referrer")));
   (py "user_agent", rejection (check_text R (row !! py "user_agent")))].

(** One message ["<field>: <reason>"] per failed field. *)
Definition failed_messages (R : Runtime) (row : gmap (list N) PyVal) : list (list N) :=
  omap (λ p, (λ m, p.1 ++ py ": " ++ m) <$> p.2) (field_results R row).

(** The call returned or let an exception escape; a bare [ValueError] is
    neither. *)
Definition returns_or_raises {A} (o : Outcome A) : Prop :=
  match o with
  | ValueError _ => False
  | _ => True
  end.

(** The status rule of a run-log entry. *)
Definition status_rule (entry : RunLogEntry) : Prop :=
  (status entry = py "FAILED" ↔
     (0 < rows_quarantined entry)%nat ∧ rows_inserted entry = 0%nat) ∧
  (status entry = py "partial_failure" ↔
     (0 < rows_quarantined entry)%nat ∧ (0 < rows_inserted entry)%nat) ∧
  (status entry = py "COMPLETED" ↔ rows_quarantined entry = 0%nat).

(** The number of rows the dry run counted as failed, when it ran to its end. *)
Definition failed_count (run : Outcome (Z * Tally)) : option nat :=
  match run with
  | Return (_, tally) => Some (failed tally)
  | _ => None
  end.

(** What one processed file adds to the run log. *)
Definition logged_well (entry : RunLogEntry) : Prop :=
  status entry = run_status (rows_quarantined entry) (rows_inserted entry) ∧
  (rows_inserted entry + rows_quarantined entry = rows_read entry)%nat.

(** ** Further definitions: reading files, runs, tables and checks *)

(** The items of a normalised row, read again as a raw row. *)
Definition dict_items (m : gmap (list N) PyVal) : list (option (list N) * PyVal) :=
  (λ kv, (Some kv.1, kv.2)) <$> map_to_list m.

Definition sample_date_only_file : CsvRead :=
  Table [py "Date"; py "clientId"]
        [[(Some (py "Date"), VStr (py "2024-01-01"));
          (Some (py "clientId"), VStr (py "c-1"))]].

Definition sample_partial_date_time_rows : list (list (option (list N) * PyVal)) :=
  [[(Some (py "Date"), VStr (py "2024-01-01")); (Some (py "time"), VNone)];
   [(Some (py "Date"), VNone); (Some (py "time"), VNone)]].

Definition sample_good_row : gmap (list N) PyVal :=
  list_to_map
    [(py "client_id", VStr (py " c-1 "));
     (py "timestamp", VStr (py "2024-01-01 10:00:00"));
     (py "event_name", VStr (py " Purchase "));
     (py "event_data", VStr (py "{}"));
     (py "page_url", VStr (py "/home"));
     (py "referrer", VStr (py " "));
     (py "user_agent", VStr (py "agent"))].

Definition sample_good_model : RawEvent :=
  {| client_id := py "c-1";
     timestamp := {| dt_epoch_us := 1704103200000000; dt_utcoffset := None |};
     event_name := purchase;
     event_data := [];
     page_url := py "/home";
     referrer := Some (py " ");
     user_agent := py "agent" |}.

(** The quarantine file a processed file leaves behind, if any. *)
Definition quarantine_output (name : list N) (quarantine : list QuarantineRow)
    : list (list N * list QuarantineRow) :=
  if nonzero (length quarantine) then [(name, quarantine)] else [].

(** The store agrees with its own run log. *)
Definition store_accounted (store : Store) : Prop :=
  length (raw_events store) = sum_list (rows_inserted <$> pipeline_logs store) ∧
  fst <$> quarantine_files store =
    filename <$> filter (λ e, (0 < rows_quarantined e)%nat) (pipeline_logs store) ∧
  (λ f, length f.2) <$> quarantine_files store =
    rows_quarantined <$> filter (λ e, (0 < rows_quarantined e)%nat) (pipeline_logs store).

(** The number of data rows of a file as read. *)
Definition raw_row_count (file : CsvRead) : nat :=
  match file with
  | NoHeaderLine => 0
  | Table _ rows => length rows
  end.

(** The dry run's counters agree with the files it was given and with the
    quarantine files it wrote. *)
Definition tally_accounted (csv_files : list (list N * CsvRead)) (tally : Tally) : Prop :=
  (passed tally + failed tally = sum_list ((λ f, raw_row_count f.2) <$> csv_files))%nat ∧
  failed tally = sum_list ((λ w, length w.2) <$> written tally) ∧
  Forall (λ w, w.2 ≠ []) (written tally).

(** The dry run's counters and files agree with what ingestion stored. *)
Definition dry_run_matches (tally : Tally) (store : Store) : Prop :=
  written tally = quarantine_files store ∧
  passed tally = length (raw_events store) ∧
  failed tally = sum_list (rows_quarantined <$> pipeline_logs store).

Definition sample_timestamp_file_headers : list (list N) :=
  [py "timestamp"; py "Date"].

Definition sample_timestamp_file_rows : list (list (option (list N) * PyVal)) :=
  [[(Some (py "timestamp"), VNone); (Some (py "Date"), VStr (py "2024-01-01"))]].

(** The text handed to [datetime.fromisoformat] for a trimmed string
    (shared.py lines 56-60). *)
Definition iso_candidate (raw : list N) : list N :=
  let candidate := raw in
  let candidate :=
    if contains_char 32 candidate && negb (contains_char 84 candidate)
    then replace_first 32 84 candidate else candidate in
  if endswith_char 90 candidate then drop_last candidate ++ py "+00:00" else candidate.

(** The sum of all the counts of the error counter. *)
Definition total_count (counts : gmap (list N) nat) : nat :=
  map_fold (λ _ n acc, (n + acc)%nat) 0%nat counts.

(** The error counter covers the failed rows: it is empty exactly when no
    row failed, and it counts at least one message per failed row. *)
Definition digest_accounted (tally : Tally) : Prop :=
  (failed tally ≤ total_count (error_counts tally))%nat ∧
  (error_counts tally = ∅ ↔ failed tally = 0%nat).

(** ** transform.py: the text table *)

(** [s.ljust(w)] *)
Definition ljust (s : list N) (w : nat) : list N :=
  s ++ replicate (w - length s) 32%N.

(** The loop [for i, cell in enumerate(row): widths[i] = max(widths[i], len(cell))],
    from index [i] on; [None] stands for the [IndexError] of [widths[i]]. *)
Fixpoint widen_from (i : nat) (row : list (list N)) (widths : list nat)
    : option (list nat) :=
  match row with
  | [] => Some widths
  | cell :: rest =>
      w ← widths !! i;
      widen_from (S i) rest (<[i := Nat.max w (length cell)]> widths)
  end.

(** [fmt_row]: one padded cell per width; [None] stands for the [IndexError]
    of [cells[i]]. *)
Definition fmt_row (widths : list nat) (cells : list (list N)) : option (list N) :=
  padded ← mapM (λ i, cell ← cells !! i; w ← widths !! i; Some (ljust cell w))
                (seq 0 (length widths));
  Some (join (py " | ") padded).

Section FormatTable.

Variable R : Runtime.

(** [("" if v is None else str(v))] *)
Definition display_cell (v : PyVal) : list N :=
  match v with
  | VNone => []
  | VStr s => s
  | _ => str_of R v
  end.

(** The lines of the table, for a non-empty header list. *)
Definition format_table_lines (hdrs : list (list N)) (rows : list (list PyVal))
    : option (list (list N)) :=
  let display_rows : list (list (list N)) :=
    (λ row : list PyVal, display_cell <$> row) <$> rows in
  let widths : list nat := length <$> hdrs in
  widths ← foldl (λ (acc : option (list nat)) row, ws ← acc; widen_from 0 row ws)
                 (Some widths) display_rows;
  let sep := join (py "-+-") ((λ w, replicate w 45%N) <$> widths) in
  head_line ← fmt_row widths hdrs;
  body ← mapM (fmt_row widths) display_rows;
  Some (head_line :: sep :: body).

Definition _format_table (hdrs : list (list N)) (rows : list (list PyVal))
    : option (list N) :=
  if bool_decide (hdrs = []) then Some (py "(no columns)")
  else join [10%N] <$> format_table_lines hdrs rows.

End FormatTable.

(** Every cell has a width, and fits it. *)
Definition fits (widths : list nat) (cells : list (list N)) : Prop :=
  ∀ k cell, cells !! k = Some cell →
    ∃ w, widths !! k = Some w ∧ (length cell ≤ w)%nat.

(** ** transform.py: the objects a script declares *)

Section DeclaredObjects.
(** [pattern.findall]: the names the pattern captures in the text, in the
    order of the text. *)
Variable findall : list N → list (list N).

(** One turn of the loop, on [(seen, out)]. *)
Definition declare (st : gset (list N) * list (list N)) (name : list N)
    : gset (list N) * list (list N) :=
  if decide (name ∈ st.1) then st else ({[name]} ∪ st.1, st.2 ++ [name]).

Definition _declared_objects (sql_text : list N) : list (list N) :=
  (foldl declare (∅, []) (findall sql_text)).2.
End DeclaredObjects.

(** The first occurrence of every name, in the order of the list. *)
Fixpoint first_occurrences (names : list (list N)) : list (list N) :=
  match names with
  | [] => []
  | name :: rest => name :: filter (λ other, other ≠ name) (first_occurrences rest)
  end.

(** ** transform.py: the validation checks *)

Inductive CheckType : Type :=
| zero_rows
| summary
| event_coverage
| diagnostic_dupes.

#[global] Instance CheckType_eq_dec : EqDecision CheckType.
Proof. solve_decision. Defined.

(** A [SqlCheck].  Its SQL text is only handed to the connection, which is
    modelled as a function of the check. *)
Record SqlCheck : Type := mkSqlCheck {
  check_name : list N;
  pass_condition : CheckType
}.

(** The checks of [_run_checks], in their order. *)
Definition checks : list SqlCheck :=
  [ mkSqlCheck (py "Q2.1.a sessions overview") summary;
    mkSqlCheck (py "Q2.2.a within-session gap >=30") zero_rows;
    mkSqlCheck (py "Q2.2.b between-session gap <30") zero_rows;
    mkSqlCheck (py "Q2.3.a event coverage") event_coverage;
    mkSqlCheck (py "Q2.3.b actions_per_session mismatch") zero_rows;
    mkSqlCheck (py "Q2.4.a attribution coverage") summary;
    mkSqlCheck (py "Q2.4.b lookback >7 days") zero_rows;
    mkSqlCheck (py "Q2.4.c fc vs lc difference rate") summary;
    mkSqlCheck (py "Q2.5.a duplicate raw checkout_completed (diagnostic)") diagnostic_dupes;
    mkSqlCheck (py "Q2.5.b revenue discrepancy >0.01") zero_rows ].

(** [v == 0] *)
Definition eq_zero (v : PyVal) : bool :=
  match v with
  | VBool b => negb b
  | VInt n => n =? 0
  | VFloat (FFinite q) => Qeq_bool q 0
  | _ => false
  end.

(** [unassigned] of the event-coverage check: [None] unless there is a row
    and a column "unassigned_events", else the cell of the first row in the
    first column of that name.  The outer [None] is the IndexError of a row
    that is too short. *)
Definition unassigned_events (headers : list (list N)) (rows : list (list PyVal))
    : option PyVal :=
  match rows, list_find (λ h, h = py "unassigned_events") headers with
  | row :: _, Some (i, _) => row !! i
  | _, _ => Some VNone
  end.

(** The name of the exception type of a call that did not return. *)
Definition exception_name {A} (o : Outcome A) : list N :=
  match o with
  | Return _ => []
  | ValueError _ => py "ValueError"
  | Raise exc => exc
  end.

Section RunChecks.
Variable R : Runtime.

(** [_fetch_table(conn, check.sql)]: the column names and the rows of the
    query, or the exception of the connection. *)
Variable _fetch_table : SqlCheck → Outcome (list (list N) * list (list PyVal)).

(** [print(_format_table(headers, rows))]: the exception it raises, if any.
    What is printed is not part of the model. *)
Definition print_table (headers : list (list N)) (rows : list (list PyVal))
    : option (list N) :=
  match _format_table R headers rows with
  | Some _ => None
  | None => Some (py "IndexError")
  end.

(** The body of the [try] for one check: the results it appends, whether it
    sets [must_pass_failed], and the exception that ends it, if any. *)
Definition try_check (check : SqlCheck)
    : list (list N * list N * list N) * bool * option (list N) :=
  match _fetch_table check with
  | Return (headers, rows) =>
      match pass_condition check with
      | summary =>
          if bool_decide (rows = []) then
            ([(check_name check, py "PASS", py "ok")], false, None)
          else
            match print_table headers (take 1 rows) with
            | Some exc => ([], false, Some exc)
            | None => ([(check_name check, py "PASS", py "1 row")], false, None)
            end
      | event_coverage =>
          match unassigned_events headers rows with
          | None => ([], false, Some (py "IndexError"))
          | Some unassigned =>
              let status := if eq_zero unassigned then py "PASS" else py "FAIL" in
              match (if bool_decide (rows = []) then None
                     else print_table headers (take 1 rows)) with
              | Some exc => ([], false, Some exc)
              | None =>
                  ([(check_name check, status,
                     py "unassigned_events=" ++ fmt R unassigned)],
                   negb (eq_zero unassigned), None)
              end
          end
      | diagnostic_dupes =>
          match (if bool_decide (rows = []) then None
                 else print_table headers (take 10 rows)) with
          | Some exc => ([], false, Some exc)
          | None =>
              ([(check_name check, py "PASS",
                 py "duplicate_pairs=" ++ fmt R (VInt (Z.of_nat (length rows))))],
               false, None)
          end
      | zero_rows =>
          let rowcount := fmt R (VInt (Z.of_nat (length rows))) in
          if bool_decide (rows = []) then
            ([(check_name check, py "PASS", py "rowcount=" ++ rowcount)], false, None)
          else
            ([(check_name check, py "FAIL", py "rowcount=" ++ rowcount)], true,
             print_table headers (take 10 rows))
      end
  | raised => ([], false, Some (exception_name raised))
  end.

(** One turn of the loop, with its [except Exception] clause: the results
    of the check and whether it sets [must_pass_failed]. *)
Definition check_outcome (check : SqlCheck) : list (list N * list N * list N) * bool :=
  match try_check check with
  | (appended, failed, None) => (appended, failed)
  | (appended, failed, Some exc) =>
      (appended ++ [(check_name check, py "FAIL", py "error=" ++ exc)],
       failed || negb (bool_decide (pass_condition check = diagnostic_dupes)))
  end.

Definition run_check (st : list (list N * list N * list N) * bool) (check : SqlCheck)
    : list (list N * list N * list N) * bool :=
  (st.1 ++ (check_outcome check).1, st.2 || (check_outcome check).2).

(** The loop over the checks: [results] and [must_pass_failed]. *)
Definition run_checks_from (cs : list SqlCheck) : list (list N * list N * list N) * bool :=
  foldl run_check ([], false) cs.

Definition result_row (r : list N * list N * list N) : list PyVal :=
  [VStr r.1.1; VStr r.1.2; VStr r.2].

(** [_run_checks]: the status it returns; [None] if the summary table
    raised. *)
Definition _run_checks : option Z :=
  _ ← _format_table R [py "check_name"; py "status"; py "details"]
        (result_row <$> (run_checks_from checks).1);
  Some (if (run_checks_from checks).2 then 1 else 0).
End RunChecks.

(** Every row that the connection returns has one cell per column. *)
Definition rectangular
    (fetch : SqlCheck → Outcome (list (list N) * list (list PyVal))) : Prop :=
  ∀ check headers rows, fetch check = Return (headers, rows) →
    Forall (λ row, length row = length headers) rows.

(** A connection of a healthy database: the zero-rows queries find nothing,
    the coverage query finds no unassigned event, the others give one row. *)
Definition sample_fetch_table (check : SqlCheck)
    : Outcome (list (list N) * list (list PyVal)) :=
  match pass_condition check with
  | zero_rows => Return ([py "session_id"], [])
  | event_coverage =>
      Return ([py "total_events"; py "unassigned_events"], [[VInt 10; VInt 0]])
  | summary => Return ([py "total_sessions"], [[VInt 4]])
  | diagnostic_dupes => Return ([py "client_id"; py "n"], [[VStr (py "c1"); VInt 2]])
  end.

(** The same database when the table of the second check is missing. *)
Definition sample_broken_fetch_table (check : SqlCheck)
    : Outcome (list (list N) * list (list PyVal)) :=
  if bool_decide (check_name check = py "Q2.2.a within-session gap >=30")
  then Raise (py "CatalogException")
  else sample_fetch_table check.

(** What a check asks of the data: the query runs, a zero-rows query finds
    no row, the coverage query reports a count of unassigned events equal to
    zero. *)
Definition healthy (fetch : SqlCheck → Outcome (list (list N) * list (list PyVal)))
    (check : SqlCheck) : bool :=
  match fetch check with
  | Return (headers, rows) =>
      match pass_condition check with
      | zero_rows => bool_decide (rows = [])
      | event_coverage =>
          match unassigned_events headers rows with
          | Some unassigned => eq_zero unassigned
          | None => false
          end
      | _ => true
      end
  | _ => false
  end.

(** * Properties *)

(** ** The merge rule *)

Lemma choose_value_spec existing candidate :
  choose_value existing candidate =
  if is_empty_value existing then candidate else existing.
Proof. by destruct existing. Qed.

Lemma choose_fold existing cands :
  foldl choose_value existing cands =
  if is_empty_value existing then
    match head (filter (λ v, is_empty_value v = false) cands) with
    | Some v => v
    | None => default existing (last cands)
    end
  else existing.
Proof.
  revert existing. induction cands as [|c cands IH]; intros existing; simpl.
  - by destruct (is_empty_value existing).
  - rewrite IH, choose_value_spec.
    destruct (is_empty_value existing) eqn:He.
    + rewrite filter_cons. destruct (is_empty_value c) eqn:Hc.
      * rewrite decide_False by congruence.
        destruct (head _); [done|]. rewrite last_cons. by destruct (last cands).
      * by rewrite decide_True by congruence.
    + by rewrite He.
Qed.

Section Merge.

Variable R : Runtime.
Variable column_map : gmap pystr pystr.

Lemma merge_item_lookup normalized item k :
  merge_item R column_map normalized item !! k =
  if decide (target_key R column_map item.1 = k)
  then Some (choose_value (dict_get normalized k) item.2)
  else normalized !! k.
Proof.
  unfold merge_item. case_decide as Hk.
  - subst k. by rewrite lookup_insert_eq.
  - by rewrite lookup_insert_ne.
Qed.

Lemma sources_cons k item row :
  sources R column_map k (item :: row) =
  if decide (target_key R column_map item.1 = k)
  then item.2 :: sources R column_map k row else sources R column_map k row.
Proof.
  unfold sources.
  rewrite (filter_cons (λ it : option pystr * PyVal, target_key R column_map it.1 = k)).
  by case_decide.
Qed.

Lemma merge_lookup row : ∀ normalized k,
  foldl (merge_item R column_map) normalized row !! k =
  match sources R column_map k row with
  | [] => normalized !! k
  | _ :: _ => Some (foldl choose_value (dict_get normalized k) (sources R column_map k row))
  end.
Proof.
  induction row as [|item row IH]; intros normalized k; [done|].
  change (foldl ?f normalized (item :: row)) with (foldl f (f normalized item) row).
  rewrite IH, sources_cons.
  unfold dict_get. rewrite !merge_item_lookup.
  case_decide as Hk; [|done].
  destruct (sources R column_map k row); reflexivity.
Qed.

Lemma merge_columns_lookup row k v cands :
  sources R column_map k row = v :: cands →
  merge_columns R column_map row !! k = Some (foldl choose_value v cands).
Proof.
  intros Hs. unfold merge_columns, dict_get. rewrite merge_lookup, Hs.
  unfold dict_get. by rewrite lookup_empty.
Qed.

Lemma merge_columns_absent row k :
  sources R column_map k row = [] → merge_columns R column_map row !! k = None.
Proof.
  intros Hs. unfold merge_columns. by rewrite merge_lookup, Hs, lookup_empty.
Qed.

(** The derivation step and the final projection leave a canonical key that
    the merge has set as it is. *)
Lemma normalize_row_keeps row flag k v :
  k ∈ EXPECTED_HEADERS →
  merge_columns R column_map row !! k = Some v →
  normalize_row R row column_map flag !! k = Some v.
Proof.
  intros Hk Hm. unfold normalize_row.
  apply map_lookup_filter_Some. split; [|done].
  destruct (flag && _) eqn:Hd; [|done].
  apply andb_true_iff in Hd as [_ Hd]. apply negb_true_iff in Hd.
  apply bool_decide_eq_false in Hd.
  assert (k ≠ py "timestamp") as Hne by (intros ->; apply Hd; eauto).
  unfold derive_timestamp.
  repeat case_match; by rewrite ?lookup_insert_ne.
Qed.

End Merge.

Lemma merge_columns_sources R column_map row k :
  sources R column_map k row ≠ [] →
  merge_columns R column_map row !! k =
  Some (foldl choose_value VNone (sources R column_map k row)).
Proof.
  intros Hne. destruct (sources R column_map k row) as [|v cands] eqn:Hs; [done|].
  by rewrite (merge_columns_lookup _ _ _ _ _ _ Hs).
Qed.

Lemma dict_get_merge_columns R column_map row k :
  dict_get (merge_columns R column_map row) k =
  foldl choose_value VNone (sources R column_map k row).
Proof.
  unfold dict_get.
  destruct (sources R column_map k row) as [|v cands] eqn:Hs.
  - by rewrite merge_columns_absent.
  - by rewrite (merge_columns_lookup _ _ _ _ _ _ Hs).
Qed.

Lemma filter_non_empty_nil (cands : list PyVal) :
  Forall (λ v, is_empty_value v = true) cands →
  filter (λ v, is_empty_value v = false) cands = [].
Proof.
  induction 1 as [|v cands Hv _ IH]; [done|].
  rewrite filter_cons, decide_False by congruence. exact IH.
Qed.

(** C5: when several source columns map to one target key, the merged value
    of that key is the first value, in source-column order, that is neither
    null nor an empty or whitespace-only string, provided there is one; for a
    canonical target this is also the value in the row [normalize_row]
    returns. *)
Theorem first_non_empty_wins R column_map row k v :
  head (filter (λ c, is_empty_value c = false) (sources R column_map k row)) = Some v →
  merge_columns R column_map row !! k = Some v ∧
  (k ∈ EXPECTED_HEADERS →
   ∀ flag, normalize_row R row column_map flag !! k = Some v).
Proof.
  intros Hfirst.
  assert (merge_columns R column_map row !! k = Some v) as Hm.
  { rewrite merge_columns_sources.
    - rewrite choose_fold. simpl. by rewrite Hfirst.
    - intros Hnil. by rewrite Hnil in Hfirst. }
  split; [done|]. intros Hk flag. by apply normalize_row_keeps.
Qed.

Lemma first_non_empty_wins_witness :
  merge_columns sample_runtime ∅ sample_colliding_row !! py "client_id"
    = Some (VStr (py "abc")) ∧
  (py "client_id" ∈ EXPECTED_HEADERS →
   ∀ flag, normalize_row sample_runtime sample_colliding_row ∅ flag !! py "client_id"
           = Some (VStr (py "abc"))).
Proof.
  apply (first_non_empty_wins sample_runtime ∅ sample_colliding_row).
  vm_compute. reflexivity.
Defined.

(** C10: when every source value of a target key is null or a
    whitespace-only string, the merged value is the last of them in column
    order, so a later null replaces an earlier empty string. *)
Theorem all_empty_last_wins R column_map row k :
  sources R column_map k row ≠ [] →
  Forall (λ c, is_empty_value c = true) (sources R column_map k row) →
  merge_columns R column_map row !! k = last (sources R column_map k row) ∧
  (k ∈ EXPECTED_HEADERS →
   ∀ flag, normalize_row R row column_map flag !! k = last (sources R column_map k row)).
Proof.
  intros Hne Hall.
  assert (merge_columns R column_map row !! k = last (sources R column_map k row)) as Hm.
  { rewrite merge_columns_sources by done.
    rewrite choose_fold. simpl. rewrite filter_non_empty_nil by done. simpl.
    destruct (last (sources R column_map k row)) as [v|] eqn:Hl; [done|].
    by apply last_None in Hl. }
  split; [done|]. intros Hk flag.
  destruct (last (sources R column_map k row)) as [v|] eqn:Hl.
  - by apply normalize_row_keeps.
  - by apply last_None in Hl.
Qed.

Lemma all_empty_last_wins_witness :
  merge_columns sample_runtime ∅ sample_blank_row !! py "referrer" = Some VNone ∧
  (py "referrer" ∈ EXPECTED_HEADERS →
   ∀ flag, normalize_row sample_runtime sample_blank_row ∅ flag !! py "referrer"
           = Some VNone).
Proof.
  assert (sources sample_runtime ∅ (py "referrer") sample_blank_row
          = [VStr []; VStr (py " "); VNone]) as Hsources by (vm_compute; reflexivity).
  assert (last (sources sample_runtime ∅ (py "referrer") sample_blank_row) = Some VNone)
    as Hlast by (rewrite Hsources; reflexivity).
  rewrite <- Hlast.
  apply (all_empty_last_wins sample_runtime ∅ sample_blank_row (py "referrer")).
  - rewrite Hsources. discriminate.
  - rewrite Hsources. repeat (constructor; [reflexivity|]). constructor.
Defined.

(** ** Strings *)

Lemma lstrip_head s :
  lstrip s = [] ∨ ∃ c t, lstrip s = c :: t ∧ is_space c = false.
Proof.
  induction s as [|c s IH]; [by left|]. simpl.
  destruct (is_space c) eqn:Hc; [done|]. right. eauto.
Qed.

Lemma lstrip_idemp s : lstrip (lstrip s) = lstrip s.
Proof.
  destruct (lstrip_head s) as [->|(c & t & -> & Hc)]; [done|].
  simpl. by rewrite Hc.
Qed.

Lemma lstrip_snoc s c :
  is_space c = false → lstrip (s ++ [c]) = lstrip s ++ [c].
Proof.
  intros Hc. induction s as [|x s IH]; simpl.
  - by rewrite Hc.
  - by destruct (is_space x).
Qed.

Lemma rstrip_cons c s :
  is_space c = false → rstrip (c :: s) = c :: rstrip s.
Proof.
  intros Hc. unfold rstrip.
  by rewrite reverse_cons, lstrip_snoc, reverse_app by done.
Qed.

Lemma rstrip_idemp s : rstrip (rstrip s) = rstrip s.
Proof. unfold rstrip. by rewrite reverse_involutive, lstrip_idemp. Qed.

Lemma strip_idemp s : strip (strip s) = strip s.
Proof.
  unfold strip.
  destruct (lstrip_head s) as [->|(c & t & -> & Hc)]; [done|].
  rewrite rstrip_cons by done. simpl. rewrite Hc.
  by rewrite rstrip_cons, rstrip_idemp by done.
Qed.

Lemma lstrip_Forall (P : N → Prop) s : Forall P s → Forall P (lstrip s).
Proof.
  induction 1 as [|c s Hc Hs IH]; simpl; [done|].
  destruct (is_space c); [done|]. by constructor.
Qed.

Lemma strip_Forall (P : N → Prop) s : Forall P s → Forall P (strip s).
Proof.
  intros Hs. unfold strip, rstrip.
  by apply Forall_reverse, lstrip_Forall, Forall_reverse, lstrip_Forall.
Qed.

Lemma remove_bom_free s : Forall (λ c, c ≠ _BOM) (remove_bom s).
Proof.
  unfold remove_bom. apply Forall_forall. intros c Hc.
  by apply list_elem_of_filter in Hc as [? _].
Qed.

Lemma remove_bom_id s : Forall (λ c, c ≠ _BOM) s → remove_bom s = s.
Proof.
  unfold remove_bom. induction 1 as [|c s Hc Hs IH]; [done|].
  rewrite filter_cons, decide_True by done. by f_equal.
Qed.

(** Sanitising a sanitised header changes nothing. *)
Lemma sanitize_idemp s :
  strip (remove_bom (strip (remove_bom s))) = strip (remove_bom s).
Proof.
  rewrite (remove_bom_id (strip _)).
  - apply strip_idemp.
  - apply strip_Forall, remove_bom_free.
Qed.

Lemma ascii_lower_is_ascii s : is_ascii (ascii_lower s) → is_ascii s.
Proof.
  unfold is_ascii, ascii_lower. induction s as [|c s IH]; [done|].
  rewrite fmap_cons. intros [Hc Hs]%Forall_cons. constructor; [|by apply IH].
  unfold ascii_lower_char in Hc.
  destruct ((65 <=? c) && (c <=? 90))%N eqn:E; [|done].
  apply andb_true_iff in E as [_ E%N.leb_le]. lia.
Qed.

(** ** Header tokens *)

Lemma sample_runtime_lower_ok pandas : lower_ascii_ok (sample_runtime_with pandas).
Proof. by intros s _. Qed.

Lemma normalize_column_name_chain R name :
  normalize_column_name R name =
  alias_chain (str_lower R (sanitize_header R name)) (sanitize_header R name).
Proof. reflexivity. Qed.

Lemma sanitize_header_idemp R name :
  sanitize_header R (VStr (sanitize_header R name)) = sanitize_header R name.
Proof. destruct name; simpl; solve [reflexivity | apply sanitize_idemp]. Qed.

Ltac split_aliases H :=
  unfold known_aliases in H;
  repeat (apply elem_of_cons in H as [H|H]; [simplify_eq|]);
  [..|by apply elem_of_nil in H].

Lemma known_alias_ascii alias canon :
  (alias, canon) ∈ known_aliases → is_ascii (ascii_lower alias).
Proof.
  intros H. unfold is_ascii.
  split_aliases H; vm_compute; repeat (constructor; [reflexivity|]); constructor.
Qed.

Ltac refute_spelling Hraw :=
  exfalso;
  repeat match goal with
         | E : str_eqb _ _ = true |- _ => apply bool_decide_eq_true in E
         end;
  subst;
  first [ by vm_compute in Hraw
        | match goal with E : @eq (list N) _ _ |- _ => by vm_compute in E end ].

Lemma alias_chain_variant lower raw alias canon :
  (alias, canon) ∈ known_aliases →
  lower = ascii_lower alias →
  ascii_lower raw = ascii_lower alias →
  alias_chain lower raw = canon.
Proof.
  intros H -> Hraw. unfold alias_chain.
  destruct (str_eqb raw (py "clientId")) eqn:E1;
  destruct (str_eqb raw (py "eventName")) eqn:E2;
  destruct (str_eqb raw (py "eventData")) eqn:E3;
  destruct (str_eqb raw (py "pageUrl")) eqn:E4;
  destruct (str_eqb raw (py "userAgent")) eqn:E5;
  split_aliases H;
  first [ by vm_compute | refute_spelling Hraw ].
Qed.

Lemma normalize_variant R alias canon token :
  lower_ascii_ok R →
  (alias, canon) ∈ known_aliases →
  variant_of alias token →
  normalize_column_name R (VStr token) = canon.
Proof.
  intros HR Hin Hvar. rewrite normalize_column_name_chain. simpl.
  apply (alias_chain_variant _ _ alias); [done| |done].
  rewrite HR; [done|].
  apply ascii_lower_is_ascii. unfold variant_of in Hvar. rewrite Hvar.
  by eapply known_alias_ascii.
Qed.

Lemma normalize_canonical R canon :
  lower_ascii_ok R →
  (canon, canon) ∈ known_aliases →
  normalize_column_name R (VStr canon) = canon.
Proof.
  intros HR Hin. apply (normalize_variant R canon); [done..|].
  split_aliases Hin; by vm_compute.
Qed.

Lemma normalize_column_name_idemp R name :
  lower_ascii_ok R →
  normalize_column_name R (VStr (normalize_column_name R name)) =
  normalize_column_name R name.
Proof.
  intros HR. rewrite (normalize_column_name_chain R name).
  pose proof (sanitize_header_idemp R name) as Hs.
  set (raw := sanitize_header R name) in *.
  set (lower := str_lower R raw).
  unfold alias_chain.
  repeat match goal with
         | |- context [if ?c then _ else _] =>
             destruct c eqn:?;
             [apply normalize_canonical; [done|]; unfold known_aliases; set_solver|]
         end.
  rewrite normalize_column_name_chain, Hs. fold lower. unfold alias_chain.
  repeat match goal with
         | E : ?c = false |- context [if ?c then _ else _] => rewrite E
         end.
  done.
Qed.

(** C9: every casing or spacing variant of a known alias is mapped to that
    alias's canonical column name, and normalising the result of a
    normalisation (in particular a canonical name) returns it unchanged. *)
Theorem normalize_column_name_canonical R :
  lower_ascii_ok R →
  (∀ alias canon token,
     (alias, canon) ∈ known_aliases → variant_of alias token →
     normalize_column_name R (VStr token) = canon) ∧
  (∀ name,
     normalize_column_name R (VStr (normalize_column_name R name)) =
     normalize_column_name R name).
Proof.
  intros HR. split.
  - intros alias canon token. by apply normalize_variant.
  - intros name. by apply normalize_column_name_idemp.
Qed.

Lemma normalize_column_name_canonical_witness :
  lower_ascii_ok sample_runtime ∧
  normalize_column_name sample_runtime
    (VStr (65279%N :: py "  User_AGENT ")) = py "user_agent" ∧
  normalize_column_name sample_runtime
    (VStr (normalize_column_name sample_runtime (VStr (py " Order Total ")))) =
  normalize_column_name sample_runtime (VStr (py " Order Total ")).
Proof.
  pose proof (normalize_column_name_canonical sample_runtime
                (sample_runtime_lower_ok _)) as [Hvariant Hidem].
  split; [apply sample_runtime_lower_ok|]. split.
  - apply (Hvariant (py "user_agent")).
    + unfold known_aliases. set_solver.
    + by vm_compute.
  - apply Hidem.
Defined.

(** ** Deriving the timestamp from date and time columns *)

Lemma normalize_column_name_None R :
  lower_ascii_ok R → normalize_column_name R VNone = [].
Proof.
  intros HR. rewrite normalize_column_name_chain. simpl.
  rewrite HR by constructor. reflexivity.
Qed.

Lemma lookup_header_map (f : list N → list N) (hdrs : list (list N)) h :
  h ∈ hdrs →
  (list_to_map ((λ h, (h, f h)) <$> hdrs) : gmap (list N) (list N)) !! h = Some (f h).
Proof.
  intros Hh. apply elem_of_list_to_map_1'.
  - intros y Hy. apply list_elem_of_fmap in Hy as (h' & Heq & _). by simplify_eq.
  - apply list_elem_of_fmap. eauto.
Qed.

Lemma sources_ext R cm1 cm2 k row :
  Forall (λ item, target_key R cm1 item.1 = target_key R cm2 item.1) row →
  sources R cm1 k row = sources R cm2 k row.
Proof.
  induction 1 as [|item row Hitem _ IH]; [done|].
  by rewrite !sources_cons, Hitem, IH.
Qed.

Lemma sources_nil R cm k row :
  Forall (λ item, target_key R cm item.1 ≠ k) row → sources R cm k row = [].
Proof.
  induction 1 as [|item row Hitem _ IH]; [done|].
  by rewrite sources_cons, decide_False.
Qed.

Lemma sorted_elem_of x l : x ∈ sorted l ↔ x ∈ l.
Proof. unfold sorted. by rewrite merge_sort_Permutation. Qed.

Section DateTime.

Variable R : Runtime.
Hypothesis HR : lower_ascii_ok R.
Variable hdrs : list (list N).

Let nh := (λ h, normalize_column_name R (VStr h)) <$> hdrs.
Let cm : gmap (list N) (list N) :=
  list_to_map ((λ h, (h, normalize_column_name R (VStr h))) <$> hdrs).

Hypothesis Hdate : py "date" ∈ nh.
Hypothesis Htime : py "time" ∈ nh.
Hypothesis Hts : py "timestamp" ∉ nh.

Lemma iter_csv_rows_date_time rows :
  iter_csv_rows R (Table hdrs rows) =
  ((λ row, normalize_row R row cm true) <$> rows,
   let effective : gset (list N) :=
     (({[py "timestamp"]} ∪ list_to_set nh) ∖ {[py "date"]}) ∖ {[py "time"]} in
   {| headers := hdrs;
      normalized_headers := sorted (elements effective);
      extra_columns := sorted (filter (λ c, c ∉ EXPECTED_HEADERS) (elements effective));
      missing_core := sorted (filter (λ c, c ∉ effective) CORE_HEADERS) |}).
Proof.
  unfold iter_csv_rows. fold nh. fold cm.
  assert (py_in (py "timestamp") nh = false) as -> by by apply bool_decide_eq_false.
  assert (py_in (py "date") nh = true) as -> by by apply bool_decide_eq_true.
  assert (py_in (py "time") nh = true) as -> by by apply bool_decide_eq_true.
  reflexivity.
Qed.

Lemma target_key_header row :
  row_keys_from hdrs row →
  Forall (λ item, target_key R cm item.1 = target_key R ∅ item.1) row.
Proof.
  intros Hkeys. eapply Forall_impl; [exact Hkeys|].
  intros [[h|] v] Hk; simpl in *; [|done].
  unfold target_key. simpl. unfold cm.
  by rewrite lookup_header_map, lookup_empty.
Qed.

Lemma no_timestamp_source row :
  row_keys_from hdrs row → sources R cm (py "timestamp") row = [].
Proof.
  intros Hkeys. rewrite (sources_ext R cm ∅) by by apply target_key_header.
  apply sources_nil. eapply Forall_impl; [exact Hkeys|].
  intros [[h|] v] Hk; unfold target_key; simpl in *.
  - rewrite lookup_empty. simpl. intros Heq. apply Hts.
    apply list_elem_of_fmap. eauto.
  - by rewrite normalize_column_name_None.
Qed.

Lemma derived_timestamp row :
  row_keys_from hdrs row →
  truthy (merged_cell R (py "date") row) = true →
  truthy (merged_cell R (py "time") row) = true →
  normalize_row R row cm true !! py "timestamp" =
  Some (VStr (fmt R (merged_cell R (py "date") row) ++ py " "
              ++ fmt R (merged_cell R (py "time") row))).
Proof.
  intros Hkeys Hd Ht. unfold normalize_row.
  rewrite merge_columns_absent by by apply no_timestamp_source.
  rewrite bool_decide_eq_false_2 by by intros [? ?].
  simpl. unfold derive_timestamp.
  rewrite !dict_get_merge_columns.
  rewrite !(sources_ext R cm ∅) by by apply target_key_header.
  fold (cells R (py "date") row) (cells R (py "time") row).
  fold (merged_cell R (py "date") row) (merged_cell R (py "time") row).
  rewrite Hd, Ht. simpl.
  apply map_lookup_filter_Some. split.
  - by rewrite lookup_insert_eq.
  - simpl. apply (bool_decide_unpack _). by vm_compute.
Qed.

End DateTime.

(** C6: in a file whose normalised headers include [date] and [time] but not
    [timestamp], the reported header set contains [timestamp] and neither
    [date] nor [time], and every row whose date and time cells are both
    non-empty gets the timestamp ["{date} {time}"]. *)
Theorem date_time_columns_derive_timestamp R hdrs rows :
  lower_ascii_ok R →
  py "date" ∈ (λ h, normalize_column_name R (VStr h)) <$> hdrs →
  py "time" ∈ (λ h, normalize_column_name R (VStr h)) <$> hdrs →
  py "timestamp" ∉ (λ h, normalize_column_name R (VStr h)) <$> hdrs →
  py "timestamp" ∈ normalized_headers (snd (iter_csv_rows R (Table hdrs rows))) ∧
  (py "date" ∉ normalized_headers (snd (iter_csv_rows R (Table hdrs rows)))) ∧
  (py "time" ∉ normalized_headers (snd (iter_csv_rows R (Table hdrs rows)))) ∧
  ∀ i row,
    rows !! i = Some row →
    row_keys_from hdrs row →
    truthy (merged_cell R (py "date") row) = true →
    truthy (merged_cell R (py "time") row) = true →
    ∃ normalized,
      fst (iter_csv_rows R (Table hdrs rows)) !! i = Some normalized ∧
      normalized !! py "timestamp" =
      Some (VStr (fmt R (merged_cell R (py "date") row) ++ py " "
                  ++ fmt R (merged_cell R (py "time") row))).
Proof.
  intros HR Hdate Htime Hts.
  rewrite (iter_csv_rows_date_time R hdrs Hdate Htime Hts). simpl.
  rewrite !sorted_elem_of, !elem_of_elements.
  rewrite !elem_of_difference, elem_of_union, !elem_of_singleton.
  split; [|split; [|split]]; [|tauto..|].
  - split; [split|]; [by left|by vm_compute..].
  - intros i row Hrow Hkeys Hd Ht. eexists. split.
    + by rewrite list_lookup_fmap, Hrow.
    + by apply derived_timestamp.
Qed.

Lemma date_time_columns_derive_timestamp_witness :
  py "timestamp" ∈ normalized_headers (snd (iter_csv_rows sample_runtime sample_date_time_file)) ∧
  (py "date" ∉ normalized_headers (snd (iter_csv_rows sample_runtime sample_date_time_file))) ∧
  (py "time" ∉ normalized_headers (snd (iter_csv_rows sample_runtime sample_date_time_file))) ∧
  ∃ normalized,
    fst (iter_csv_rows sample_runtime sample_date_time_file) !! 0%nat = Some normalized ∧
    normalized !! py "timestamp" = Some (VStr (py "2024-01-01 10:00:00")).
Proof.
  pose proof (date_time_columns_derive_timestamp sample_runtime
                [py "Date"; py "time"; py "clientId"]
                [[(Some (py "Date"), VStr (py "2024-01-01"));
                  (Some (py "time"), VStr (py "10:00:00"));
                  (Some (py "clientId"), VStr (py "c-1"))]]
                (sample_runtime_lower_ok _)) as H.
  destruct H as (Hts & Hdate & Htime & Hrows).
  - apply (bool_decide_unpack _). by vm_compute.
  - apply (bool_decide_unpack _). by vm_compute.
  - apply (bool_decide_unpack _). by vm_compute.
  - do 3 (split; [assumption|]).
    apply (Hrows 0%nat _ eq_refl).
    + repeat (constructor; [apply (bool_decide_unpack _); by vm_compute|]). constructor.
    + by vm_compute.
    + by vm_compute.
Defined.

(** ** Field validators *)

(** C7: [event_data] validates to the empty object for null, for an empty or
    whitespace-only string and for the string "null" in any casing; an object
    is accepted as it is; a string whose JSON value is not an object fails
    with "must be an object"; a value of any other type fails. *)
Theorem event_data_validation R :
  lower_ascii_ok R →
  check_event_data R (Some VNone) = Accepted [] ∧
  (∀ s, strip s = [] → check_event_data R (Some (VStr s)) = Accepted []) ∧
  (∀ s, ascii_lower (strip s) = py "null" →
        check_event_data R (Some (VStr s)) = Accepted []) ∧
  (∀ items, check_event_data R (Some (VDict items)) = Accepted items) ∧
  (∀ s v,
     strip s ≠ [] → str_lower R (strip s) ≠ py "null" →
     json_loads R (strip s) = inr v → (∀ items, v ≠ VDict items) →
     check_event_data R (Some (VStr s)) =
     Rejected (py "Value error, event_data JSON must be an object")) ∧
  (∀ v,
     match v with VNone | VStr _ | VDict _ => False | _ => True end →
     check_event_data R (Some v) =
     Rejected (py "Value error, event_data must be a JSON string or dict")).
Proof.
  intros HR. unfold check_event_data, required, parse_event_data.
  repeat split.
  - intros s Hs. by rewrite Hs.
  - intros s Hs. destruct (str_eqb (strip s) []); [done|].
    rewrite HR.
    + by rewrite Hs.
    + apply ascii_lower_is_ascii. rewrite Hs.
      vm_compute. repeat (constructor; [reflexivity|]). constructor.
  - intros s v Hne Hnull Hjson Hobj.
    unfold str_eqb. rewrite !bool_decide_eq_false_2 by done.
    rewrite Hjson. destruct v; try done. by destruct (Hobj items).
  - intros v Hv. by destruct v.
Qed.

Lemma event_data_validation_witness :
  lower_ascii_ok sample_runtime ∧
  check_event_data sample_runtime (Some (VStr (py " NuLL "))) = Accepted [] ∧
  check_event_data sample_runtime (Some (VStr (py " [] "))) =
    Rejected (py "Value error, event_data JSON must be an object") ∧
  check_event_data sample_runtime (Some (VInt 7)) =
    Rejected (py "Value error, event_data must be a JSON string or dict").
Proof.
  pose proof (event_data_validation sample_runtime (sample_runtime_lower_ok _))
    as (_ & _ & Hnull & _ & Harray & Hother).
  split; [apply sample_runtime_lower_ok|]. split; [|split].
  - apply Hnull. by vm_compute.
  - apply (Harray _ (VList [])); by vm_compute.
  - by apply Hother.
Defined.

(** ** Collected field errors *)

Ltac split_check c :=
  destruct c as [?|?|?]; simpl; try (intros; discriminate).

Lemma model_validate_errors R row errors :
  model_validate R row = ValidationError errors →
  errors = omap (λ p, mkError [p.1] <$> p.2) (field_results R row).
Proof.
  unfold model_validate, field_results.
  generalize (check_text R (row !! py "client_id")); intros c1.
  generalize (check_timestamp R (row !! py "timestamp")); intros c2.
  generalize (check_event_name R (row !! py "event_name")); intros c3.
  generalize (check_event_data R (row !! py "event_data")); intros c4.
  generalize (check_text R (row !! py "page_url")); intros c5.
  generalize (check_referrer (row !! py "referrer")); intros c6.
  generalize (check_text R (row !! py "user_agent")); intros c7.
  split_check c1; split_check c2; split_check c3; split_check c4;
    split_check c5; split_check c6; split_check c7;
    by intros [= <-].
Qed.

Lemma summarize_spec err :
  summarize err =
  if decide (join (py ".") (err_loc err) = []) then err_msg err
  else join (py ".") (err_loc err) ++ py ": " ++ err_msg err.
Proof.
  unfold summarize. simpl. by case_decide; [rewrite bool_decide_eq_true_2|rewrite bool_decide_eq_false_2].
Qed.

Local Opaque py.

Lemma summarize_fields (results : list (list N * option (list N))) :
  Forall (λ p, p.1 ≠ []) results →
  summarize <$> omap (λ p, mkError [p.1] <$> p.2) results =
  omap (λ p, (λ m, p.1 ++ py ": " ++ m) <$> p.2) results.
Proof.
  induction 1 as [|[f [m|]] results Hf _ IH]; csimpl in *; [done| |done].
  rewrite <- IH. f_equal. rewrite summarize_spec. simpl.
  by rewrite decide_False.
Qed.

Local Transparent py.

Lemma field_results_named R row : Forall (λ p, p.1 ≠ []) (field_results R row).
Proof. unfold field_results. repeat (constructor; [done|]). constructor. Qed.

(** C8: a row that fails validation is quarantined with an [error_reason]
    that joins, with the separator " | ", one message per failed field
    validator, every failed field contributing (in declaration order); a
    message is prefixed by its location path and ": " when that path is not
    empty, which is the case for each field's failure, and is the bare reason
    otherwise. *)
Theorem error_reason_collects_field_errors R row errors :
  model_validate R row = ValidationError errors →
  errors = omap (λ p, mkError [p.1] <$> p.2) (field_results R row) ∧
  error_reason (failure_row row errors) = join (py " | ") (failed_messages R row) ∧
  (∀ err,
     summarize err =
     if decide (join (py ".") (err_loc err) = []) then err_msg err
     else join (py ".") (err_loc err) ++ py ": " ++ err_msg err) ∧
  (∀ valid quarantine,
     ingest_row R (Return (valid, quarantine)) row =
     Return (valid, quarantine ++ [failure_row row errors])) ∧
  (∀ tally failures,
     ∃ tally',
       check_row R (Return (tally, failures)) row =
       Return (tally', failures ++ [failure_row row errors])).
Proof.
  intros Hv. pose proof (model_validate_errors _ _ _ Hv) as He.
  split; [done|]. split; [|split; [|split]].
  - simpl. unfold failed_messages.
    by rewrite He, summarize_fields by apply field_results_named.
  - apply summarize_spec.
  - intros valid quarantine. unfold ingest_row. simpl. by rewrite Hv.
  - intros tally failures. unfold check_row. simpl. rewrite Hv. eauto.
Qed.

Lemma error_reason_collects_field_errors_witness :
  model_validate sample_runtime sample_bad_row = ValidationError sample_bad_row_errors ∧
  error_reason (failure_row sample_bad_row sample_bad_row_errors) =
  join (py " | ") (failed_messages sample_runtime sample_bad_row).
Proof.
  split; [by vm_compute|].
  apply (error_reason_collects_field_errors sample_runtime sample_bad_row
           sample_bad_row_errors).
  by vm_compute.
Defined.

Example sample_bad_row_reason :
  error_reason (failure_row sample_bad_row sample_bad_row_errors) =
  py "client_id: Value error, required field is empty | event_name: Input should be 'page_viewed', 'purchase', 'checkout_started', 'checkout_completed', 'product_added_to_cart' or 'email_filled_on_popup' | event_data: Value error, event_data JSON must be an object".
Proof. by vm_compute. Qed.

(** ** Timestamps *)

(** C1: a boolean never reaches the boolean test of [normalize_timestamp]: it
    is an [int], so it takes the numeric branch, with the unit seconds, and
    its fate is that of the epoch number it stands for. *)
Theorem boolean_timestamp_takes_numeric_branch R b :
  normalize_timestamp R (VBool b) =
  match pd R with
  | None => ValueError (py "timestamp numeric provided but pandas unavailable")
  | Some pandas => to_datetime pandas (VBool b) (Some Seconds)
  end.
Proof. by destruct b. Qed.

(** With a pandas that reads [True] as the number 1, the row is accepted. *)
Example boolean_timestamp_accepted :
  model_validate (sample_runtime_with (Some lenient_pandas)) sample_boolean_row =
  Valid {| client_id := py "c-1";
           timestamp := {| dt_epoch_us := 1000000; dt_utcoffset := None |};
           event_name := purchase;
           event_data := [];
           page_url := py "/home";
           referrer := None;
           user_agent := py "agent" |}.
Proof. by vm_compute. Qed.

(** Without pandas the boolean is refused, as a number. *)
Example boolean_timestamp_without_pandas :
  check_timestamp (sample_runtime_with None) (Some (VBool true)) =
  Rejected (py "Value error, timestamp numeric provided but pandas unavailable").
Proof. by vm_compute. Qed.

Lemma gt_int_finite q n :
  gt_int (VFloat (FFinite q)) n = if Qlt_le_dec (inject_Z n) q then true else false.
Proof.
  simpl. destruct (Qlt_le_dec (inject_Z n) q) as [Hlt|Hle].
  - apply negb_true_iff. apply not_true_is_false. intros Hb.
    apply Qle_bool_iff in Hb. by apply Qlt_not_le in Hlt.
  - apply negb_false_iff. by apply Qle_bool_iff.
Qed.

(** C4, as the code has it: the unit of a numeric timestamp is milliseconds
    when the value itself, with its sign, is greater than 10,000,000,000, and
    seconds otherwise (positive infinity counts as greater, negative
    infinity and NaN do not); 1700000000 is read as seconds and
    1700000000000 as milliseconds, the same instant. *)
Theorem epoch_unit_threshold R pandas :
  pd R = Some pandas →
  (∀ n, normalize_timestamp R (VInt n) =
        to_datetime pandas (VInt n)
          (Some (if decide (10000000000 < n) then Millis else Seconds))) ∧
  (∀ q, normalize_timestamp R (VFloat (FFinite q)) =
        to_datetime pandas (VFloat (FFinite q))
          (Some (if Qlt_le_dec (inject_Z 10000000000) q then Millis else Seconds))) ∧
  normalize_timestamp R (VFloat FInf) = to_datetime pandas (VFloat FInf) (Some Millis) ∧
  normalize_timestamp R (VFloat FNegInf) = to_datetime pandas (VFloat FNegInf) (Some Seconds) ∧
  normalize_timestamp R (VFloat FNaN) = to_datetime pandas (VFloat FNaN) (Some Seconds) ∧
  epoch_unit (VInt 1700000000) = Seconds ∧
  epoch_unit (VInt 1700000000000) = Millis ∧
  epoch_millis Seconds 1700000000 = epoch_millis Millis 1700000000000.
Proof.
  intros Hpd. repeat split.
  - intros n. simpl. rewrite Hpd. unfold epoch_unit. simpl.
    case_decide as Hn.
    + by rewrite (proj2 (Z.ltb_lt _ _) Hn).
    + by rewrite (proj2 (Z.ltb_ge _ _)) by lia.
  - intros q. simpl. rewrite Hpd. unfold epoch_unit. rewrite gt_int_finite.
    by destruct (Qlt_le_dec _ _).
  - simpl. by rewrite Hpd.
  - simpl. by rewrite Hpd.
  - simpl. by rewrite Hpd.
Qed.

Lemma epoch_unit_threshold_witness :
  pd sample_runtime = Some sample_pandas ∧
  normalize_timestamp sample_runtime (VInt 1700000000000) =
  Return (VDatetime {| dt_epoch_us := 1700000000000000; dt_utcoffset := None |}) ∧
  normalize_timestamp sample_runtime (VInt 1700000000) =
  Return (VDatetime {| dt_epoch_us := 1700000000000000; dt_utcoffset := None |}).
Proof.
  destruct (epoch_unit_threshold sample_runtime sample_pandas eq_refl) as (Hint & _).
  split; [reflexivity|]. split.
  - rewrite Hint. reflexivity.
  - rewrite Hint. reflexivity.
Defined.

(** The unit is not chosen by magnitude: a large negative count is read as
    seconds. *)
Lemma epoch_unit_magnitude_counterexample :
  10000000000 < Z.abs (-1700000000000) ∧
  epoch_unit (VInt (-1700000000000)) = Seconds ∧
  epoch_unit (VInt (-1700000000000)) ≠
    (if decide (10000000000 < Z.abs (-1700000000000)) then Millis else Seconds) ∧
  normalize_timestamp sample_runtime (VInt (-1700000000000)) =
    to_datetime sample_pandas (VInt (-1700000000000)) (Some Seconds).
Proof. repeat split; by vm_compute. Qed.

(** ** The two commands *)

Lemma foldl_returns_or_raises {S X} (f : Outcome S → X → Outcome S) xs :
  (∀ acc x, returns_or_raises acc → returns_or_raises (f acc x)) →
  ∀ acc, returns_or_raises acc → returns_or_raises (foldl f acc xs).
Proof.
  intros Hf. induction xs as [|x xs IH]; intros acc Hacc; [done|].
  simpl. by apply IH, Hf.
Qed.

Lemma foldl_raise {S X} (f : Outcome S → X → Outcome S) xs exc :
  (∀ x, f (Raise exc) x = Raise exc) → foldl f (Raise exc) xs = Raise exc.
Proof.
  intros Hf. induction xs as [|x xs IH]; [done|]. simpl. by rewrite Hf.
Qed.

Section Commands.

Variable R : Runtime.

Lemma check_row_returns_or_raises acc row :
  returns_or_raises acc → returns_or_raises (check_row R acc row).
Proof.
  destruct acc as [[tally failures]| |]; [|done..]. intros _.
  unfold check_row. simpl. by destruct (model_validate R row).
Qed.

Lemma check_file_returns_or_raises acc file :
  returns_or_raises acc → returns_or_raises (check_file R acc file).
Proof.
  destruct acc as [tally| |]; [|done..]. intros _.
  unfold check_file. simpl. destruct (iter_csv_rows R file.2) as [rows report].
  pose proof (foldl_returns_or_raises (check_row R) rows
                check_row_returns_or_raises (Return (tally, [])) I) as Hrows.
  by destruct (foldl (check_row R) (Return (tally, [])) rows) as [[t f]| |].
Qed.

(** C2, as the code has it: the dry run leaves the status 0 whenever it
    runs to its end, however many rows failed validation; the status is 1
    only when an exception escapes. *)
Theorem dry_run_exit_status csv_files :
  (∃ tally, validator_main R csv_files = Return (0, tally) ∧
            exit_status (validator_main R csv_files) = 0) ∨
  (∃ exc, validator_main R csv_files = Raise exc ∧
          exit_status (validator_main R csv_files) = 1).
Proof.
  unfold validator_main.
  pose proof (foldl_returns_or_raises (check_file R) csv_files
                check_file_returns_or_raises
                (Return {| passed := 0; failed := 0; error_counts := ∅; written := [] |})
                I) as Hfiles.
  destruct (foldl (check_file R) _ csv_files) as [tally| |exc]; [|done|].
  - left. by exists tally.
  - right. by exists exc.
Qed.

Lemma ingest_row_count valid quarantine row valid' quarantine' :
  ingest_row R (Return (valid, quarantine)) row = Return (valid', quarantine') →
  (length valid' + length quarantine' = S (length valid + length quarantine))%nat.
Proof.
  unfold ingest_row. simpl.
  destruct (model_validate R row) as [model|errors|exc]; [|by intros [= <- <-]; rewrite length_app; simpl; lia|done].
  destruct (json_dumps R (event_data model)); [|done].
  intros [= <- <-]. rewrite length_app. simpl. lia.
Qed.

Lemma ingest_rows_count rows : ∀ valid quarantine valid' quarantine',
  foldl (ingest_row R) (Return (valid, quarantine)) rows = Return (valid', quarantine') →
  (length valid' + length quarantine' = length valid + length quarantine + length rows)%nat.
Proof.
  induction rows as [|row rows IH]; intros valid quarantine valid' quarantine'.
  - intros [= <- <-]. simpl. lia.
  - change (foldl ?f ?a (row :: rows)) with (foldl f (f a row) rows).
    destruct (ingest_row R (Return (valid, quarantine)) row) as [[v q]|m|exc] eqn:Hrow.
    + intros Hrest. apply IH in Hrest. apply ingest_row_count in Hrow.
      rewrite length_cons. lia.
    + assert (foldl (ingest_row R) (ValueError m) rows = ValueError m) as ->; [|done].
      clear. by induction rows.
    + by rewrite foldl_raise.
Qed.

Lemma run_status_rule quarantined inserted :
  (run_status quarantined inserted = py "FAILED" ↔
     (0 < quarantined)%nat ∧ inserted = 0%nat) ∧
  (run_status quarantined inserted = py "partial_failure" ↔
     (0 < quarantined)%nat ∧ (0 < inserted)%nat) ∧
  (run_status quarantined inserted = py "COMPLETED" ↔ quarantined = 0%nat).
Proof.
  unfold run_status, nonzero.
  destruct quarantined, inserted; simpl;
    (split; [|split]); split;
    first [ by intros [? ?]; lia | by intros; lia | by vm_compute
          | intros _; split; lia | intros _; lia | idtac ].
Qed.

End Commands.

Lemma ingest_file_log R store file store' :
  ingest_file R (Return store) file = Return store' →
  ∃ entry,
    pipeline_logs store' = pipeline_logs store ++ [entry] ∧
    filename entry = file.1 ∧ logged_well entry.
Proof.
  unfold ingest_file. simpl.
  destruct (iter_csv_rows R file.2) as [rows report].
  destruct (foldl (ingest_row R) (Return ([], [])) rows) as [[valid quarantine]| |] eqn:Hrows;
    simpl; [|done..].
  apply ingest_rows_count in Hrows. simpl in Hrows.
  destruct (nonzero (length valid)) eqn:Hvalid; simpl.
  - destruct (pd R); simpl; [|done]. intros [= <-]. eexists. simpl.
    repeat split; solve [reflexivity | simpl; lia].
  - apply negb_false_iff, Nat.eqb_eq in Hvalid. intros [= <-]. eexists. simpl.
    repeat split; solve [reflexivity | simpl; lia].
Qed.

Lemma ingest_files_log R files : ∀ store store',
  foldl (ingest_file R) (Return store) files = Return store' →
  ∃ entries,
    pipeline_logs store' = pipeline_logs store ++ entries ∧
    filename <$> entries = fst <$> files ∧ Forall logged_well entries.
Proof.
  induction files as [|file files IH]; intros store store'.
  - intros [= <-]. exists []. by rewrite app_nil_r.
  - change (foldl ?f ?a (file :: files)) with (foldl f (f a file) files).
    destruct (ingest_file R (Return store) file) as [store1|m|exc] eqn:Hfile.
    + intros Hrest. apply IH in Hrest as (entries & Hlogs & Hnames & Hwell).
      apply ingest_file_log in Hfile as (entry & Hlog & Hname & Hentry).
      exists (entry :: entries). split; [|split].
      * by rewrite Hlogs, Hlog, <- app_assoc.
      * rewrite !fmap_cons. by f_equal.
      * by constructor.
    + assert (foldl (ingest_file R) (ValueError m) files = ValueError m) as ->; [|done].
      clear. by induction files.
    + by rewrite foldl_raise.
Qed.

(** C3: every processed file gets one run-log entry, whose status is FAILED
    exactly when rows were quarantined and none inserted, partial_failure
    exactly when rows were quarantined and rows inserted, and COMPLETED
    otherwise, in particular for a file without rows. *)
Theorem run_log_status R csv_files code store :
  ingest_main R csv_files = Return (code, store) →
  filename <$> pipeline_logs store = fst <$> csv_files ∧
  ∀ entry,
    entry ∈ pipeline_logs store →
    status_rule entry ∧
    (rows_inserted entry + rows_quarantined entry = rows_read entry)%nat ∧
    (rows_read entry = 0%nat → status entry = py "COMPLETED").
Proof.
  unfold ingest_main.
  destruct (foldl (ingest_file R) _ csv_files) as [store1| |] eqn:Hfiles; simpl; [|done..].
  intros [= <- <-].
  apply ingest_files_log in Hfiles as (entries & Hlogs & Hnames & Hwell).
  simpl in Hlogs. rewrite Hlogs. split; [done|].
  intros entry Hentry.
  rewrite Forall_forall in Hwell. destruct (Hwell _ Hentry) as [Hstatus Hcount].
  pose proof (run_status_rule (rows_quarantined entry) (rows_inserted entry))
    as (Hfailed & Hpartial & Hcompleted).
  unfold status_rule. rewrite Hstatus. repeat split; try tauto.
  intros Hzero. apply Hcompleted. lia.
Qed.

Lemma sample_ingest_run :
  ∃ store, ingest_main sample_runtime sample_files = Return (0, store) ∧
           pipeline_logs store = sample_logs.
Proof. eexists. split; by vm_compute. Qed.

Lemma run_log_status_witness :
  ∃ store,
    ingest_main sample_runtime sample_files = Return (0, store) ∧
    filename <$> pipeline_logs store = fst <$> sample_files ∧
    ∀ entry,
      entry ∈ pipeline_logs store →
      status_rule entry ∧
      (rows_inserted entry + rows_quarantined entry = rows_read entry)%nat ∧
      (rows_read entry = 0%nat → status entry = py "COMPLETED").
Proof.
  eexists. split; [by vm_compute|].
  apply (run_log_status sample_runtime sample_files 0). by vm_compute.
Defined.

(** A run in which a row fails validation still ends with status 0. *)
Lemma dry_run_exit_status_counterexample :
  failed_count (validator_main sample_runtime sample_failing_files) = Some 1%nat ∧
  exit_status (validator_main sample_runtime sample_failing_files) = 0 ∧
  exit_status (validator_main sample_runtime sample_failing_files) ≠ 1.
Proof. split; [|split]; by vm_compute. Qed.

(** ** Both commands run to their end *)

Section Termination.

Variable R : Runtime.

(** pandas signals what it refuses with [ValueError]. *)
Hypothesis pandas_value_errors :
  ∀ pandas v unit exc, pd R = Some pandas → to_datetime pandas v unit ≠ Raise exc.

Lemma normalize_timestamp_no_raise v exc : normalize_timestamp R v ≠ Raise exc.
Proof.
  unfold normalize_timestamp.
  destruct v as [|b|n|f|s|d|items|elems]; simpl; try done.
  - destruct (pd R) eqn:Hpd; [by eapply pandas_value_errors|done].
  - destruct (pd R) eqn:Hpd; [by eapply pandas_value_errors|done].
  - destruct (pd R) eqn:Hpd; [by eapply pandas_value_errors|done].
  - destruct (str_eqb (strip s) []); [done|].
    destruct (fromisoformat R _); [done|].
    destruct (pd R) eqn:Hpd; [by eapply pandas_value_errors|done].
Qed.

Lemma check_text_not_aborted input : aborted (check_text R input) = None.
Proof.
  destruct input as [[]|]; simpl; try done.
  by destruct (str_eqb _ _).
Qed.

Lemma check_timestamp_not_aborted input : aborted (check_timestamp R input) = None.
Proof.
  destruct input as [v|]; simpl; [|done].
  pose proof (normalize_timestamp_no_raise v) as Hv.
  destruct (normalize_timestamp R v) as [v'| |exc]; simpl; [|done|by destruct (Hv exc)].
  destruct v'; simpl; try done; by destruct (lax_datetime R _).
Qed.

Lemma check_event_name_not_aborted input : aborted (check_event_name R input) = None.
Proof.
  destruct input as [[]|]; simpl; try done.
  unfold core_enum. by repeat case_match.
Qed.

Lemma check_event_data_not_aborted input : aborted (check_event_data R input) = None.
Proof.
  destruct input as [[]|]; simpl; try done.
  destruct (str_eqb _ _); [done|]. destruct (str_eqb _ _); [done|].
  by destruct (json_loads R _) as [?|[]].
Qed.

Lemma check_referrer_not_aborted input : aborted (check_referrer input) = None.
Proof. by destruct input as [[]|]. Qed.

Ltac keep_check c H :=
  destruct c as [?|?|?]; simpl in H |- *; [| |discriminate H]; clear H.

Lemma model_validate_not_propagated row exc : model_validate R row ≠ Propagated exc.
Proof.
  unfold model_validate.
  pose proof (check_text_not_aborted (row !! py "client_id")) as H1.
  pose proof (check_timestamp_not_aborted (row !! py "timestamp")) as H2.
  pose proof (check_event_name_not_aborted (row !! py "event_name")) as H3.
  pose proof (check_event_data_not_aborted (row !! py "event_data")) as H4.
  pose proof (check_text_not_aborted (row !! py "page_url")) as H5.
  pose proof (check_referrer_not_aborted (row !! py "referrer")) as H6.
  pose proof (check_text_not_aborted (row !! py "user_agent")) as H7.
  revert H1 H2 H3 H4 H5 H6 H7.
  generalize (check_text R (row !! py "client_id")); intros c1.
  generalize (check_timestamp R (row !! py "timestamp")); intros c2.
  generalize (check_event_name R (row !! py "event_name")); intros c3.
  generalize (check_event_data R (row !! py "event_data")); intros c4.
  generalize (check_text R (row !! py "page_url")); intros c5.
  generalize (check_referrer (row !! py "referrer")); intros c6.
  generalize (check_text R (row !! py "user_agent")); intros c7.
  intros H1 H2 H3 H4 H5 H6 H7.
  keep_check c1 H1; keep_check c2 H2; keep_check c3 H3; keep_check c4 H4;
    keep_check c5 H5; keep_check c6 H6; keep_check c7 H7; done.
Qed.

(** The dry run always runs to its end. *)
Lemma validator_main_returns csv_files :
  ∃ tally, validator_main R csv_files = Return (0, tally).
Proof.
  assert (∀ rows tally failures, ∃ tally' failures',
            foldl (check_row R) (Return (tally, failures)) rows = Return (tally', failures'))
    as Hrows.
  { induction rows as [|row rows IH]; intros tally failures; [by eauto|].
    change (foldl ?f ?a (row :: rows)) with (foldl f (f a row) rows).
    unfold check_row at 2. simpl.
    pose proof (model_validate_not_propagated row) as Hrow.
    destruct (model_validate R row) as [?|?|exc]; [apply IH..|by destruct (Hrow exc)]. }
  assert (∀ files tally, ∃ tally',
            foldl (check_file R) (Return tally) files = Return tally') as Hfiles.
  { induction files as [|file files IH]; intros tally; [by eauto|].
    change (foldl ?f ?a (file :: files)) with (foldl f (f a file) files).
    unfold check_file at 2. simpl.
    destruct (iter_csv_rows R file.2) as [rows report].
    destruct (Hrows rows tally []) as (tally' & failures' & ->). simpl. apply IH. }
  unfold validator_main.
  destruct (Hfiles csv_files {| passed := 0; failed := 0; error_counts := ∅; written := [] |})
    as [tally ->].
  by exists tally.
Qed.

(** Ingestion runs to its end when pandas is installed and every validated
    [event_data] can be dumped. *)
Lemma ingest_main_returns csv_files :
  is_Some (pd R) →
  (∀ d, is_Some (json_dumps R d)) →
  ∃ store, ingest_main R csv_files = Return (0, store).
Proof.
  intros [pandas Hpd] Hdumps.
  assert (∀ rows valid quarantine, ∃ valid' quarantine',
            foldl (ingest_row R) (Return (valid, quarantine)) rows
            = Return (valid', quarantine')) as Hrows.
  { induction rows as [|row rows IH]; intros valid quarantine; [by eauto|].
    change (foldl ?f ?a (row :: rows)) with (foldl f (f a row) rows).
    unfold ingest_row at 2. simpl.
    pose proof (model_validate_not_propagated row) as Hrow.
    destruct (model_validate R row) as [model|?|exc]; [|apply IH|by destruct (Hrow exc)].
    destruct (Hdumps (event_data model)) as [text ->]. apply IH. }
  assert (∀ files store, ∃ store',
            foldl (ingest_file R) (Return store) files = Return store') as Hfiles.
  { induction files as [|file files IH]; intros store; [by eauto|].
    change (foldl ?f ?a (file :: files)) with (foldl f (f a file) files).
    unfold ingest_file at 2. simpl.
    destruct (iter_csv_rows R file.2) as [rows report].
    destruct (Hrows rows [] []) as (valid & quarantine & ->). simpl.
    rewrite Hpd. destruct (nonzero (length valid)); simpl; apply IH. }
  unfold ingest_main.
  destruct (Hfiles csv_files {| raw_events := []; pipeline_logs := []; quarantine_files := [] |})
    as [store ->].
  by exists store.
Qed.

End Termination.

(** * Further properties of the code *)

Lemma str_leb_total a : ∀ b, str_leb a b = true ∨ str_leb b a = true.
Proof.
  induction a as [|x a IH]; intros [|y b]; simpl; auto.
  destruct (x <? y)%N eqn:Hxy; [auto|].
  destruct (y <? x)%N eqn:Hyx; [auto|].
  apply IH.
Qed.

#[local] Instance str_leb_Total : Total (λ a b, Is_true (str_leb a b)).
Proof.
  intros a b. destruct (str_leb_total a b) as [H|H]; rewrite H; simpl; auto.
Qed.

Lemma sorted_Sorted l : Sorted (λ a b, Is_true (str_leb a b)) (sorted l).
Proof. apply Sorted_merge_sort, _. Qed.

Lemma sorted_NoDup l : NoDup l → NoDup (sorted l).
Proof. unfold sorted. by rewrite merge_sort_Permutation. Qed.

Lemma iter_csv_rows_shape R hdrs rows :
  ∃ (column_map : gmap (list N) (list N)) (flag : bool) (effective : gset (list N)),
    iter_csv_rows R (Table hdrs rows) =
    ((λ row, normalize_row R row column_map flag) <$> rows,
     {| headers := hdrs;
        normalized_headers := sorted (elements effective);
        extra_columns := sorted (filter (λ c, c ∉ EXPECTED_HEADERS) (elements effective));
        missing_core := sorted (filter (λ c, c ∉ effective) CORE_HEADERS) |}).
Proof.
  unfold iter_csv_rows.
  destruct (negb _ && _ && negb _); [by eauto|].
  destruct (negb _ && _ && negb _); by eauto.
Qed.

Lemma normalize_row_keys R row column_map flag k :
  is_Some (normalize_row R row column_map flag !! k) → k ∈ EXPECTED_HEADERS.
Proof.
  intros [v Hv]. unfold normalize_row in Hv.
  by apply map_lookup_filter_Some in Hv as [_ Hk].
Qed.

(** X1: reading a file gives one normalised row per raw row, and every key
    of every normalised row is a canonical field name. *)
Theorem normalized_rows_canonical R hdrs rows :
  length (fst (iter_csv_rows R (Table hdrs rows))) = length rows ∧
  Forall (λ normalized, ∀ k, is_Some (normalized !! k) → k ∈ EXPECTED_HEADERS)
         (fst (iter_csv_rows R (Table hdrs rows))).
Proof.
  destruct (iter_csv_rows_shape R hdrs rows) as (cm & flag & eff & ->). simpl.
  split; [by rewrite length_fmap|].
  apply Forall_fmap, Forall_forall. intros row _ k. apply normalize_row_keys.
Qed.

(** X2: the header report of a file with a header line lists the effective
    headers in ascending order without duplicates; its extra columns are
    exactly the effective headers outside the canonical schema and its
    missing columns exactly the core fields that are not effective headers,
    both in ascending order. *)
Theorem header_report_invariants R hdrs rows :
  let report := snd (iter_csv_rows R (Table hdrs rows)) in
  headers report = hdrs ∧
  NoDup (normalized_headers report) ∧
  Sorted (λ a b, Is_true (str_leb a b)) (normalized_headers report) ∧
  Sorted (λ a b, Is_true (str_leb a b)) (extra_columns report) ∧
  Sorted (λ a b, Is_true (str_leb a b)) (missing_core report) ∧
  (∀ c, c ∈ extra_columns report ↔
        c ∈ normalized_headers report ∧ c ∉ EXPECTED_HEADERS) ∧
  (∀ c, c ∈ missing_core report ↔
        c ∈ CORE_HEADERS ∧ c ∉ normalized_headers report).
Proof.
  destruct (iter_csv_rows_shape R hdrs rows) as (cm & flag & eff & ->). simpl.
  split; [done|]. split; [apply sorted_NoDup, NoDup_elements|].
  split; [apply sorted_Sorted|]. split; [apply sorted_Sorted|].
  split; [apply sorted_Sorted|]. split.
  - intros c. rewrite !sorted_elem_of, list_elem_of_filter. tauto.
  - intros c. rewrite !sorted_elem_of, list_elem_of_filter, elem_of_elements.
    tauto.
Qed.

(** The report of a file without a header line names every core field as
    missing, in schema order. *)
Example header_report_no_header_line R :
  iter_csv_rows R NoHeaderLine =
  ([], {| headers := []; normalized_headers := []; extra_columns := [];
          missing_core := CORE_HEADERS |}) ∧
  ¬ Sorted (λ a b, Is_true (str_leb a b)) CORE_HEADERS.
Proof.
  split; [done|]. intros Hs.
  do 2 apply Sorted_inv in Hs as [Hs _].
  apply Sorted_inv in Hs as [_ Hs]. apply HdRel_inv in Hs. by vm_compute in Hs.
Qed.

Lemma expected_header_alias k : k ∈ EXPECTED_HEADERS → (k, k) ∈ known_aliases.
Proof.
  unfold EXPECTED_HEADERS, known_aliases. intros Hk.
  repeat (apply elem_of_cons in Hk as [->|Hk];
          [apply (bool_decide_unpack _); by vm_compute|]).
  by apply elem_of_nil in Hk.
Qed.

Lemma target_key_canonical R column_map k :
  lower_ascii_ok R →
  (∀ k k', column_map !! k = Some k' → k' = k) →
  k ∈ EXPECTED_HEADERS →
  target_key R column_map (Some k) = k.
Proof.
  intros HR Hid Hk. unfold target_key. simpl.
  destruct (column_map !! k) as [k'|] eqn:Hcm; simpl.
  - by apply Hid.
  - by apply normalize_canonical, expected_header_alias.
Qed.

Lemma merge_canonical_items R column_map (l : list (list N * PyVal)) :
  lower_ascii_ok R →
  (∀ k k', column_map !! k = Some k' → k' = k) →
  NoDup l.*1 →
  Forall (λ kv, kv.1 ∈ EXPECTED_HEADERS) l →
  ∀ acc : gmap (list N) PyVal,
    (∀ k, k ∈ l.*1 → acc !! k = None) →
    foldl (merge_item R column_map) acc ((λ kv, (Some kv.1, kv.2)) <$> l)
    = list_to_map l ∪ acc.
Proof.
  intros HR Hid Hnd Hcanon.
  induction l as [|[k v] l IH]; intros acc Hacc.
  - simpl. by rewrite (left_id_L ∅ (∪)).
  - apply NoDup_cons in Hnd as [Hk Hnd]. apply Forall_cons in Hcanon as [Hkc Hcanon].
    rewrite fmap_cons.
    change (foldl ?f acc (?x :: ?xs)) with (foldl f (f acc x) xs).
    unfold merge_item at 2. simpl.
    rewrite (target_key_canonical R column_map k) by done.
    unfold dict_get. rewrite Hacc by (rewrite fmap_cons; apply elem_of_cons; by left).
    simpl. rewrite IH; [|done..|].
    + rewrite <- insert_union_r by by apply not_elem_of_list_to_map_1.
      by rewrite insert_union_l.
    + intros k' Hk'. rewrite lookup_insert_ne by (by intros ->).
      apply Hacc. rewrite fmap_cons. apply elem_of_cons. by right.
Qed.

Lemma normalize_row_canonical_items R column_map (l : list (list N * PyVal)) flag :
  lower_ascii_ok R →
  (∀ k k', column_map !! k = Some k' → k' = k) →
  NoDup l.*1 →
  Forall (λ kv, kv.1 ∈ EXPECTED_HEADERS) l →
  normalize_row R ((λ kv, (Some kv.1, kv.2)) <$> l) column_map flag = list_to_map l.
Proof.
  intros HR Hid Hnd Hcanon. unfold normalize_row, merge_columns.
  rewrite (merge_canonical_items R column_map l) by done.
  rewrite (right_id_L ∅ (∪)).
  assert (∀ k, k ∉ EXPECTED_HEADERS → (list_to_map l : gmap _ PyVal) !! k = None) as Hout.
  { intros k Hk. apply not_elem_of_list_to_map_1. intros Hin.
    apply list_elem_of_fmap in Hin as (kv & -> & Hkv).
    rewrite Forall_forall in Hcanon. by apply Hk, Hcanon. }
  assert (derive_timestamp R (list_to_map l) = list_to_map l) as Hderive.
  { unfold derive_timestamp, dict_get.
    rewrite !Hout by (apply (bool_decide_unpack _); by vm_compute). done. }
  assert (∀ m : gmap (list N) PyVal,
            m = list_to_map l → filter (λ kv, kv.1 ∈ EXPECTED_HEADERS) m = list_to_map l)
    as Hfilter.
  { intros m ->. apply map_filter_id. intros k v Hkv. simpl.
    destruct (decide (k ∈ EXPECTED_HEADERS)) as [|Hk]; [done|].
    by rewrite Hout in Hkv. }
  destruct (flag && _); by apply Hfilter.
Qed.

(** X3: normalising a normalised row again, with no column map, gives the
    same row. *)
Theorem normalize_row_idempotent R row column_map flag flag' :
  lower_ascii_ok R →
  normalize_row R (dict_items (normalize_row R row column_map flag)) ∅ flag'
  = normalize_row R row column_map flag.
Proof.
  intros HR. unfold dict_items.
  rewrite normalize_row_canonical_items; [apply list_to_map_to_list|done|..].
  - intros k k'. by rewrite lookup_empty.
  - apply NoDup_fst_map_to_list.
  - apply Forall_forall. intros [k v] Hkv. simpl.
    apply elem_of_map_to_list in Hkv. by eapply normalize_row_keys.
Qed.

Lemma normalize_row_idempotent_witness :
  lower_ascii_ok sample_runtime ∧
  normalize_row sample_runtime
    (dict_items (normalize_row sample_runtime sample_colliding_row ∅ true)) ∅ false
  = normalize_row sample_runtime sample_colliding_row ∅ true.
Proof.
  split; [apply sample_runtime_lower_ok|].
  apply normalize_row_idempotent, sample_runtime_lower_ok.
Defined.

Lemma sources_iff R cm1 cm2 k1 k2 row :
  Forall (λ item, target_key R cm1 item.1 = k1 ↔ target_key R cm2 item.1 = k2) row →
  sources R cm1 k1 row = sources R cm2 k2 row.
Proof.
  induction 1 as [|item row Hitem _ IH]; [done|].
  rewrite !sources_cons, IH.
  destruct (decide (target_key R cm1 item.1 = k1)) as [H1|H1];
    destruct (decide (target_key R cm2 item.1 = k2)) as [H2|H2]; tauto.
Qed.

Section SingleColumn.

Variable R : Runtime.
Hypothesis HR : lower_ascii_ok R.
Variable hdrs : list (list N).
Variable part : list N.

Let nh := (λ h, normalize_column_name R (VStr h)) <$> hdrs.
Let cm : gmap (list N) (list N) :=
  list_to_map ((λ h, (h, normalize_column_name R (VStr h))) <$> hdrs).

Hypothesis Hpart : part = py "date" ∨ part = py "time".
Hypothesis Hts : py "timestamp" ∉ nh.

Lemma renamed_sources row :
  row_keys_from hdrs row →
  sources R (rename_to_timestamp part <$> cm) (py "timestamp") row = cells R part row.
Proof.
  intros Hkeys. unfold cells. apply sources_iff.
  eapply Forall_impl; [exact Hkeys|].
  intros [[h|] v] Hk; unfold target_key; simpl in *.
  - rewrite lookup_fmap. unfold cm. rewrite lookup_header_map by done.
    rewrite ?lookup_empty. simpl.
    assert (normalize_column_name R (VStr h) ≠ py "timestamp") as Hne.
    { intros Heq. apply Hts. apply list_elem_of_fmap. eauto. }
    unfold rename_to_timestamp, str_eqb. case_bool_decide as Heq.
    + by rewrite Heq.
    + split; [done|]. intros Heq'. by destruct Heq.
  - rewrite ?lookup_empty. simpl. rewrite normalize_column_name_None by done.
    destruct Hpart as [->| ->]; split; intros Heq; by vm_compute in Heq.
Qed.

Lemma renamed_timestamp row :
  row_keys_from hdrs row →
  normalize_row R row (rename_to_timestamp part <$> cm) false !! py "timestamp" =
  match cells R part row with
  | [] => None
  | _ :: _ => Some (merged_cell R part row)
  end.
Proof.
  intros Hkeys. unfold normalize_row. simpl.
  pose proof (renamed_sources row Hkeys) as Hsrc.
  unfold merged_cell. destruct (cells R part row) as [|v cands] eqn:Hcells.
  - apply map_lookup_filter_None. left. by apply merge_columns_absent.
  - apply map_lookup_filter_Some. split.
    + by rewrite (merge_columns_lookup _ _ _ _ _ _ Hsrc).
    + simpl. apply (bool_decide_unpack _). by vm_compute.
Qed.

Lemma renamed_headers c :
  part ∈ nh →
  c ∈ sorted (elements (list_to_set (rename_to_timestamp part <$> nh) : gset (list N))) ↔
  c = py "timestamp" ∨ (c ∈ nh ∧ c ≠ part).
Proof.
  intros Hin. rewrite sorted_elem_of, elem_of_elements, elem_of_list_to_set.
  rewrite list_elem_of_fmap. unfold rename_to_timestamp, str_eqb. split.
  - intros (h & -> & Hh). case_bool_decide; [by left|by right].
  - intros [->|[Hc Hne]].
    + exists part. by rewrite bool_decide_eq_true_2.
    + exists c. by rewrite bool_decide_eq_false_2.
Qed.

End SingleColumn.

Lemma iter_csv_rows_single R hdrs rows part other :
  (part = py "date" ∧ other = py "time") ∨ (part = py "time" ∧ other = py "date") →
  part ∈ (λ h, normalize_column_name R (VStr h)) <$> hdrs →
  other ∉ (λ h, normalize_column_name R (VStr h)) <$> hdrs →
  py "timestamp" ∉ (λ h, normalize_column_name R (VStr h)) <$> hdrs →
  iter_csv_rows R (Table hdrs rows) =
  ((λ row, normalize_row R row
             (rename_to_timestamp part <$>
                (list_to_map ((λ h, (h, normalize_column_name R (VStr h))) <$> hdrs)
                 : gmap (list N) (list N))) false) <$> rows,
   let effective : gset (list N) :=
     list_to_set (rename_to_timestamp part <$>
                    ((λ h, normalize_column_name R (VStr h)) <$> hdrs)) in
   {| headers := hdrs;
      normalized_headers := sorted (elements effective);
      extra_columns := sorted (filter (λ c, c ∉ EXPECTED_HEADERS) (elements effective));
      missing_core := sorted (filter (λ c, c ∉ effective) CORE_HEADERS) |}).
Proof.
  intros Hcase Hpart Hother Hts. unfold iter_csv_rows.
  set (nh := (λ h, normalize_column_name R (VStr h)) <$> hdrs) in *.
  assert (py_in (py "timestamp") nh = false) as -> by by apply bool_decide_eq_false.
  destruct Hcase as [[-> ->]|[-> ->]].
  - assert (py_in (py "date") nh = true) as -> by by apply bool_decide_eq_true.
    assert (py_in (py "time") nh = false) as -> by by apply bool_decide_eq_false.
    reflexivity.
  - assert (py_in (py "date") nh = false) as -> by by apply bool_decide_eq_false.
    assert (py_in (py "time") nh = true) as -> by by apply bool_decide_eq_true.
    reflexivity.
Qed.

(** X4: in a file whose headers include [date] but neither [time] nor
    [timestamp] (or [time] but neither [date] nor [timestamp]), that column
    is the timestamp: the report lists [timestamp] in its place, and each
    row's timestamp is the value of that cell, absent when the row has no
    such cell. *)
Theorem lone_date_or_time_is_timestamp R hdrs rows part other :
  lower_ascii_ok R →
  (part = py "date" ∧ other = py "time") ∨ (part = py "time" ∧ other = py "date") →
  part ∈ (λ h, normalize_column_name R (VStr h)) <$> hdrs →
  other ∉ (λ h, normalize_column_name R (VStr h)) <$> hdrs →
  py "timestamp" ∉ (λ h, normalize_column_name R (VStr h)) <$> hdrs →
  py "timestamp" ∈ normalized_headers (snd (iter_csv_rows R (Table hdrs rows))) ∧
  (part ∉ normalized_headers (snd (iter_csv_rows R (Table hdrs rows)))) ∧
  ∀ i row,
    rows !! i = Some row →
    row_keys_from hdrs row →
    ∃ normalized,
      fst (iter_csv_rows R (Table hdrs rows)) !! i = Some normalized ∧
      normalized !! py "timestamp" =
      match cells R part row with
      | [] => None
      | _ :: _ => Some (merged_cell R part row)
      end.
Proof.
  intros HR Hcase Hpart Hother Hts.
  rewrite (iter_csv_rows_single R hdrs rows part other) by done. simpl.
  assert (part = py "date" ∨ part = py "time") as Hp by (destruct Hcase; tauto).
  split; [|split].
  - apply renamed_headers; [done|]. by left.
  - rewrite renamed_headers by done. intros [->|[_ Hne]]; [|done].
    destruct Hp as [Hp|Hp]; by vm_compute in Hp.
  - intros i row Hrow Hkeys. eexists. split.
    + by rewrite list_lookup_fmap, Hrow.
    + by apply renamed_timestamp.
Qed.

Lemma lone_date_or_time_is_timestamp_witness :
  py "timestamp" ∈ normalized_headers (snd (iter_csv_rows sample_runtime sample_date_only_file)) ∧
  (py "date" ∉ normalized_headers (snd (iter_csv_rows sample_runtime sample_date_only_file))) ∧
  ∃ normalized,
    fst (iter_csv_rows sample_runtime sample_date_only_file) !! 0%nat = Some normalized ∧
    normalized !! py "timestamp" = Some (VStr (py "2024-01-01")).
Proof.
  pose proof (lone_date_or_time_is_timestamp sample_runtime
                [py "Date"; py "clientId"]
                [[(Some (py "Date"), VStr (py "2024-01-01"));
                  (Some (py "clientId"), VStr (py "c-1"))]]
                (py "date") (py "time")
                (sample_runtime_lower_ok _)) as H.
  destruct H as (Hts & Hdate & Hrows).
  - by left.
  - apply (bool_decide_unpack _). by vm_compute.
  - apply (bool_decide_unpack _). by vm_compute.
  - apply (bool_decide_unpack _). by vm_compute.
  - do 2 (split; [assumption|]).
    apply (Hrows 0%nat _ eq_refl).
    repeat (constructor; [apply (bool_decide_unpack _); by vm_compute|]). constructor.
Defined.

Lemma derived_timestamp_cases R hdrs row :
  lower_ascii_ok R →
  py "timestamp" ∉ (λ h, normalize_column_name R (VStr h)) <$> hdrs →
  row_keys_from hdrs row →
  normalize_row R row
    (list_to_map ((λ h, (h, normalize_column_name R (VStr h))) <$> hdrs)) true
    !! py "timestamp" =
  let date_part := merged_cell R (py "date") row in
  let time_part := merged_cell R (py "time") row in
  if truthy date_part && truthy time_part
  then Some (VStr (fmt R date_part ++ py " " ++ fmt R time_part))
  else if truthy date_part then Some date_part
  else if truthy time_part then Some time_part
  else None.
Proof.
  intros HR Hts Hkeys. unfold normalize_row.
  pose proof (no_timestamp_source R HR hdrs Hts row Hkeys) as Hnone.
  rewrite (merge_columns_absent _ _ _ _ Hnone).
  rewrite bool_decide_eq_false_2 by by intros [? ?].
  assert (∀ name,
            dict_get (merge_columns R
              (list_to_map ((λ h, (h, normalize_column_name R (VStr h))) <$> hdrs)) row) name
            = merged_cell R name row) as Hcell.
  { intros name. rewrite dict_get_merge_columns. unfold merged_cell, cells.
    f_equal. by apply sources_ext, target_key_header. }
  cbn [andb negb]. unfold derive_timestamp. rewrite !Hcell. cbn zeta.
  assert (py "timestamp" ∈ EXPECTED_HEADERS) as Hin
    by (apply (bool_decide_unpack _); by vm_compute).
  destruct (truthy (merged_cell R (py "date") row));
    destruct (truthy (merged_cell R (py "time") row)); cbn [andb].
  - apply map_lookup_filter_Some. split; [apply lookup_insert_eq|done].
  - apply map_lookup_filter_Some. split; [apply lookup_insert_eq|done].
  - apply map_lookup_filter_Some. split; [apply lookup_insert_eq|done].
  - apply map_lookup_filter_None. left. by apply merge_columns_absent.
Qed.

(** X5: in a file with [date] and [time] columns and no [timestamp], a row
    with only one of the two cells non-empty gets that cell as its
    timestamp, and a row with both empty gets no timestamp at all. *)
Theorem date_time_fallbacks R hdrs rows :
  lower_ascii_ok R →
  py "date" ∈ (λ h, normalize_column_name R (VStr h)) <$> hdrs →
  py "time" ∈ (λ h, normalize_column_name R (VStr h)) <$> hdrs →
  py "timestamp" ∉ (λ h, normalize_column_name R (VStr h)) <$> hdrs →
  ∀ i row,
    rows !! i = Some row →
    row_keys_from hdrs row →
    ∃ normalized,
      fst (iter_csv_rows R (Table hdrs rows)) !! i = Some normalized ∧
      (truthy (merged_cell R (py "date") row) = true →
       truthy (merged_cell R (py "time") row) = false →
       normalized !! py "timestamp" = Some (merged_cell R (py "date") row)) ∧
      (truthy (merged_cell R (py "date") row) = false →
       truthy (merged_cell R (py "time") row) = true →
       normalized !! py "timestamp" = Some (merged_cell R (py "time") row)) ∧
      (truthy (merged_cell R (py "date") row) = false →
       truthy (merged_cell R (py "time") row) = false →
       normalized !! py "timestamp" = None).
Proof.
  intros HR Hdate Htime Hts i row Hrow Hkeys.
  rewrite (iter_csv_rows_date_time R hdrs Hdate Htime Hts). simpl.
  eexists. split; [by rewrite list_lookup_fmap, Hrow|].
  rewrite derived_timestamp_cases by done. simpl.
  repeat split; by intros -> ->.
Qed.

Lemma date_time_fallbacks_witness :
  (∃ normalized,
     fst (iter_csv_rows sample_runtime
            (Table [py "Date"; py "time"] sample_partial_date_time_rows)) !! 0%nat
       = Some normalized ∧
     normalized !! py "timestamp" = Some (VStr (py "2024-01-01"))) ∧
  (∃ normalized,
     fst (iter_csv_rows sample_runtime
            (Table [py "Date"; py "time"] sample_partial_date_time_rows)) !! 1%nat
       = Some normalized ∧
     normalized !! py "timestamp" = None).
Proof.
  assert (∀ row, row ∈ sample_partial_date_time_rows →
                 row_keys_from [py "Date"; py "time"] row) as Hkeys.
  { intros row Hrow. unfold sample_partial_date_time_rows in Hrow.
    repeat (apply elem_of_cons in Hrow as [->|Hrow];
            [repeat (constructor; [apply (bool_decide_unpack _); by vm_compute|]);
             constructor|]).
    by apply elem_of_nil in Hrow. }
  pose proof (date_time_fallbacks sample_runtime [py "Date"; py "time"]
                sample_partial_date_time_rows (sample_runtime_lower_ok _)) as H.
  split.
  - destruct (H ltac:(apply (bool_decide_unpack _); by vm_compute)
                ltac:(apply (bool_decide_unpack _); by vm_compute)
                ltac:(apply (bool_decide_unpack _); by vm_compute)
                0%nat _ eq_refl) as (normalized & Hrow & Hdate & _).
    { apply Hkeys. apply elem_of_cons. by left. }
    exists normalized. split; [done|]. by apply Hdate.
  - destruct (H ltac:(apply (bool_decide_unpack _); by vm_compute)
                ltac:(apply (bool_decide_unpack _); by vm_compute)
                ltac:(apply (bool_decide_unpack _); by vm_compute)
                1%nat _ eq_refl) as (normalized & Hrow & _ & _ & Hnone).
    { apply Hkeys. apply elem_of_cons. right. apply elem_of_cons. by left. }
    exists normalized. split; [done|]. by apply Hnone.
Defined.

Lemma model_validate_valid R row model :
  model_validate R row = Valid model →
  check_text R (row !! py "client_id") = Accepted (client_id model) ∧
  check_timestamp R (row !! py "timestamp") = Accepted (timestamp model) ∧
  check_event_name R (row !! py "event_name") = Accepted (event_name model) ∧
  check_event_data R (row !! py "event_data") = Accepted (event_data model) ∧
  check_text R (row !! py "page_url") = Accepted (page_url model) ∧
  check_referrer (row !! py "referrer") = Accepted (referrer model) ∧
  check_text R (row !! py "user_agent") = Accepted (user_agent model).
Proof.
  unfold model_validate.
  generalize (check_text R (row !! py "client_id")); intros c1.
  generalize (check_timestamp R (row !! py "timestamp")); intros c2.
  generalize (check_event_name R (row !! py "event_name")); intros c3.
  generalize (check_event_data R (row !! py "event_data")); intros c4.
  generalize (check_text R (row !! py "page_url")); intros c5.
  generalize (check_referrer (row !! py "referrer")); intros c6.
  generalize (check_text R (row !! py "user_agent")); intros c7.
  split_check c1; split_check c2; split_check c3; split_check c4;
    split_check c5; split_check c6; split_check c7.
  by intros [= <-].
Qed.

Lemma check_text_accepted R input s :
  check_text R input = Accepted s →
  ∃ raw, input = Some (VStr raw) ∧ s = strip raw ∧ s ≠ [].
Proof.
  destruct input as [[]|]; simpl; try done.
  unfold str_eqb. case_bool_decide as Hs; simpl; [done|].
  intros [= <-]. eauto.
Qed.

Lemma check_referrer_accepted input r :
  check_referrer input = Accepted r →
  r = match input with Some (VStr s) => Some s | _ => None end.
Proof. destruct input as [[]|]; simpl; try done; by intros [= <-]. Qed.

Lemma check_event_name_accepted R input e :
  check_event_name R input = Accepted e →
  ∃ s, input = Some (VStr s) ∧ event_value e = str_lower R (strip s).
Proof.
  unfold check_event_name, required, normalize_event_name, core_enum.
  destruct input as [[]|]; try done.
  destruct (list_find (λ e0 : EventName, event_value e0 = str_lower R (strip s))
              event_names) as [[i e']|] eqn:Hfind; [|done].
  intros [= <-]. apply list_find_Some in Hfind as (_ & He & _). eauto.
Qed.

(** X6: in a validated record the client id, the page URL and the user agent
    are the trimmed inputs and are not empty, the event name is the
    enumeration member spelled by the trimmed, lower-cased input, and the
    referrer is the input string untouched, or absent when the input is
    missing or null. *)
Theorem valid_record_fields R row model :
  model_validate R row = Valid model →
  (∃ raw, row !! py "client_id" = Some (VStr raw) ∧
          client_id model = strip raw ∧ client_id model ≠ []) ∧
  (∃ raw, row !! py "page_url" = Some (VStr raw) ∧
          page_url model = strip raw ∧ page_url model ≠ []) ∧
  (∃ raw, row !! py "user_agent" = Some (VStr raw) ∧
          user_agent model = strip raw ∧ user_agent model ≠ []) ∧
  (∃ raw, row !! py "event_name" = Some (VStr raw) ∧
          event_value (event_name model) = str_lower R (strip raw)) ∧
  referrer model =
    match row !! py "referrer" with Some (VStr s) => Some s | _ => None end ∧
  is_Some (row !! py "timestamp") ∧ is_Some (row !! py "event_data").
Proof.
  intros Hv. apply model_validate_valid in Hv as (H1 & H2 & H3 & H4 & H5 & H6 & H7).
  repeat split.
  - by apply check_text_accepted in H1.
  - by apply check_text_accepted in H5.
  - by apply check_text_accepted in H7.
  - by apply check_event_name_accepted in H3.
  - by apply check_referrer_accepted in H6.
  - by destruct (row !! py "timestamp").
  - by destruct (row !! py "event_data").
Qed.

Lemma valid_record_fields_witness :
  model_validate sample_runtime sample_good_row = Valid sample_good_model ∧
  (∃ raw, sample_good_row !! py "client_id" = Some (VStr raw) ∧
          client_id sample_good_model = strip raw ∧ client_id sample_good_model ≠ []).
Proof.
  assert (model_validate sample_runtime sample_good_row = Valid sample_good_model) as Hv
    by by vm_compute.
  split; [done|].
  by destruct (valid_record_fields sample_runtime sample_good_row sample_good_model Hv)
    as (Hclient & _).
Defined.

Lemma event_value_ascii e : is_ascii (event_value e).
Proof.
  unfold is_ascii.
  destruct e; vm_compute; repeat (constructor; [reflexivity|]); constructor.
Qed.

(** X7: an event name is accepted exactly when its trimmed, lower-cased
    spelling is one of the six enumerated names, whatever its casing and
    surrounding white space, and then validates to that member; any other
    string and any value that is not a string is refused. *)
Theorem event_name_validation R :
  lower_ascii_ok R →
  (∀ s e, ascii_lower (strip s) = event_value e →
          check_event_name R (Some (VStr s)) = Accepted e) ∧
  (∀ s, (∀ e, event_value e ≠ str_lower R (strip s)) →
        ∃ m, check_event_name R (Some (VStr s)) = Rejected m) ∧
  (∀ v, match v with VStr _ => False | _ => True end →
        ∃ m, check_event_name R (Some v) = Rejected m) ∧
  ∃ m, check_event_name R None = Rejected m.
Proof.
  intros HR. split; [|split; [|split]].
  - intros s e He.
    assert (str_lower R (strip s) = event_value e) as Hlower.
    { rewrite HR; [done|]. apply ascii_lower_is_ascii. rewrite He.
      apply event_value_ascii. }
    unfold check_event_name, required, normalize_event_name, core_enum.
    rewrite Hlower. by destruct e; vm_compute.
  - intros s Hs.
    unfold check_event_name, required, normalize_event_name, core_enum.
    destruct (list_find (λ e0 : EventName, event_value e0 = str_lower R (strip s))
                event_names) as [[i e']|] eqn:Hfind; [|by eauto].
    apply list_find_Some in Hfind as (_ & He & _). by destruct (Hs e').
  - intros v Hv. destruct v; try done; by eexists.
  - by eexists.
Qed.

Lemma event_name_validation_witness :
  lower_ascii_ok sample_runtime ∧
  check_event_name sample_runtime (Some (VStr (py " Purchase "))) = Accepted purchase.
Proof.
  split; [apply sample_runtime_lower_ok|].
  destruct (event_name_validation sample_runtime (sample_runtime_lower_ok _))
    as (Haccept & _).
  apply Haccept. by vm_compute.
Defined.

Ltac keep_checked c H :=
  destruct c as [?|?|?]; simpl in H |- *; [| |discriminate H]; clear H.

Lemma model_validate_rejected R row :
  aborted (check_timestamp R (row !! py "timestamp")) = None →
  (∃ f m, (f, Some m) ∈ field_results R row) →
  model_validate R row =
  ValidationError (omap (λ p, mkError [p.1] <$> p.2) (field_results R row)).
Proof.
  unfold model_validate, field_results.
  pose proof (check_text_not_aborted R (row !! py "client_id")) as H1.
  pose proof (check_event_name_not_aborted R (row !! py "event_name")) as H3.
  pose proof (check_event_data_not_aborted R (row !! py "event_data")) as H4.
  pose proof (check_text_not_aborted R (row !! py "page_url")) as H5.
  pose proof (check_referrer_not_aborted (row !! py "referrer")) as H6.
  pose proof (check_text_not_aborted R (row !! py "user_agent")) as H7.
  revert H1 H3 H4 H5 H6 H7.
  generalize (check_text R (row !! py "client_id")); intros c1.
  generalize (check_timestamp R (row !! py "timestamp")); intros c2.
  generalize (check_event_name R (row !! py "event_name")); intros c3.
  generalize (check_event_data R (row !! py "event_data")); intros c4.
  generalize (check_text R (row !! py "page_url")); intros c5.
  generalize (check_referrer (row !! py "referrer")); intros c6.
  generalize (check_text R (row !! py "user_agent")); intros c7.
  intros H1 H3 H4 H5 H6 H7 H2 (f & m & Hin).
  keep_checked c1 H1; keep_checked c2 H2; keep_checked c3 H3; keep_checked c4 H4;
    keep_checked c5 H5; keep_checked c6 H6; keep_checked c7 H7;
    try reflexivity.
  exfalso.
  repeat (apply elem_of_cons in Hin as [Hin|Hin]; [discriminate Hin|]).
  by apply elem_of_nil in Hin.
Qed.

(** X8: a row whose timestamp is missing, null or a blank string is never
    valid: it fails validation with an error located at [timestamp]. *)
Theorem missing_timestamp_rejected R row :
  row !! py "timestamp" = None ∨ row !! py "timestamp" = Some VNone ∨
  (∃ s, row !! py "timestamp" = Some (VStr s) ∧ strip s = []) →
  ∃ errors m,
    model_validate R row = ValidationError errors ∧
    {| err_loc := [py "timestamp"]; err_msg := m |} ∈ errors.
Proof.
  intros Hts.
  assert (∃ m, check_timestamp R (row !! py "timestamp") = Rejected m) as [m Hm].
  { destruct Hts as [->|[->|(s & -> & Hs)]]; simpl; [by eauto..|].
    rewrite Hs. simpl. by eauto. }
  eexists _, m. split.
  - apply model_validate_rejected; [by rewrite Hm|].
    exists (py "timestamp"), m. unfold field_results. rewrite Hm. simpl.
    apply elem_of_cons. right. apply elem_of_cons. by left.
  - apply list_elem_of_omap. exists (py "timestamp", Some m). split; [|done].
    unfold field_results. rewrite Hm. simpl.
    apply elem_of_cons. right. apply elem_of_cons. by left.
Qed.

Lemma missing_timestamp_rejected_witness :
  ∃ errors m,
    model_validate sample_runtime (delete (py "timestamp") sample_good_row)
      = ValidationError errors ∧
    {| err_loc := [py "timestamp"]; err_msg := m |} ∈ errors.
Proof.
  apply missing_timestamp_rejected. left. by vm_compute.
Defined.



Lemma foldl_stuck {S X} (f : S → X → S) (o : S) xs :
  (∀ x, f o x = o) → foldl f o xs = o.
Proof. intros Hf. induction xs as [|x xs IH]; [done|]. simpl. by rewrite Hf. Qed.

Lemma ingest_file_store R store file store' :
  ingest_file R (Return store) file = Return store' →
  ∃ valid quarantine,
    foldl (ingest_row R) (Return ([], [])) (fst (iter_csv_rows R file.2))
      = Return (valid, quarantine) ∧
    (valid = [] ∨ is_Some (pd R)) ∧
    raw_events store' = raw_events store ++ valid ∧
    quarantine_files store' = quarantine_files store ++ quarantine_output file.1 quarantine ∧
    pipeline_logs store' =
      pipeline_logs store ++
      [{| filename := file.1;
          rows_read := length (fst (iter_csv_rows R file.2));
          rows_inserted := length valid;
          rows_quarantined := length quarantine;
          status := run_status (length quarantine) (length valid) |}].
Proof.
  unfold ingest_file. simpl.
  destruct (iter_csv_rows R file.2) as [rows report]. simpl.
  destruct (foldl (ingest_row R) (Return ([], [])) rows) as [[valid quarantine]| |];
    simpl; [|done..].
  unfold quarantine_output.
  destruct (nonzero (length valid)) eqn:Hvalid; simpl.
  - destruct (pd R); simpl; [|done]. intros [= <-]. exists valid, quarantine. simpl.
    repeat split; eauto. by destruct (nonzero (length quarantine)); rewrite ?app_nil_r.
  - apply negb_false_iff, Nat.eqb_eq, length_zero_iff_nil in Hvalid. subst valid.
    intros [= <-]. exists [], quarantine. simpl. rewrite app_nil_r.
    repeat split; eauto. by destruct (nonzero (length quarantine)); rewrite ?app_nil_r.
Qed.

Lemma store_accounted_step store valid quarantine name read :
  store_accounted store →
  store_accounted
    {| raw_events := raw_events store ++ valid;
       pipeline_logs :=
         pipeline_logs store ++
         [{| filename := name; rows_read := read;
             rows_inserted := length valid; rows_quarantined := length quarantine;
             status := run_status (length quarantine) (length valid) |}];
       quarantine_files := quarantine_files store ++ quarantine_output name quarantine |}.
Proof.
  intros (Hevents & Hnames & Hsizes). unfold store_accounted. simpl.
  rewrite length_app, !fmap_app, sum_list_with_app, filter_app, !fmap_app.
  rewrite Hevents, Hnames, Hsizes. unfold quarantine_output, nonzero.
  rewrite filter_cons, filter_nil. simpl.
  split; [unfold sum_list; simpl; lia|].
  destruct quarantine as [|q quarantine]; simpl;
    repeat case_decide; solve [done | lia].
Qed.

Lemma ingest_file_stuck R (o : Outcome Store) file :
  (∀ store, o ≠ Return store) → ingest_file R o file = o.
Proof. destruct o as [store| |]; [intros H; by destruct (H store)|done..]. Qed.

Lemma ingest_files_accounted R files : ∀ store store',
  store_accounted store →
  foldl (ingest_file R) (Return store) files = Return store' →
  store_accounted store'.
Proof.
  induction files as [|file files IH]; intros store store' Hacc.
  - by intros [= <-].
  - change (foldl ?f ?a (file :: files)) with (foldl f (f a file) files).
    destruct (ingest_file R (Return store) file) as [store1|m|exc] eqn:Hfile.
    + apply IH.
      apply ingest_file_store in Hfile
        as (valid & quarantine & _ & _ & Hevents & Hfiles & Hlogs).
      destruct store1 as [events logs files1]. simpl in *. subst.
      by apply store_accounted_step.
    + rewrite foldl_stuck by (intros; by apply ingest_file_stuck). done.
    + rewrite foldl_stuck by (intros; by apply ingest_file_stuck). done.
Qed.

(** X10: when ingestion runs to its end it returns 0, the events stored are
    as many as the run log says were inserted, and there is one quarantine
    file, with that many rows, for exactly the files whose log entry counts
    quarantined rows (a file without rejected rows leaves none). *)
Theorem ingest_store_accounting R csv_files code store :
  ingest_main R csv_files = Return (code, store) →
  code = 0 ∧ store_accounted store.
Proof.
  unfold ingest_main.
  destruct (foldl (ingest_file R) _ csv_files) as [store1| |] eqn:Hfiles; simpl; [|done..].
  intros [= <- <-]. split; [done|].
  eapply ingest_files_accounted; [|exact Hfiles].
  by repeat split.
Qed.

Lemma ingest_store_accounting_witness :
  ∃ store,
    ingest_main sample_runtime sample_files = Return (0, store) ∧
    store_accounted store.
Proof.
  eexists. split; [by vm_compute|].
  by eapply (ingest_store_accounting sample_runtime sample_files 0); vm_compute.
Defined.

(** X11: without pandas ingestion can only run to its end when no row of any
    file validates: nothing is stored, and every logged status is FAILED or
    COMPLETED. *)
Theorem ingest_without_pandas R csv_files code store :
  pd R = None →
  ingest_main R csv_files = Return (code, store) →
  raw_events store = [] ∧
  Forall (λ entry, rows_inserted entry = 0%nat ∧
                   (status entry = py "FAILED" ∨ status entry = py "COMPLETED"))
         (pipeline_logs store).
Proof.
  intros Hpd. unfold ingest_main.
  destruct (foldl (ingest_file R) _ csv_files) as [store1| |] eqn:Hfiles; simpl; [|done..].
  intros [= <- <-].
  assert (∀ files s s',
            raw_events s = [] →
            Forall (λ entry, rows_inserted entry = 0%nat ∧
                     (status entry = py "FAILED" ∨ status entry = py "COMPLETED"))
                   (pipeline_logs s) →
            foldl (ingest_file R) (Return s) files = Return s' →
            raw_events s' = [] ∧
            Forall (λ entry, rows_inserted entry = 0%nat ∧
                     (status entry = py "FAILED" ∨ status entry = py "COMPLETED"))
                   (pipeline_logs s')) as Hgen.
  { induction files as [|file files IH]; intros s s' Hev Hlogs.
    - by intros [= <-].
    - change (foldl ?f ?a (file :: files)) with (foldl f (f a file) files).
      destruct (ingest_file R (Return s) file) as [s1|m|exc] eqn:Hfile.
      + apply ingest_file_store in Hfile
          as (valid & quarantine & _ & Hvalid & Hevents & _ & Hlog).
        destruct Hvalid as [->|[p Hp]]; [|by rewrite Hpd in Hp].
        apply IH.
        * by rewrite Hevents, Hev.
        * rewrite Hlog. apply Forall_app. split; [done|].
          constructor; [|done]. simpl. split; [done|].
          unfold run_status, nonzero. by destruct quarantine; [right|left].
      + rewrite foldl_stuck by (intros; by apply ingest_file_stuck). done.
      + rewrite foldl_stuck by (intros; by apply ingest_file_stuck). done. }
  eapply Hgen; [| |exact Hfiles]; done.
Qed.

Lemma ingest_without_pandas_witness :
  ∃ store,
    ingest_main (sample_runtime_with None) sample_failing_files = Return (0, store) ∧
    raw_events store = [] ∧
    Forall (λ entry, rows_inserted entry = 0%nat ∧
                     (status entry = py "FAILED" ∨ status entry = py "COMPLETED"))
           (pipeline_logs store).
Proof.
  eexists. split; [by vm_compute|].
  by eapply (ingest_without_pandas (sample_runtime_with None) sample_failing_files 0);
    vm_compute.
Defined.

(** Without pandas one valid row stops the whole run. *)
Example ingest_without_pandas_raises :
  ingest_main (sample_runtime_with None) sample_files = Raise (py "RuntimeError").
Proof. by vm_compute. Qed.

Lemma iter_csv_rows_length R file :
  length (fst (iter_csv_rows R file)) = raw_row_count file.
Proof.
  destruct file as [|hdrs rows]; [done|].
  destruct (iter_csv_rows_shape R hdrs rows) as (cm & flag & eff & ->). simpl.
  by rewrite length_fmap.
Qed.

Lemma check_row_stuck R (o : Outcome (Tally * list QuarantineRow)) row :
  (∀ s, o ≠ Return s) → check_row R o row = o.
Proof. destruct o as [s| |]; [intros H; by destruct (H s)|done..]. Qed.

Lemma ingest_row_stuck R (o : Outcome (list StoredRow * list QuarantineRow)) row :
  (∀ s, o ≠ Return s) → ingest_row R o row = o.
Proof. destruct o as [s| |]; [intros H; by destruct (H s)|done..]. Qed.

Lemma check_file_stuck R (o : Outcome Tally) file :
  (∀ s, o ≠ Return s) → check_file R o file = o.
Proof. destruct o as [s| |]; [intros H; by destruct (H s)|done..]. Qed.

Lemma check_rows_tally R rows : ∀ tally failures tally' failures',
  foldl (check_row R) (Return (tally, failures)) rows = Return (tally', failures') →
  ∃ new,
    failures' = failures ++ new ∧
    (passed tally' + failed tally' = passed tally + failed tally + length rows)%nat ∧
    failed tally' = (failed tally + length new)%nat ∧
    written tally' = written tally.
Proof.
  induction rows as [|row rows IH]; intros tally failures tally' failures'.
  - intros [= <- <-]. exists []. rewrite app_nil_r. simpl. repeat split; lia.
  - change (foldl ?f ?a (row :: rows)) with (foldl f (f a row) rows).
    unfold check_row at 2. simpl.
    destruct (model_validate R row) as [model|errors|exc].
    + intros Hrest. apply IH in Hrest as (new & -> & Hsum & Hfailed & Hwritten).
      exists new. simpl in *. repeat split; try done; lia.
    + intros Hrest. apply IH in Hrest as (new & -> & Hsum & Hfailed & Hwritten).
      exists (failure_row row errors :: new). simpl in *.
      rewrite <- app_assoc. repeat split; try done; lia.
    + rewrite foldl_stuck by (intros; by apply check_row_stuck). done.
Qed.

Lemma check_file_tally R tally file tally' :
  check_file R (Return tally) file = Return tally' →
  ∃ failures,
    (passed tally' + failed tally' =
     passed tally + failed tally + raw_row_count file.2)%nat ∧
    failed tally' = (failed tally + length failures)%nat ∧
    written tally' = written tally ++ quarantine_output file.1 failures.
Proof.
  unfold check_file. simpl.
  pose proof (iter_csv_rows_length R file.2) as Hlen.
  destruct (iter_csv_rows R file.2) as [rows report]. simpl in Hlen.
  destruct (foldl (check_row R) (Return (tally, [])) rows) as [[t failures]| |] eqn:Hrows;
    simpl; [|done..].
  apply check_rows_tally in Hrows as (new & Hnew & Hsum & Hfailed & Hwritten).
  simpl in Hnew. subst failures. unfold quarantine_output.
  intros [= <-]. exists new.
  destruct (nonzero (length new)); simpl; rewrite ?app_nil_r;
    repeat split; solve [done | lia | by rewrite Hwritten].
Qed.

Lemma quarantine_output_rows name failures :
  sum_list ((λ w, length w.2) <$> quarantine_output name failures) = length failures ∧
  Forall (λ w : list N * list QuarantineRow, w.2 ≠ []) (quarantine_output name failures).
Proof.
  unfold quarantine_output, nonzero. destruct failures as [|q failures]; simpl.
  - by split.
  - split; [simpl; lia|]. by constructor.
Qed.

Lemma check_files_tally R files : ∀ done_files tally tally',
  tally_accounted done_files tally →
  foldl (check_file R) (Return tally) files = Return tally' →
  tally_accounted (done_files ++ files) tally'.
Proof.
  induction files as [|file files IH]; intros done_files tally tally' Hacc.
  - intros [= <-]. by rewrite app_nil_r.
  - change (foldl ?f ?a (file :: files)) with (foldl f (f a file) files).
    destruct (check_file R (Return tally) file) as [tally1|m|exc] eqn:Hfile.
    + intros Hrest. rewrite (cons_middle file), app_assoc. eapply IH; [|exact Hrest].
      apply check_file_tally in Hfile as (failures & Hsum & Hfailed & Hwritten).
      destruct Hacc as (Hrows & Hfail & Hne).
      destruct (quarantine_output_rows file.1 failures) as [Hq Hqne].
      unfold tally_accounted.
      assert (sum_list ((λ f : list N * CsvRead, raw_row_count f.2) <$> [file])
              = raw_row_count file.2) as Hone by (simpl; lia).
      rewrite !fmap_app, !sum_list_with_app, Hwritten, fmap_app, sum_list_with_app.
      rewrite Hq, Hone, <- Hrows, <- Hfail.
      repeat split; [lia|lia|]. apply Forall_app. by split.
    + rewrite foldl_stuck by (intros; by apply check_file_stuck). done.
    + rewrite foldl_stuck by (intros; by apply check_file_stuck). done.
Qed.

(** X12: when the dry run reaches its end, every row of every file has been
    counted once, as passed or as failed; the failed rows are exactly the
    rows of the quarantine files written, and no quarantine file is empty. *)
Theorem dry_run_counts R csv_files code tally :
  validator_main R csv_files = Return (code, tally) →
  tally_accounted csv_files tally.
Proof.
  unfold validator_main.
  destruct (foldl (check_file R) _ csv_files) as [tally1| |] eqn:Hfiles; simpl; [|done..].
  intros [= <- <-].
  apply (check_files_tally R csv_files [] _ _) in Hfiles; [done|].
  by repeat split.
Qed.

Lemma sample_pandas_value_errors pandas v unit exc :
  pd sample_runtime = Some pandas → to_datetime pandas v unit ≠ Raise exc.
Proof. intros [= <-]. by destruct v, unit. Qed.

Lemma dry_run_counts_witness :
  ∃ tally,
    validator_main sample_runtime sample_files = Return (0, tally) ∧
    tally_accounted sample_files tally.
Proof.
  destruct (validator_main_returns sample_runtime sample_pandas_value_errors sample_files)
    as [tally Htally].
  exists tally. split; [done|].
  by apply (dry_run_counts sample_runtime sample_files 0).
Defined.

Lemma rows_agree R rows : ∀ tally failures valid quarantine tally' failures' valid' quarantine',
  foldl (check_row R) (Return (tally, failures)) rows = Return (tally', failures') →
  foldl (ingest_row R) (Return (valid, quarantine)) rows = Return (valid', quarantine') →
  ∃ new_valid new_failures,
    valid' = valid ++ new_valid ∧
    quarantine' = quarantine ++ new_failures ∧
    failures' = failures ++ new_failures ∧
    passed tally' = (passed tally + length new_valid)%nat.
Proof.
  induction rows as [|row rows IH];
    intros tally failures valid quarantine tally' failures' valid' quarantine'.
  - intros [= <- <-] [= <- <-]. exists [], []. rewrite !app_nil_r. simpl.
    repeat split; lia.
  - change (foldl ?f ?a (row :: rows)) with (foldl f (f a row) rows).
    change (foldl ?f ?a (row :: rows)) with (foldl f (f a row) rows).
    unfold check_row at 2, ingest_row at 2. simpl.
    destruct (model_validate R row) as [model|errors|exc].
    + destruct (json_dumps R (event_data model)) as [text|].
      * intros Hc Hi.
        destruct (IH _ _ _ _ _ _ _ _ Hc Hi) as (nv & nf & -> & -> & -> & Hp).
        eexists (_ :: nv), nf. simpl in *. rewrite <- app_assoc.
        repeat split; try done. lia.
      * intros _. rewrite foldl_stuck by (intros; by apply ingest_row_stuck). done.
    + intros Hc Hi.
      destruct (IH _ _ _ _ _ _ _ _ Hc Hi) as (nv & nf & -> & -> & -> & Hp).
      exists nv, (failure_row row errors :: nf). simpl in *. rewrite <- !app_assoc.
      repeat split; try done.
    + intros _. rewrite foldl_stuck by (intros; by apply ingest_row_stuck). done.
Qed.

Lemma files_agree R files : ∀ tally store tally' store',
  dry_run_matches tally store →
  foldl (check_file R) (Return tally) files = Return tally' →
  foldl (ingest_file R) (Return store) files = Return store' →
  dry_run_matches tally' store'.
Proof.
  induction files as [|file files IH]; intros tally store tally' store' Hm.
  - by intros [= <-] [= <-].
  - change (foldl ?f ?a (file :: files)) with (foldl f (f a file) files).
    change (foldl ?f ?a (file :: files)) with (foldl f (f a file) files).
    destruct (check_file R (Return tally) file) as [tally1|m|exc] eqn:Hcheck;
      [|rewrite foldl_stuck by (intros; by apply check_file_stuck); done..].
    destruct (ingest_file R (Return store) file) as [store1|m|exc] eqn:Hingest;
      [|intros _; rewrite foldl_stuck by (intros; by apply ingest_file_stuck); done..].
    apply IH.
    apply ingest_file_store in Hingest
      as (valid & quarantine & Hirows & _ & Hevents & Hfiles & Hlog).
    revert Hcheck. unfold check_file. simpl.
    destruct (iter_csv_rows R file.2) as [rows report]. simpl in Hirows.
    destruct (foldl (check_row R) (Return (tally, [])) rows) as [[t failures]| |] eqn:Hcrows;
      simpl; [|done..].
    destruct (rows_agree R rows _ _ _ _ _ _ _ _ Hcrows Hirows)
      as (nv & nf & Hv & Hq & Hf & Hp).
    simpl in Hv, Hq, Hf. subst valid quarantine failures.
    apply check_rows_tally in Hcrows as (new & Hnew & _ & Hfailed & Hwritten).
    simpl in Hnew. subst new.
    destruct Hm as (Hmw & Hmp & Hmf).
    unfold dry_run_matches.
    rewrite Hevents, Hfiles, Hlog, length_app, fmap_app, sum_list_with_app.
    rewrite <- Hmw, <- Hmp, <- Hmf. unfold quarantine_output.
    intros [= <-].
    destruct (nonzero (length nf)); simpl; rewrite ?app_nil_r, ?Hwritten;
      repeat split; solve [done | lia].
Qed.

(** X13: the dry run predicts ingestion: when both run to their end on the
    same files, they quarantine the same rows in the same files, the rows the
    dry run counts as passed are as many as the events stored, and the rows
    it counts as failed as many as the log says were quarantined. *)
Theorem dry_run_predicts_ingestion R csv_files code tally code' store :
  validator_main R csv_files = Return (code, tally) →
  ingest_main R csv_files = Return (code', store) →
  dry_run_matches tally store.
Proof.
  unfold validator_main, ingest_main.
  destruct (foldl (check_file R) _ csv_files) as [tally1| |] eqn:Hcheck; simpl; [|done..].
  destruct (foldl (ingest_file R) _ csv_files) as [store1| |] eqn:Hingest; simpl;
    [|done..].
  intros [= <- <-] [= <- <-].
  eapply files_agree; [|exact Hcheck|exact Hingest].
  by repeat split.
Qed.

Lemma dry_run_predicts_ingestion_witness :
  ∃ tally store,
    validator_main sample_runtime sample_files = Return (0, tally) ∧
    ingest_main sample_runtime sample_files = Return (0, store) ∧
    dry_run_matches tally store.
Proof.
  destruct (validator_main_returns sample_runtime sample_pandas_value_errors sample_files)
    as [tally Htally].
  destruct (ingest_main_returns sample_runtime sample_pandas_value_errors sample_files)
    as [store Hstore]; [by eexists|by eexists|].
  exists tally, store. split; [done|]. split; [done|].
  by apply (dry_run_predicts_ingestion sample_runtime sample_files 0 tally 0 store).
Defined.

Lemma iter_csv_rows_with_timestamp R hdrs rows :
  py "timestamp" ∈ (λ h, normalize_column_name R (VStr h)) <$> hdrs →
  iter_csv_rows R (Table hdrs rows) =
  ((λ row, normalize_row R row
             (list_to_map ((λ h, (h, normalize_column_name R (VStr h))) <$> hdrs))
             false) <$> rows,
   let effective : gset (list N) :=
     list_to_set ((λ h, normalize_column_name R (VStr h)) <$> hdrs) in
   {| headers := hdrs;
      normalized_headers := sorted (elements effective);
      extra_columns := sorted (filter (λ c, c ∉ EXPECTED_HEADERS) (elements effective));
      missing_core := sorted (filter (λ c, c ∉ effective) CORE_HEADERS) |}).
Proof.
  intros Hts. unfold iter_csv_rows.
  set (nh := (λ h, normalize_column_name R (VStr h)) <$> hdrs) in *.
  assert (py_in (py "timestamp") nh = true) as -> by by apply bool_decide_eq_true.
  reflexivity.
Qed.

(** X14: in a file with a [timestamp] column nothing is derived: the reported
    headers are the normalised headers, [date] and [time] columns are
    reported as extra columns, and each row's timestamp is its timestamp
    cell, absent when the row has none, whatever its date and time cells
    hold. *)
Theorem timestamp_column_is_kept R hdrs rows :
  py "timestamp" ∈ (λ h, normalize_column_name R (VStr h)) <$> hdrs →
  (∀ c, c ∈ normalized_headers (snd (iter_csv_rows R (Table hdrs rows))) ↔
        c ∈ (λ h, normalize_column_name R (VStr h)) <$> hdrs) ∧
  (∀ c, (c = py "date" ∨ c = py "time") →
        c ∈ (λ h, normalize_column_name R (VStr h)) <$> hdrs →
        c ∈ extra_columns (snd (iter_csv_rows R (Table hdrs rows)))) ∧
  ∀ i row,
    rows !! i = Some row →
    row_keys_from hdrs row →
    ∃ normalized,
      fst (iter_csv_rows R (Table hdrs rows)) !! i = Some normalized ∧
      normalized !! py "timestamp" =
      match cells R (py "timestamp") row with
      | [] => None
      | _ :: _ => Some (merged_cell R (py "timestamp") row)
      end.
Proof.
  intros Hts. rewrite (iter_csv_rows_with_timestamp R hdrs rows Hts). simpl.
  split; [|split].
  - intros c. by rewrite sorted_elem_of, elem_of_elements, elem_of_list_to_set.
  - intros c Hc Hin.
    rewrite sorted_elem_of, list_elem_of_filter, elem_of_elements, elem_of_list_to_set.
    split; [|done].
    destruct Hc as [->| ->]; apply (bool_decide_unpack _); by vm_compute.
  - intros i row Hrow Hkeys. eexists. split; [by rewrite list_lookup_fmap, Hrow|].
    unfold normalize_row. simpl.
    pose proof (sources_ext R _ ∅ (py "timestamp") row (target_key_header R hdrs row Hkeys))
      as Hsrc.
    fold (cells R (py "timestamp") row) in Hsrc.
    unfold merged_cell. destruct (cells R (py "timestamp") row) as [|v cands].
    + apply map_lookup_filter_None. left. by apply merge_columns_absent.
    + apply map_lookup_filter_Some. split.
      * by rewrite (merge_columns_lookup _ _ _ _ _ _ Hsrc).
      * simpl. apply (bool_decide_unpack _). by vm_compute.
Qed.

Lemma timestamp_column_is_kept_witness :
  py "date" ∈ extra_columns
    (snd (iter_csv_rows sample_runtime
            (Table sample_timestamp_file_headers sample_timestamp_file_rows))) ∧
  ∃ normalized,
    fst (iter_csv_rows sample_runtime
           (Table sample_timestamp_file_headers sample_timestamp_file_rows)) !! 0%nat
      = Some normalized ∧
    normalized !! py "timestamp" = Some VNone.
Proof.
  destruct (timestamp_column_is_kept sample_runtime sample_timestamp_file_headers
              sample_timestamp_file_rows) as (_ & Hextra & Hrows).
  { apply (bool_decide_unpack _). by vm_compute. }
  split.
  - apply Hextra; [by left|]. apply (bool_decide_unpack _). by vm_compute.
  - apply (Hrows 0%nat _ eq_refl).
    repeat (constructor; [apply (bool_decide_unpack _); by vm_compute|]). constructor.
Defined.

Lemma replace_first_app old new a b :
  old ∉ a → replace_first old new (a ++ old :: b) = a ++ new :: b.
Proof.
  induction a as [|x a IH]; intros Hold; simpl.
  - by rewrite decide_True.
  - apply not_elem_of_cons in Hold as [Hx Ha].
    rewrite decide_False by done. by rewrite IH.
Qed.

Lemma replace_first_absent old new a : old ∉ a → replace_first old new a = a.
Proof.
  induction a as [|x a IH]; intros Hold; simpl; [done|].
  apply not_elem_of_cons in Hold as [Hx Ha].
  rewrite decide_False by done. by rewrite IH.
Qed.

Lemma drop_last_snoc a x : drop_last (a ++ [x]) = a.
Proof.
  unfold drop_last. rewrite length_app. simpl.
  replace (length a + 1 - 1)%nat with (length a) by lia.
  by rewrite take_app_length.
Qed.

Lemma normalize_timestamp_string R s :
  strip s ≠ [] →
  normalize_timestamp R (VStr s) =
  match fromisoformat R (iso_candidate (strip s)) with
  | Some d => Return (VDatetime d)
  | None =>
      match pd R with
      | None => ValueError (py "timestamp is not a valid datetime")
      | Some pandas => to_datetime pandas (VStr (strip s)) None
      end
  end.
Proof.
  intros Hs. unfold normalize_timestamp, iso_candidate, str_eqb.
  by rewrite bool_decide_eq_false_2.
Qed.

(** X15: a timestamp string written with a space between date and time is
    handed to the ISO parser as the same text as the string written with
    [T], and a string ending in [Z] as the same text as the string ending in
    [+00:00]; so whenever the ISO parser accepts that text both spellings
    validate to the same instant. *)
Theorem iso_spellings_agree R :
  (∀ a b, 32%N ∉ a → 84%N ∉ a → 84%N ∉ b →
          iso_candidate (a ++ 32%N :: b) = iso_candidate (a ++ 84%N :: b)) ∧
  (∀ c, (32%N ∉ c ∨ 84%N ∈ c) →
        iso_candidate (c ++ [90%N]) = iso_candidate (c ++ py "+00:00")) ∧
  (∀ s1 s2 d,
     strip s1 ≠ [] → strip s2 ≠ [] →
     iso_candidate (strip s1) = iso_candidate (strip s2) →
     fromisoformat R (iso_candidate (strip s1)) = Some d →
     normalize_timestamp R (VStr s1) = Return (VDatetime d) ∧
     normalize_timestamp R (VStr s2) = Return (VDatetime d)).
Proof.
  split; [|split].
  - intros a b Ha32 Ha84 Hb84. unfold iso_candidate, contains_char.
    rewrite (bool_decide_eq_true_2 (32%N ∈ a ++ 32%N :: b))
      by (apply elem_of_app; right; apply elem_of_cons; by left).
    rewrite (bool_decide_eq_false_2 (84%N ∈ a ++ 32%N :: b)).
    2:{ rewrite elem_of_app, elem_of_cons. intros [?|[?|?]]; done. }
    rewrite (bool_decide_eq_true_2 (84%N ∈ a ++ 84%N :: b))
      by (apply elem_of_app; right; apply elem_of_cons; by left).
    rewrite andb_false_r. simpl. by rewrite replace_first_app.
  - intros c Hc. unfold iso_candidate, contains_char, endswith_char.
    assert ((bool_decide (32%N ∈ c ++ [90%N]) && negb (bool_decide (84%N ∈ c ++ [90%N])))
            = false) as ->.
    { destruct Hc as [Hc|Hc].
      - rewrite (bool_decide_eq_false_2 (32%N ∈ c ++ [90%N])); [done|].
        rewrite elem_of_app, elem_of_cons, elem_of_nil. intros [?|[?|?]]; done.
      - rewrite (bool_decide_eq_true_2 (84%N ∈ c ++ [90%N]))
          by (apply elem_of_app; by left).
        by rewrite andb_false_r. }
    assert ((bool_decide (32%N ∈ c ++ py "+00:00")
             && negb (bool_decide (84%N ∈ c ++ py "+00:00"))) = false) as ->.
    { destruct Hc as [Hc|Hc].
      - rewrite (bool_decide_eq_false_2 (32%N ∈ c ++ py "+00:00")); [done|].
        rewrite elem_of_app. intros [?|Hin]; [done|].
        revert Hin. apply (bool_decide_unpack _). by vm_compute.
      - rewrite (bool_decide_eq_true_2 (84%N ∈ c ++ py "+00:00"))
          by (apply elem_of_app; by left).
        by rewrite andb_false_r. }
    rewrite last_snoc, bool_decide_eq_true_2 by done.
    rewrite drop_last_snoc.
    rewrite bool_decide_eq_false_2; [done|].
    change (py "+00:00") with ([43; 48; 48; 58; 48]%N ++ [48%N]).
    rewrite app_assoc, last_snoc. by intros [=].
  - intros s1 s2 d Hs1 Hs2 Heq Hd.
    rewrite !normalize_timestamp_string by done. by rewrite <- Heq, Hd.
Qed.

Lemma iso_spellings_agree_witness :
  normalize_timestamp sample_runtime (VStr (py " 2024-01-01 10:00:00 ")) =
    Return (VDatetime {| dt_epoch_us := 1704103200000000; dt_utcoffset := None |}) ∧
  normalize_timestamp sample_runtime (VStr (py "2024-01-01T10:00:00")) =
    Return (VDatetime {| dt_epoch_us := 1704103200000000; dt_utcoffset := None |}).
Proof.
  destruct (iso_spellings_agree sample_runtime) as (Hspace & _ & Hsame).
  apply Hsame; [by vm_compute..| |by vm_compute].
  assert (strip (py " 2024-01-01 10:00:00 ") = py "2024-01-01" ++ 32%N :: py "10:00:00")
    as -> by by vm_compute.
  assert (strip (py "2024-01-01T10:00:00") = py "2024-01-01" ++ 84%N :: py "10:00:00")
    as -> by by vm_compute.
  apply Hspace; apply (bool_decide_unpack _); by vm_compute.
Defined.

Lemma count_up_total counts summary :
  total_count (count_up counts summary) = S (total_count counts).
Proof.
  unfold total_count, count_up.
  assert (∀ (m : gmap (list N) nat) (j1 j2 : list N) (z1 z2 y : nat),
            j1 ≠ j2 → m !! j1 = Some z1 → m !! j2 = Some z2 →
            (z1 + (z2 + y) = z2 + (z1 + y))%nat) as Hcomm by (intros; lia).
  destruct (counts !! summary) as [n|] eqn:Hs; simpl.
  - rewrite <- insert_delete_eq.
    rewrite map_fold_insert_L; [|by eauto|by rewrite lookup_delete_eq].
    rewrite (map_fold_delete_L _ _ summary n counts); [lia|by eauto|done].
  - rewrite map_fold_insert_L; [lia|by eauto|done].
Qed.

Lemma count_up_all_total summaries : ∀ counts,
  total_count (foldl count_up counts summaries)
  = (total_count counts + length summaries)%nat.
Proof.
  induction summaries as [|s summaries IH]; intros counts; simpl; [lia|].
  rewrite IH, count_up_total. lia.
Qed.

Lemma validation_errors_nonempty R row errors :
  model_validate R row = ValidationError errors → errors ≠ [].
Proof.
  unfold model_validate.
  generalize (check_text R (row !! py "client_id")); intros c1.
  generalize (check_timestamp R (row !! py "timestamp")); intros c2.
  generalize (check_event_name R (row !! py "event_name")); intros c3.
  generalize (check_event_data R (row !! py "event_data")); intros c4.
  generalize (check_text R (row !! py "page_url")); intros c5.
  generalize (check_referrer (row !! py "referrer")); intros c6.
  generalize (check_text R (row !! py "user_agent")); intros c7.
  split_check c1; split_check c2; split_check c3; split_check c4;
    split_check c5; split_check c6; split_check c7;
    by intros [= <-].
Qed.

Lemma digest_accounted_alt tally :
  (failed tally ≤ total_count (error_counts tally))%nat →
  (failed tally = 0%nat → error_counts tally = ∅) →
  digest_accounted tally.
Proof.
  intros Hle Hzero. split; [done|]. split; [|done].
  intros Hempty. rewrite Hempty in Hle. unfold total_count in Hle.
  rewrite map_fold_empty in Hle. lia.
Qed.

Lemma check_rows_digest R rows : ∀ tally failures tally' failures',
  (failed tally ≤ total_count (error_counts tally))%nat →
  (failed tally = 0%nat → error_counts tally = ∅) →
  foldl (check_row R) (Return (tally, failures)) rows = Return (tally', failures') →
  (failed tally' ≤ total_count (error_counts tally'))%nat ∧
  (failed tally' = 0%nat → error_counts tally' = ∅).
Proof.
  induction rows as [|row rows IH]; intros tally failures tally' failures' Hle Hzero.
  - by intros [= <- <-].
  - change (foldl ?f ?a (row :: rows)) with (foldl f (f a row) rows).
    unfold check_row at 2. simpl.
    destruct (model_validate R row) as [model|errors|exc] eqn:Hrow.
    + by apply IH.
    + apply IH; simpl; [|done].
      rewrite count_up_all_total, length_fmap.
      apply validation_errors_nonempty in Hrow.
      destruct errors; [done|]. simpl. lia.
    + rewrite foldl_stuck by (intros; by apply check_row_stuck). done.
Qed.

Lemma check_files_digest R files : ∀ tally tally',
  (failed tally ≤ total_count (error_counts tally))%nat →
  (failed tally = 0%nat → error_counts tally = ∅) →
  foldl (check_file R) (Return tally) files = Return tally' →
  (failed tally' ≤ total_count (error_counts tally'))%nat ∧
  (failed tally' = 0%nat → error_counts tally' = ∅).
Proof.
  induction files as [|file files IH]; intros tally tally' Hle Hzero.
  - by intros [= <-].
  - change (foldl ?f ?a (file :: files)) with (foldl f (f a file) files).
    unfold check_file at 2. simpl.
    destruct (iter_csv_rows R file.2) as [rows report].
    destruct (foldl (check_row R) (Return (tally, [])) rows) as [[t failures]| |] eqn:Hrows;
      simpl; [|rewrite foldl_stuck by (intros; by apply check_file_stuck); done..].
    apply check_rows_digest in Hrows as [Hle' Hzero']; [|done..].
    destruct (nonzero (length failures)); by apply IH.
Qed.

(** X16: at the end of a dry run the error counter is empty exactly when no
    row failed (the digest then reads "(none)"), and otherwise its counts
    add up to at least the number of failed rows. *)
Theorem dry_run_digest R csv_files code tally :
  validator_main R csv_files = Return (code, tally) →
  digest_accounted tally.
Proof.
  unfold validator_main.
  destruct (foldl (check_file R) _ csv_files) as [tally1| |] eqn:Hfiles; simpl; [|done..].
  intros [= <- <-].
  apply check_files_digest in Hfiles as [Hle Hzero]; simpl;
    [|first [done | unfold total_count; by rewrite map_fold_empty]..].
  by apply digest_accounted_alt.
Qed.

Lemma dry_run_digest_witness :
  ∃ tally,
    validator_main sample_runtime sample_files = Return (0, tally) ∧
    digest_accounted tally.
Proof.
  destruct (validator_main_returns sample_runtime sample_pandas_value_errors sample_files)
    as [tally Htally].
  exists tally. split; [done|].
  by apply (dry_run_digest sample_runtime sample_files 0).
Defined.

Example format_table_sample :
  _format_table sample_runtime [py "name"; py "n"]
    [[VStr (py "a"); VStr (py "12")]; [VNone; VStr (py "3")]]
  = Some (py "name | n " ++ [10%N] ++ py "-----+---" ++ [10%N]
          ++ py "a    | 12" ++ [10%N] ++ py "     | 3 ").
Proof. by vm_compute. Qed.

(** *** The text table *)



Lemma fits_mono widths widths' cells :
  Forall2 le widths widths' → fits widths cells → fits widths' cells.
Proof.
  intros Hle Hfits k cell Hcell.
  destruct (Hfits k cell Hcell) as (w & Hw & Hlen).
  destruct (Forall2_lookup_l _ _ _ _ _ Hle Hw) as (w' & Hw' & Hww').
  exists w'. split; [done|lia].
Qed.

Lemma widen_from_Some row : ∀ i widths widths',
  widen_from i row widths = Some widths' →
  Forall2 le widths widths' ∧
  (i + length row ≤ length widths ∨ row = [])%nat ∧
  ∀ k cell, row !! k = Some cell →
    ∃ w, widths' !! (i + k)%nat = Some w ∧ (length cell ≤ w)%nat.
Proof.
  induction row as [|cell row IH]; intros i widths widths'; simpl.
  - intros [= <-]. split; [by apply Forall_Forall2_diag, Forall_true|].
    split; [by right|].
    intros k cell. by rewrite lookup_nil.
  - destruct (widths !! i) as [w|] eqn:Hw; simpl; [|done].
    intros Hrest. apply IH in Hrest as (Hle & Hlen & Hcells).
    pose proof (lookup_lt_Some _ _ _ Hw) as Hi.
    assert (Forall2 le widths (<[i:=Nat.max w (length cell)]> widths)) as Hstep.
    { apply Forall2_same_length_lookup_2; [by rewrite length_insert|].
      intros j x y Hx Hy. destruct (decide (i = j)) as [->|Hne].
      - rewrite list_lookup_insert_eq in Hy by done. simplify_eq. lia.
      - rewrite list_lookup_insert_ne in Hy by done. by simplify_eq. }
    split; [by etrans|]. split.
    + left. rewrite length_insert in Hlen. destruct Hlen as [Hlen| ->]; simpl; lia.
    + intros [|k] c Hc; simpl in Hc.
      * simplify_eq. rewrite Nat.add_0_r.
        assert (<[i:=Nat.max w (length c)]> widths !! i = Some (Nat.max w (length c)))
          as Hi' by by apply list_lookup_insert_eq.
        destruct (Forall2_lookup_l _ _ _ _ _ Hle Hi') as (w' & Hw' & Hww').
        exists w'. split; [done|lia].
      * destruct (Hcells k c Hc) as (w' & Hw' & Hlen').
        exists w'. split; [|done]. by rewrite <- Nat.add_succ_comm.
Qed.

Lemma widen_from_is_Some row : ∀ i widths,
  (i + length row ≤ length widths)%nat → is_Some (widen_from i row widths).
Proof.
  induction row as [|cell row IH]; intros i widths Hlen; simpl; [by eauto|].
  simpl in Hlen.
  destruct (lookup_lt_is_Some_2 widths i) as [w Hw]; [lia|].
  rewrite Hw. simpl. apply IH. rewrite length_insert. lia.
Qed.

Lemma widen_rows_None (drows : list (list (list N))) :
  foldl (λ (acc : option (list nat)) row, ws ← acc; widen_from 0 row ws) None drows
  = None.
Proof. induction drows as [|row drows IH]; [done|exact IH]. Qed.

Lemma widen_rows_Some (drows : list (list (list N))) : ∀ widths0 widths,
  foldl (λ (acc : option (list nat)) row, ws ← acc; widen_from 0 row ws)
    (Some widths0) drows = Some widths →
  Forall2 le widths0 widths ∧
  Forall (λ row, fits widths row ∧ (length row ≤ length widths0)%nat) drows.
Proof.
  induction drows as [|row drows IH]; intros widths0 widths.
  - intros [= <-]. split; [by apply Forall_Forall2_diag, Forall_true|constructor].
  - intros Hfold. simpl in Hfold.
    destruct (widen_from 0 row widths0) as [widths1|] eqn:Hrow;
      [|by rewrite widen_rows_None in Hfold].
    apply IH in Hfold as [Hle Hrows].
    apply widen_from_Some in Hrow as (Hle0 & Hlen & Hcells).
    split; [by etrans|]. constructor.
    + split; [|destruct Hlen as [Hlen| ->]; simpl in *; lia].
      apply (fits_mono widths1); [done|]. intros k cell Hcell. by apply Hcells.
    + eapply Forall_impl; [exact Hrows|]. intros r [Hfits Hr]. split; [done|].
      by rewrite (Forall2_length _ _ _ Hle0).
Qed.

Lemma widen_rows_is_Some (drows : list (list (list N))) : ∀ widths0,
  Forall (λ row, (length row ≤ length widths0)%nat) drows →
  is_Some (foldl (λ (acc : option (list nat)) row, ws ← acc; widen_from 0 row ws)
             (Some widths0) drows).
Proof.
  induction drows as [|row drows IH]; intros widths0 Hrows; [by eexists|].
  apply Forall_cons in Hrows as [Hrow Hrows]. simpl.
  destruct (widen_from_is_Some row 0 widths0) as [widths1 Hw]; [simpl; lia|].
  rewrite Hw. apply IH.
  apply widen_from_Some in Hw as (Hle & _ & _).
  by rewrite <- (Forall2_length _ _ _ Hle).
Qed.

Lemma fmt_row_is_Some widths cells :
  is_Some (fmt_row widths cells) ↔ (length widths ≤ length cells)%nat.
Proof.
  unfold fmt_row. split.
  - intros [out Hout]. apply bind_Some in Hout as (padded & Hp & _).
    apply mapM_Some_1 in Hp.
    destruct (decide (length widths = 0%nat)) as [|Hne]; [lia|].
    assert (seq 0 (length widths) !! (length widths - 1)%nat
            = Some (length widths - 1)%nat) as Hlast
      by (apply lookup_seq; split; [done|lia]).
    destruct (Forall2_lookup_l _ _ _ _ _ Hp Hlast) as (p & _ & Hf).
    apply bind_Some in Hf as (cell & Hcell & _).
    apply lookup_lt_Some in Hcell. lia.
  - intros Hlen.
    assert (is_Some (mapM (λ i, cell ← cells !! i; w ← widths !! i; Some (ljust cell w))
                       (seq 0 (length widths)))) as [padded Hp].
    { apply mapM_is_Some_2, Forall_forall. intros i [_ Hi]%elem_of_seq.
      unfold compose.
      destruct (lookup_lt_is_Some_2 cells i) as [c Hc]; [lia|].
      destruct (lookup_lt_is_Some_2 widths i) as [w Hw]; [lia|].
      rewrite Hc. simpl. rewrite Hw. by eexists. }
    rewrite Hp. by eexists.
Qed.



Lemma format_table_lines_is_Some R hdrs rows :
  is_Some (format_table_lines R hdrs rows)
  ↔ Forall (λ row, length row = length hdrs) rows.
Proof.
  unfold format_table_lines. cbv zeta. split.
  - intros [lines Hlines].
    apply bind_Some in Hlines as (widths & Hfold & Hlines).
    apply bind_Some in Hlines as (head_line & _ & Hlines).
    apply bind_Some in Hlines as (body & Hbody & _).
    apply widen_rows_Some in Hfold as (Hle & Hrows).
    apply Forall2_length in Hle. rewrite length_fmap in Hle.
    apply mk_is_Some, mapM_is_Some_1 in Hbody.
    rewrite Forall_fmap in Hrows, Hbody.
    apply Forall_forall. intros row Hrow.
    rewrite Forall_forall in Hrows, Hbody.
    destruct (Hrows row Hrow) as [_ Hupper]. specialize (Hbody row Hrow).
    simpl in Hupper, Hbody. apply fmt_row_is_Some in Hbody.
    rewrite !length_fmap in Hupper. rewrite length_fmap in Hbody. lia.
  - intros Hrows.
    destruct (widen_rows_is_Some ((λ row : list PyVal, display_cell R <$> row) <$> rows)
                (length <$> hdrs)) as [widths Hfold].
    { apply Forall_fmap. eapply Forall_impl; [exact Hrows|].
      intros row Hrow. simpl in *. rewrite !length_fmap. lia. }
    rewrite Hfold. simpl.
    apply widen_rows_Some in Hfold as [Hle _].
    apply Forall2_length in Hle. rewrite length_fmap in Hle.
    destruct (proj2 (fmt_row_is_Some widths hdrs)) as [head_line Hhead]; [lia|].
    rewrite Hhead. simpl.
    destruct (mapM_is_Some_2 (fmt_row widths)
                ((λ row : list PyVal, display_cell R <$> row) <$> rows)) as [body Hbody].
    { apply Forall_fmap. eapply Forall_impl; [exact Hrows|].
      intros row Hrow. simpl in *. apply fmt_row_is_Some. rewrite length_fmap. lia. }
    rewrite Hbody. by eexists.
Qed.



(** X18. [_format_table] raises (an IndexError) exactly when there are headers
    and some row has not as many cells as there are headers: a longer row
    fails while the widths are computed, a shorter one while it is printed.
    Without headers every input gives the text "(no columns)". *)
Theorem format_table_raises (R : Runtime) hdrs rows :
  (_format_table R hdrs rows = None
   ↔ hdrs ≠ [] ∧ Exists (λ row, length row ≠ length hdrs) rows) ∧
  _format_table R [] rows = Some (py "(no columns)").
Proof.
  split; [|done]. unfold _format_table. case_bool_decide as Hh.
  - split; [done|]. by intros [? _].
  - rewrite fmap_None, eq_None_not_Some, format_table_lines_is_Some. split.
    + intros Hn. split; [done|].
      apply not_Forall_Exists in Hn; [done|]. intros row. apply _.
    + intros [_ Hex] Hall. apply Exists_exists in Hex as (row & Hin & Hneq).
      rewrite Forall_forall in Hall. by apply Hneq, Hall.
Qed.

Example format_table_ragged :
  _format_table sample_runtime [py "name"; py "n"] [[VStr (py "a")]] = None ∧
  _format_table sample_runtime [py "name"] [[VStr (py "a"); VInt 1]] = None ∧
  _format_table sample_runtime [] [[VStr (py "a"); VInt 1]] = Some (py "(no columns)").
Proof. by vm_compute. Qed.

Lemma filter_filter_not_in (out : list (list N)) name (names : list (list N)) :
  name ∈ out →
  filter (λ other, other ∉ out) (filter (λ other, other ≠ name) names)
  = filter (λ other, other ∉ out) names.
Proof.
  intros Hin. rewrite list_filter_filter. apply list_filter_iff.
  intros other. split; [by intros [? _]|]. intros Hother. split; [done|].
  by intros ->.
Qed.

Lemma filter_not_in_snoc (out : list (list N)) name (names : list (list N)) :
  filter (λ other, other ∉ out ++ [name]) names
  = filter (λ other, other ∉ out) (filter (λ other, other ≠ name) names).
Proof.
  rewrite list_filter_filter. apply list_filter_iff. intros other.
  rewrite elem_of_app, list_elem_of_singleton. tauto.
Qed.

Lemma declare_fold names : ∀ seen out,
  (∀ name, name ∈ seen ↔ name ∈ out) →
  (foldl declare (seen, out) names).2
  = out ++ filter (λ other, other ∉ out) (first_occurrences names).
Proof.
  induction names as [|name names IH]; intros seen out Hseen.
  - simpl. by rewrite app_nil_r.
  - change (foldl declare (seen, out) (name :: names))
      with (foldl declare (declare (seen, out) name) names).
    unfold declare at 2. simpl fst. simpl snd. simpl first_occurrences.
    destruct (decide (name ∈ seen)) as [Hin|Hnew].
    + rewrite IH by done. f_equal. apply Hseen in Hin.
      rewrite filter_cons_False by (by intros Hn; apply Hn).
      by rewrite filter_filter_not_in.
    + rewrite IH.
      * rewrite <- app_assoc. f_equal. simpl.
        rewrite filter_cons_True by (by rewrite <- Hseen).
        f_equal. apply filter_not_in_snoc.
      * intros other. rewrite elem_of_union, elem_of_singleton, elem_of_app,
          list_elem_of_singleton, Hseen. tauto.
Qed.

Lemma first_occurrences_elem_of names name :
  name ∈ first_occurrences names ↔ name ∈ names.
Proof.
  induction names as [|first names IH]; [done|]. simpl.
  rewrite !elem_of_cons, list_elem_of_filter, IH.
  destruct (decide (name = first)); tauto.
Qed.

Lemma first_occurrences_NoDup names : NoDup (first_occurrences names).
Proof.
  induction names as [|first names IH]; simpl; constructor.
  - rewrite list_elem_of_filter. by intros [Hne _].
  - by apply NoDup_filter.
Qed.

(** X19. [_declared_objects] lists every declared name once, at the place of
    its first declaration: the result has no duplicate, has exactly the names
    the pattern finds, and is the list of their first occurrences. *)
Theorem declared_objects_once (findall : list N → list (list N)) sql_text :
  NoDup (_declared_objects findall sql_text) ∧
  (∀ name, name ∈ _declared_objects findall sql_text ↔ name ∈ findall sql_text) ∧
  _declared_objects findall sql_text = first_occurrences (findall sql_text).
Proof.
  assert (_declared_objects findall sql_text = first_occurrences (findall sql_text))
    as Heq.
  { unfold _declared_objects. rewrite (declare_fold _ ∅ []) by set_solver.
    simpl. induction (first_occurrences (findall sql_text)) as [|name names IH];
      [done|].
    rewrite filter_cons_True by apply not_elem_of_nil. by rewrite IH. }
  rewrite Heq. split; [apply first_occurrences_NoDup|].
  split; [|done]. intros name. apply first_occurrences_elem_of.
Qed.

Example run_checks_sample :
  _run_checks sample_runtime sample_fetch_table = Some 0 ∧
  _run_checks sample_runtime sample_broken_fetch_table = Some 1.
Proof. by vm_compute. Qed.

(** *** The validation checks *)

Lemma pass_is_not_fail : py "PASS" ≠ py "FAIL".
Proof. by vm_compute. Qed.

Lemma checks_names_NoDup : NoDup (check_name <$> checks).
Proof. apply (bool_decide_unpack _). by vm_compute. Qed.

Lemma NoDup_fmap_elem_inj {A B} (f : A → B) (l : list A) x y :
  NoDup (f <$> l) → x ∈ l → y ∈ l → f x = f y → x = y.
Proof.
  induction l as [|a l IH]; [by intros _ ?%elem_of_nil|].
  rewrite fmap_cons, NoDup_cons, !elem_of_cons.
  intros [Ha Hl] [->|Hx] [->|Hy] Hf; [done| | |by apply IH].
  - destruct Ha. rewrite Hf. by apply list_elem_of_fmap_2.
  - destruct Ha. rewrite <- Hf. by apply list_elem_of_fmap_2.
Qed.

Section RunChecksFacts.
Variable R : Runtime.
Variable fetch : SqlCheck → Outcome (list (list N) * list (list PyVal)).

(** The three shapes of what one check leaves. *)
Lemma check_outcome_cases check :
  (∃ details,
     check_outcome R fetch check = ([(check_name check, py "PASS", details)], false)) ∨
  (∃ details,
     check_outcome R fetch check
     = ([(check_name check, py "FAIL", details)],
        negb (bool_decide (pass_condition check = diagnostic_dupes)))) ∨
  (∃ details error,
     pass_condition check = zero_rows ∧
     check_outcome R fetch check
     = ([(check_name check, py "FAIL", details);
         (check_name check, py "FAIL", error)], true)).
Proof.
  Local Opaque py.
  unfold check_outcome, try_check.
  destruct (fetch check) as [[headers rows]|msg|exc];
    [|right; left; by eexists..].
  destruct (pass_condition check) eqn:Hcond.
  - destruct (bool_decide (rows = [])); [left; by eexists|].
    destruct (print_table R headers (take 10 rows));
      [right; right; by eexists _, _|right; left; by eexists].
  - destruct (bool_decide (rows = [])); [left; by eexists|].
    destruct (print_table R headers (take 1 rows));
      [right; left; by eexists|left; by eexists].
  - destruct (unassigned_events headers rows) as [unassigned|];
      [|right; left; by eexists].
    cbv zeta.
    destruct (if bool_decide (rows = []) then None
              else print_table R headers (take 1 rows));
      [right; left; by eexists|].
    destruct (eq_zero unassigned); [left; by eexists|right; left; by eexists].
  - destruct (if bool_decide (rows = []) then None
              else print_table R headers (take 10 rows));
      [right; left; by eexists|left; by eexists].
  Local Transparent py.
Qed.
End RunChecksFacts.

Lemma check_outcome_spec R fetch check :
  (check_outcome R fetch check).1 ≠ [] ∧
  (length (check_outcome R fetch check).1 ≤ 2)%nat ∧
  Forall (λ r, r.1.1 = check_name check ∧ (r.1.2 = py "PASS" ∨ r.1.2 = py "FAIL"))
    (check_outcome R fetch check).1 ∧
  ((check_outcome R fetch check).2 = true
   ↔ pass_condition check ≠ diagnostic_dupes ∧
     ∃ r, r ∈ (check_outcome R fetch check).1 ∧ r.1.2 = py "FAIL").
Proof.
  Local Opaque py.
  destruct (check_outcome_cases R fetch check)
    as [(d & ->)|[(d & ->)|(d & e & Hz & ->)]]; simpl.
  - split; [done|]. split; [lia|].
    split; [apply Forall_singleton; split; [done|by left]|].
    split; [done|]. intros [_ (r & Hr & Hfail)].
    apply list_elem_of_singleton in Hr as ->. by destruct pass_is_not_fail.
  - split; [done|]. split; [lia|].
    split; [apply Forall_singleton; split; [done|by right]|].
    rewrite negb_true_iff, bool_decide_eq_false. split; [|by intros [? _]].
    intros Hdiag. split; [done|]. eexists. split; [by apply list_elem_of_singleton|done].
  - split; [done|]. split; [lia|].
    split; [do 2 (constructor; [split; [done|by right]|]); constructor|].
    split; [|done]. intros _. split; [by rewrite Hz|].
    eexists. split; [apply elem_of_cons; by left|done].
  Local Transparent py.
Qed.

Lemma run_check_fold R fetch cs : ∀ st,
  foldl (run_check R fetch) st cs
  = (st.1 ++ (cs ≫= λ check, (check_outcome R fetch check).1),
     st.2 || existsb (λ check, (check_outcome R fetch check).2) cs).
Proof.
  induction cs as [|check cs IH]; intros [results failed].
  - simpl. by rewrite app_nil_r, orb_false_r.
  - change (foldl ?f ?a (check :: cs)) with (foldl f (f a check) cs).
    rewrite IH. unfold run_check. rewrite bind_cons. simpl.
    by rewrite <- app_assoc, <- orb_assoc.
Qed.

Lemma run_checks_from_spec R fetch cs :
  run_checks_from R fetch cs
  = (cs ≫= λ check, (check_outcome R fetch check).1,
     existsb (λ check, (check_outcome R fetch check).2) cs).
Proof. unfold run_checks_from. by rewrite run_check_fold. Qed.

(** The flag and the table agree, whatever the list of checks. *)
Lemma run_checks_flag R fetch cs :
  NoDup (check_name <$> cs) →
  (run_checks_from R fetch cs).2 = true
  ↔ ∃ check r, check ∈ cs ∧ r ∈ (run_checks_from R fetch cs).1 ∧
      r.1.1 = check_name check ∧ r.1.2 = py "FAIL" ∧
      pass_condition check ≠ diagnostic_dupes.
Proof.
  intros Hnames. rewrite run_checks_from_spec. simpl. rewrite existsb_exists. split.
  - intros (check & Hin%list_elem_of_In & Hflag).
    destruct (check_outcome_spec R fetch check) as (_ & _ & Hall & Hiff).
    apply Hiff in Hflag as (Hdiag & r & Hr & Hfail).
    exists check, r. split; [done|]. split.
    { apply list_elem_of_bind. by exists check. }
    rewrite Forall_forall in Hall. by destruct (Hall r Hr).
  - intros (check & r & Hin & Hr & Hname & Hfail & Hdiag).
    apply list_elem_of_bind in Hr as (check' & Hr & Hin').
    destruct (check_outcome_spec R fetch check') as (_ & _ & Hall & Hiff).
    rewrite Forall_forall in Hall. destruct (Hall r Hr) as [Hname' _].
    assert (check' = check) as ->.
    { apply (NoDup_fmap_elem_inj check_name cs); [done..|]. by rewrite <- Hname, Hname'. }
    exists check. split; [by apply list_elem_of_In|]. apply Hiff. split; [done|].
    by exists r.
Qed.

Lemma summary_table_prints R (results : list (list N * list N * list N)) :
  is_Some (_format_table R [py "check_name"; py "status"; py "details"]
             (result_row <$> results)).
Proof.
  unfold _format_table. rewrite bool_decide_false by done.
  apply fmap_is_Some, format_table_lines_is_Some, Forall_fmap, Forall_true.
  by intros r.
Qed.

(** X20. [_run_checks] always returns (its summary table has three cells in
    every row, so it prints), the status is 0 or 1, and it is 1 exactly when
    the summary table shows FAIL for a check that is not the diagnostic one:
    the status and the table never disagree. *)
Theorem run_checks_exit_status (R : Runtime)
    (fetch : SqlCheck → Outcome (list (list N) * list (list PyVal))) :
  ∃ code,
    _run_checks R fetch = Some code ∧
    (code = 0 ∨ code = 1) ∧
    (code = 1
     ↔ ∃ check r, check ∈ checks ∧ r ∈ (run_checks_from R fetch checks).1 ∧
         r.1.1 = check_name check ∧ r.1.2 = py "FAIL" ∧
         pass_condition check ≠ diagnostic_dupes).
Proof.
  unfold _run_checks.
  destruct (summary_table_prints R (run_checks_from R fetch checks).1) as [text ->].
  pose proof (run_checks_flag R fetch checks checks_names_NoDup) as Hflag.
  destruct ((run_checks_from R fetch checks).2);
    eexists; (split; [reflexivity|]).
  - split; [by right|]. split; [intros _; by apply Hflag|done].
  - split; [by left|]. split; [done|]. intros Hex. by apply Hflag in Hex.
Qed.

Lemma print_table_rectangular R headers rows k :
  Forall (λ row : list PyVal, length row = length headers) rows →
  print_table R headers (take k rows) = None.
Proof.
  intros Hrows. unfold print_table.
  destruct (_format_table R headers (take k rows)) eqn:Htable; [done|].
  exfalso. unfold _format_table in Htable. case_bool_decide; [done|].
  apply fmap_None, eq_None_not_Some in Htable.
  by apply Htable, format_table_lines_is_Some, Forall_take.
Qed.

Lemma unassigned_events_rectangular headers rows :
  Forall (λ row : list PyVal, length row = length headers) rows →
  is_Some (unassigned_events headers rows).
Proof.
  intros Hrows. unfold unassigned_events.
  destruct rows as [|row rows]; [by eexists|].
  destruct (list_find _ headers) as [[i h]|] eqn:Hfind; [|by eexists].
  apply list_find_Some in Hfind as (Hi & _ & _). apply lookup_lt_Some in Hi.
  apply Forall_cons in Hrows as [Hrow _]. apply lookup_lt_is_Some_2. lia.
Qed.

Lemma check_outcome_rectangular R fetch check :
  rectangular fetch →
  ∃ details,
    check_outcome R fetch check
    = ([(check_name check, if healthy fetch check then py "PASS" else py "FAIL",
         details)],
       negb (healthy fetch check)
       && negb (bool_decide (pass_condition check = diagnostic_dupes))).
Proof.
  Local Opaque py.
  intros Hrect. unfold check_outcome, try_check, healthy.
  destruct (fetch check) as [[headers rows]|msg|exc] eqn:Hfetch;
    [|by eexists..].
  specialize (Hrect _ _ _ Hfetch).
  pose proof (print_table_rectangular R headers rows 1 Hrect) as Hone.
  pose proof (print_table_rectangular R headers rows 10 Hrect) as Hten.
  destruct (unassigned_events_rectangular headers rows Hrect) as [unassigned Hun].
  rewrite Hone, Hten, Hun.
  destruct (pass_condition check) eqn:Hcond; cbv zeta.
  - destruct (bool_decide (rows = [])); by eexists.
  - destruct (bool_decide (rows = [])); by eexists.
  - destruct (bool_decide (rows = [])), (eq_zero unassigned); by eexists.
  - destruct (bool_decide (rows = [])); by eexists.
  Local Transparent py.
Qed.

Lemma run_checks_rectangular R fetch cs :
  rectangular fetch →
  Forall2 (λ check r,
             r.1.1 = check_name check ∧
             r.1.2 = (if healthy fetch check then py "PASS" else py "FAIL"))
    cs (run_checks_from R fetch cs).1 ∧
  (run_checks_from R fetch cs).2
  = existsb (λ check, negb (healthy fetch check)
                      && negb (bool_decide (pass_condition check = diagnostic_dupes))) cs.
Proof.
  intros Hrect. rewrite run_checks_from_spec. simpl.
  induction cs as [|check cs [IHr IHf]]; [by split; [constructor|]|].
  destruct (check_outcome_rectangular R fetch check Hrect) as [details Hout].
  rewrite bind_cons. simpl. rewrite Hout, IHf. simpl. split; [|done].
  by constructor.
Qed.

(** X21. When the connection gives rows with one cell per column, the summary
    of [_run_checks] has exactly one line per check, in the order of the
    checks, with the name of the check and the status PASS when the check
    holds of the data and FAIL otherwise (a query that raises is a FAIL). *)
Theorem run_checks_one_result_each (R : Runtime)
    (fetch : SqlCheck → Outcome (list (list N) * list (list PyVal))) :
  rectangular fetch →
  length (run_checks_from R fetch checks).1 = 10%nat ∧
  Forall2 (λ check r,
             r.1.1 = check_name check ∧
             r.1.2 = (if healthy fetch check then py "PASS" else py "FAIL"))
    checks (run_checks_from R fetch checks).1.
Proof.
  intros Hrect.
  destruct (run_checks_rectangular R fetch checks Hrect) as [Hresults _].
  split; [|done]. by rewrite <- (Forall2_length _ _ _ Hresults).
Qed.

Lemma run_checks_one_result_each_witness :
  length (run_checks_from sample_runtime sample_broken_fetch_table checks).1 = 10%nat ∧
  Forall2 (λ check r,
             r.1.1 = check_name check ∧
             r.1.2 = (if healthy sample_broken_fetch_table check
                      then py "PASS" else py "FAIL"))
    checks (run_checks_from sample_runtime sample_broken_fetch_table checks).1.
Proof.
  apply (run_checks_one_result_each sample_runtime sample_broken_fetch_table).
  intros check headers rows. unfold sample_broken_fetch_table, sample_fetch_table.
  destruct (bool_decide _); [done|].
  destruct (pass_condition check); intros [= <- <-]; repeat constructor.
Defined.

(** X22. What the status of [_run_checks] means, when the connection gives
    rows with one cell per column: it is 0 exactly when every check other
    than the diagnostic one holds of the data, that is its query runs, a
    zero-rows query finds nothing and the coverage query counts no unassigned
    event.  Nothing that the diagnostic check or a summary query returns can
    change it. *)
Theorem run_checks_status_meaning (R : Runtime)
    (fetch : SqlCheck → Outcome (list (list N) * list (list PyVal))) :
  rectangular fetch →
  _run_checks R fetch = Some 0
  ↔ ∀ check, check ∈ checks → pass_condition check ≠ diagnostic_dupes →
      ∃ headers rows,
        fetch check = Return (headers, rows) ∧
        (pass_condition check = zero_rows → rows = []) ∧
        (pass_condition check = event_coverage →
         ∃ unassigned,
           unassigned_events headers rows = Some unassigned ∧
           eq_zero unassigned = true).
Proof.
  intros Hrect. unfold _run_checks. generalize checks. intros cs.
  destruct (summary_table_prints R (run_checks_from R fetch cs).1) as [text ->].
  destruct (run_checks_rectangular R fetch cs Hrect) as [_ ->]. simpl.
  assert (∀ check,
            healthy fetch check = true
            ↔ ∃ headers rows,
                fetch check = Return (headers, rows) ∧
                (pass_condition check = zero_rows → rows = []) ∧
                (pass_condition check = event_coverage →
                 ∃ unassigned,
                   unassigned_events headers rows = Some unassigned ∧
                   eq_zero unassigned = true)) as Hhealthy.
  { intros check. unfold healthy.
    destruct (fetch check) as [[headers rows]|msg|exc];
      [|by split; [|intros (? & ? & ? & _)]..].
    split.
    - intros Hok. exists headers, rows. split; [done|].
      destruct (pass_condition check); split; try done.
      + intros _. by apply bool_decide_eq_true in Hok.
      + intros _. destruct (unassigned_events headers rows); [by eexists|done].
    - intros (? & ? & [= <- <-] & Hzero & Hcov).
      destruct (pass_condition check); try done.
      + by apply bool_decide_eq_true, Hzero.
      + by destruct Hcov as (unassigned & -> & ?). }
  destruct (existsb _ cs) eqn:Hflag.
  - split; [done|]. intros Hall. exfalso.
    apply existsb_exists in Hflag as (check & Hin%list_elem_of_In & Hbad).
    apply andb_true_iff in Hbad as [Hbad Hdiag].
    apply negb_true_iff in Hbad, Hdiag. apply bool_decide_eq_false in Hdiag.
    apply Hall, Hhealthy in Hdiag; [|done]. congruence.
  - split; [|done]. intros _ check Hin Hdiag. apply Hhealthy.
    destruct (healthy fetch check) eqn:Hok; [done|]. exfalso.
    assert (existsb (λ check, negb (healthy fetch check)
                      && negb (bool_decide (pass_condition check = diagnostic_dupes)))
              cs = true) as Htrue; [|congruence].
    apply existsb_exists. exists check. split; [by apply list_elem_of_In|].
    by rewrite Hok, bool_decide_false.
Qed.

Lemma run_checks_status_meaning_witness :
  _run_checks sample_runtime sample_fetch_table = Some 0
  ↔ ∀ check, check ∈ checks → pass_condition check ≠ diagnostic_dupes →
      ∃ headers rows,
        sample_fetch_table check = Return (headers, rows) ∧
        (pass_condition check = zero_rows → rows = []) ∧
        (pass_condition check = event_coverage →
         ∃ unassigned,
           unassigned_events headers rows = Some unassigned ∧
           eq_zero unassigned = true).
Proof.
  apply (run_checks_status_meaning sample_runtime sample_fetch_table).
  intros check headers rows. unfold sample_fetch_table.
  destruct (pass_condition check); intros [= <- <-]; repeat constructor.
Defined.
